(** * Developer_Aggregator: adapters, fan-out and router registry

    A shallow embedding of the FastAPI gateway of the repository: the
    per-source adapters under [single_application/] and [endpoints/] and the
    composition root [aggregator/aggregator_main.py].

    Every adapter is a Python coroutine that awaits [httpx] calls, raises
    and catches exceptions, and shapes loosely typed JSON into pydantic
    records.  The embedding keeps that structure:

    - JSON documents are the inductive type [json]; the Python operations the
      adapters apply to them ([x.get(k, d)], [x[k]], [x[:n]], iteration,
      truthiness, f-string formatting) are functions that raise the Python
      exception where Python raises it;
    - a coroutine is a computation in the monad [M]: it threads the list of
      upstream requests issued so far and ends in a value or in an exception;
    - the upstream is a function from a request to its reply or to a
      transport failure;
    - [os.getenv] reads a finite map from setting names to values. *)

From Stdlib Require Import ZArith List Ascii String Bool Lia.
From stdpp Require Import base option list strings gmap pretty.

#[local] Set Warnings "-register-all".

Local Open Scope string_scope.
Local Open Scope list_scope.
Local Open Scope Z_scope.

(** ** JSON documents as Python values *)

(** [json.loads] output: [None], [bool], [int], [str], [list], [dict].  A dict
    is an association list in insertion order; a key is bound to its first
    entry.  Floating-point numbers are not part of the model. *)
Inductive json : Type :=
| JNull
| JBool (b : bool)
| JInt (n : Z)
| JStr (s : string)
| JList (items : list json)
| JDict (fields : list (string * json)).

(** ** Upstream requests, replies and exceptions *)

Record request : Type := Request {
  req_url : string;
  req_headers : list (string * string);
  req_params : list (string * string);
  req_auth : option (string * string)
}.

(** An [httpx.Response].  [json_body] is what [resp.json()] decodes from
    [text], [None] when the body is not JSON; [error_message] is the message
    httpx gives the [HTTPStatusError] it raises for this response. *)
Record response : Type := Response {
  status_code : Z;
  text : string;
  json_body : option json;
  error_message : string
}.

(** What one upstream call ends in: a transport-level failure (DNS,
    connection refused, timeout: [httpx.RequestError], with its message) or
    a reply. *)
Inductive net_result : Type :=
| Unreachable (msg : string)
| Reply (resp : response).

(** The upstream: every request has one fate.  It is a function of the
    request alone, so the order in which concurrent tasks reach it does not
    matter. *)
Definition network : Type := request -> net_result.

(** The exceptions the adapters raise, catch or let escape.  A [KeyError]
    carries what [str(e)] shows for it: the [repr] of the missing key;
    [ParserRejectedMarkup] is the exception of BeautifulSoup. *)
Inductive exn : Type :=
| HTTPStatusError (resp : response)
| RequestError (msg : string)
| HTTPException (status : Z) (detail : string)
| JSONDecodeError
| KeyError (shown : string)
| IndexError
| TypeError
| AttributeError
| ValueError
| ValidationError
| ParserRejectedMarkup.

(** ** The coroutine monad *)

Inductive outcome (A : Type) : Type :=
| Return (a : A)
| Raise (e : exn).
Arguments Return {A} a.
Arguments Raise {A} e.

(** The requests issued so far, oldest first. *)
Definition trace : Type := list request.

Definition M (A : Type) : Type := trace -> outcome A * trace.

Definition ret {A} (a : A) : M A := fun tr => (Return a, tr).

Definition raise {A} (e : exn) : M A := fun tr => (Raise e, tr).

Definition bind {A B} (m : M A) (k : A -> M B) : M B :=
  fun tr =>
    match m tr with
    | (Return a, tr') => k a tr'
    | (Raise e, tr') => (Raise e, tr')
    end.

#[global] Instance M_ret : MRet M := @ret.
#[global] Instance M_bind : MBind M := fun A B k m => bind m k.

(** [try: body except ...]: [handler e] is [Some h] when an [except] clause
    matches [e] (then [h] runs), [None] when none does (then [e] escapes). *)
Definition try_except {A} (body : M A) (handler : exn -> option (M A)) : M A :=
  fun tr =>
    match body tr with
    | (Return a, tr') => (Return a, tr')
    | (Raise e, tr') =>
        match handler e with
        | Some h => h tr'
        | None => (Raise e, tr')
        end
    end.

(** [await asyncio.gather( *tasks )]: every task is started, so the requests
    of all of them are issued, whatever each ends in.  The results come in
    task order; when tasks raise, one exception escapes, here that of the
    first such task in task order (every exception that escapes a task
    of the adapters ends in the same answer).  The tasks share nothing but
    the upstream, which answers each request on its own, so running them
    one after the other gives the results of any interleaving; only the
    order of the trace is particular to this order. *)
Fixpoint gather {A} (tasks : list (M A)) : M (list A) :=
  match tasks with
  | [] => ret []
  | t :: rest =>
      fun tr =>
        match t tr with
        | (Return r, tr') => (rs ← gather rest; ret (r :: rs)) tr'
        | (Raise e, tr') => (Raise e, (gather rest tr').2)
        end
  end.

(** [[f x for x in xs]], evaluated left to right. *)
Fixpoint for_each {A B} (f : A -> M B) (xs : list A) : M (list B) :=
  match xs with
  | [] => ret []
  | x :: rest => y ← f x; ys ← for_each f rest; ret (y :: ys)
  end.

(** [[f x for x in xs if cond x]], evaluated left to right. *)
Fixpoint comprehension {A B} (cond : A -> M bool) (f : A -> M B) (xs : list A)
  : M (list B) :=
  match xs with
  | [] => ret []
  | x :: rest =>
      c ← cond x;
      if c : bool
      then y ← f x; ys ← comprehension cond f rest; ret (y :: ys)
      else comprehension cond f rest
  end.

(** ** httpx *)

Section Httpx.
Context (net : network).

(** [await client.get(url, headers=..., params=...)]: one upstream call. *)
Definition client_get (req : request) : M response :=
  fun tr =>
    match net req with
    | Unreachable msg => (Raise (RequestError msg), tr ++ [req])
    | Reply resp => (Return resp, tr ++ [req])
    end.

End Httpx.

Definition is_success (resp : response) : bool :=
  (200 <=? status_code resp) && (status_code resp <=? 299).

(** [resp.raise_for_status()] *)
Definition raise_for_status (resp : response) : M unit :=
  if is_success resp then ret tt else raise (HTTPStatusError resp).

(** [resp.json()] *)
Definition resp_json (resp : response) : M json :=
  match json_body resp with
  | Some j => ret j
  | None => raise JSONDecodeError
  end.

(** [client.get(url)] with no header, parameter or credentials *)
Definition get (url : string) : request := Request url [] [] None.

(** ** Python strings *)

(** A [str] is kept as its UTF-8 encoding, so a character is one to four
    bytes of a [string]. *)
Definition byte_of (c : ascii) : Z := Z.of_nat (nat_of_ascii c).

Definition char_of (n : Z) : ascii := ascii_of_nat (Z.to_nat n).

(** The UTF-8 encoding of a code point. *)
Definition utf8 (cp : Z) : string :=
  if cp <? 128 then String (char_of cp) ""
  else if cp <? 2048
  then String (char_of (192 + cp / 64)) (String (char_of (128 + cp mod 64)) "")
  else if cp <? 65536
  then String (char_of (224 + cp / 4096))
         (String (char_of (128 + cp / 64 mod 64))
            (String (char_of (128 + cp mod 64)) ""))
  else String (char_of (240 + cp / 262144))
         (String (char_of (128 + cp / 4096 mod 64))
            (String (char_of (128 + cp / 64 mod 64))
               (String (char_of (128 + cp mod 64)) ""))).

(** The value of a continuation byte [10xxxxxx]. *)
Definition continuation (c : ascii) : option Z :=
  let b := byte_of c in
  if (128 <=? b) && (b <=? 191) then Some (b - 128) else None.

(** The character a string begins with: its code point and the number of
    bytes it takes.  [None] where the bytes are not the UTF-8 of a character
    (a stray continuation byte, a sequence cut short, an overlong form, a
    surrogate, a value past U+10FFFF). *)
Definition decode_char (s : string) : option (Z * nat) :=
  match s with
  | EmptyString => None
  | String c0 rest =>
      let b0 := byte_of c0 in
      if b0 <? 128 then Some (b0, 1%nat)
      else if (192 <=? b0) && (b0 <=? 223)
      then match rest with
           | String c1 _ =>
               x1 ← continuation c1;
               let cp := (b0 - 192) * 64 + x1 in
               if 128 <=? cp then Some (cp, 2%nat) else None
           | _ => None
           end
      else if (224 <=? b0) && (b0 <=? 239)
      then match rest with
           | String c1 (String c2 _) =>
               x1 ← continuation c1;
               x2 ← continuation c2;
               let cp := ((b0 - 224) * 64 + x1) * 64 + x2 in
               if (2048 <=? cp) && negb ((55296 <=? cp) && (cp <=? 57343))
               then Some (cp, 3%nat) else None
           | _ => None
           end
      else if (240 <=? b0) && (b0 <=? 247)
      then match rest with
           | String c1 (String c2 (String c3 _)) =>
               x1 ← continuation c1;
               x2 ← continuation c2;
               x3 ← continuation c3;
               let cp := (((b0 - 240) * 64 + x1) * 64 + x2) * 64 + x3 in
               if (65536 <=? cp) && (cp <=? 1114111) then Some (cp, 4%nat) else None
           | _ => None
           end
      else None
  end.

(** The characters for which [str.isspace] holds: tab to carriage return,
    the four separators 28..31, the space, and the spaces of Unicode past
    ASCII (next line, no-break space, Ogham space mark, en quad to hair
    space, line and paragraph separator, narrow no-break space, medium
    mathematical space, ideographic space). *)
Definition space_characters : list Z :=
  [9; 10; 11; 12; 13; 28; 29; 30; 31; 32; 133; 160; 5760;
   8192; 8193; 8194; 8195; 8196; 8197; 8198; 8199; 8200; 8201; 8202;
   8232; 8233; 8239; 8287; 12288].

Definition is_space (cp : Z) : bool := existsb (Z.eqb cp) space_characters.

(** The whitespace characters as strings. *)
Definition whitespace : list string := map utf8 space_characters.

(** The whitespace of C's [isspace], which [int] skips around a number. *)
Definition c_whitespace : list string := map utf8 [9; 10; 11; 12; 13; 32].

Fixpoint starts_with (p s : string) : bool :=
  match p, s with
  | EmptyString, _ => true
  | String a p', String b s' => Ascii.eqb a b && starts_with p' s'
  | String _ _, EmptyString => false
  end.

(** [s.endswith(p)] *)
Fixpoint ends_with (p s : string) : bool :=
  String.eqb p s ||
  match s with
  | String _ rest => ends_with p rest
  | EmptyString => false
  end.

Section Strip.
Context (spaces : list string).

(** The number of bytes of the character of [spaces] that [s] begins with,
    0 when it begins with none. *)
Definition space_width (s : string) : nat :=
  match List.find (fun w => starts_with w s) spaces with
  | Some w => String.length w
  | None => 0
  end.

(** [lstrip_from skip s]: [s] without its first [skip] bytes and the
    characters of [spaces] that follow them. *)
Fixpoint lstrip_from (skip : nat) (s : string) : string :=
  match s with
  | EmptyString => EmptyString
  | String _ rest =>
      match skip with
      | S k => lstrip_from k rest
      | O =>
          match space_width s with
          | S k => lstrip_from k rest
          | O => s
          end
      end
  end.

Definition lstrip_of (s : string) : string := lstrip_from 0 s.

(** What is kept of [s] is kept of every string that ends in [s]; it is a
    character of [spaces] only when all that precedes it in the whole
    string is stripped as well. *)
Fixpoint rstrip_of (s : string) : string :=
  match s with
  | EmptyString => EmptyString
  | String c rest =>
      let kept := String c (rstrip_of rest) in
      if existsb (String.eqb kept) spaces then EmptyString else kept
  end.

Definition strip_of (s : string) : string := rstrip_of (lstrip_of s).

(** The maximal runs of characters that are not in [spaces]. [skip] bytes
    of a character of [spaces] are still to be passed, [cur] is the run
    read so far. *)
Fixpoint split_from (skip : nat) (cur : string) (s : string) : list string :=
  match s with
  | EmptyString => if String.eqb cur "" then [] else [cur]
  | String c rest =>
      match skip with
      | S k => split_from k cur rest
      | O =>
          match space_width s with
          | S k => (if String.eqb cur "" then [] else [cur]) ++ split_from k "" rest
          | O => split_from 0 (cur +:+ String c "") rest
          end
      end
  end.

End Strip.

(** [s.lstrip()], [s.rstrip()], [s.strip()] *)
Definition lstrip : string -> string := lstrip_of whitespace.
Definition rstrip : string -> string := rstrip_of whitespace.
Definition strip : string -> string := strip_of whitespace.

(** [s.split()], and [re.findall(r"\S+", s)]: the maximal runs of characters
    that are not whitespace. *)
Definition split_ws (s : string) : list string := split_from whitespace 0 "" s.

(** [needle in s] on strings *)
Fixpoint contains (needle s : string) : bool :=
  starts_with needle s ||
  match s with
  | String _ rest => contains needle rest
  | EmptyString => false
  end.

(** The characters of a string, each as a string (iterating a [str]), and
    [s[:n]] below: by byte, which is by character on ASCII text.  The
    adapters iterate or slice a string only where the upstream sends one in
    place of a list. *)
Fixpoint chars (s : string) : list string :=
  match s with
  | EmptyString => []
  | String c rest => String c "" :: chars rest
  end.

(** [s[:n]] on strings *)
Fixpoint str_take (n : nat) (s : string) : string :=
  match n, s with
  | S n', String c rest => String c (str_take n' rest)
  | _, _ => EmptyString
  end.

(** The digit zero of every run of decimal digits of Unicode 14 (category
    [Nd]): the digits of a script are ten consecutive characters, of values
    0 to 9. *)
Definition decimal_zeros : list Z :=
  [48; 1632; 1776; 1984; 2406; 2534; 2662; 2790; 2918; 3046; 3174; 3302; 3430;
   3558; 3664; 3792; 3872; 4160; 4240; 6112; 6160; 6470; 6608; 6784; 6800; 6992;
   7088; 7232; 7248; 42528; 43216; 43264; 43472; 43504; 43600; 44016; 65296;
   66720; 68912; 69734; 69872; 69942; 70096; 70384; 70736; 70864; 71248; 71360;
   71472; 71904; 72016; 72784; 73040; 73120; 92768; 92864; 93008; 120782;
   120792; 120802; 120812; 120822; 123200; 123632; 125264; 130032].

(** The value of a decimal digit. *)
Definition decimal_value (cp : Z) : option Z :=
  zero ← List.find (fun zero => (zero <=? cp) && (cp <? zero + 10)) decimal_zeros;
  Some (cp - zero).

(** What [int] reads for one character: an ASCII character is itself, any
    other whitespace a space, any other decimal digit its ASCII digit;
    nothing else can be part of a number. *)
Definition int_char (cp : Z) : option ascii :=
  if cp <? 127 then Some (char_of cp)
  else if is_space cp then Some " "%char
  else d ← decimal_value cp; Some (char_of (48 + d)).

(** The ASCII text [int] parses for [s]. [skip] bytes of the character just
    read are still to be passed. *)
Fixpoint int_text_from (skip : nat) (s : string) : option string :=
  match s with
  | EmptyString => Some EmptyString
  | String _ rest =>
      match skip with
      | S k => int_text_from k rest
      | O =>
          '(cp, width) ← decode_char s;
          a ← int_char cp;
          tail ← int_text_from (Nat.pred width) rest;
          Some (String a tail)
      end
  end.

Definition int_text (s : string) : option string := int_text_from 0 s.

Definition digit_value (c : ascii) : option Z :=
  let n := nat_of_ascii c in
  if ((48 <=? n) && (n <=? 57))%nat then Some (Z.of_nat n - 48) else None.

(** The digits of an [int] literal as [int(s)] reads them: decimal digits,
    where one underscore may stand between two digits. [after_digit] says
    whether the previous character was a digit. *)
Fixpoint parse_digits (acc : Z) (after_digit : bool) (s : string) : option Z :=
  match s with
  | EmptyString => if after_digit then Some acc else None
  | String c rest =>
      match digit_value c with
      | Some d => parse_digits (10 * acc + d) true rest
      | None =>
          if Ascii.eqb c "_" && after_digit
          then match rest with
               | String c' _ =>
                   match digit_value c' with
                   | Some _ => parse_digits acc false rest
                   | None => None
                   end
               | EmptyString => None
               end
          else None
      end
  end.

(** The number of digits of a literal. *)
Fixpoint count_digits (s : string) : nat :=
  match s with
  | EmptyString => 0
  | String c rest =>
      (match digit_value c with Some _ => 1 | None => 0 end + count_digits rest)%nat
  end.

(** [sys.int_info.default_max_str_digits]: a literal of more digits is
    refused. *)
Definition max_str_digits : nat := 4300.

(** [int(s)] for a string [s]: surrounding whitespace, an optional sign, the
    digits; anything else is a [ValueError]. *)
Definition parse_int (s : string) : option Z :=
  text ← int_text s;
  let literal := strip_of c_whitespace text in
  let '(negative, digits) :=
    match literal with
    | String "-" rest => (true, rest)
    | String "+" rest => (false, rest)
    | _ => (false, literal)
    end in
  n ← parse_digits 0 false digits;
  if (max_str_digits <? count_digits digits)%nat then None
  else Some (if negative : bool then - n else n).

Definition py_int (s : string) : M Z :=
  match parse_int s with
  | Some n => ret n
  | None => raise ValueError
  end.

(** [str(n)] for an [int] *)
Definition str_int (n : Z) : string := pretty n.

Definition squote : string := "'".
Definition dquote : string := String "034" "".
Definition backslash : string := String "092" "".

Definition hex_digit (n : nat) : string :=
  String (ascii_of_nat (if (n <? 10)%nat then 48 + n else 87 + n)) "".

(** One character of [repr(s)] under the chosen quote. Bytes from 128 on
    (UTF-8 of non-ASCII text) stand for themselves. *)
Definition repr_char (quote : ascii) (c : ascii) : string :=
  let n := nat_of_ascii c in
  if Ascii.eqb c quote || Ascii.eqb c "092" then backslash +:+ String c ""
  else if (n =? 9)%nat then backslash +:+ "t"
  else if (n =? 10)%nat then backslash +:+ "n"
  else if (n =? 13)%nat then backslash +:+ "r"
  else if ((n <? 32) || (n =? 127))%nat
       then backslash +:+ "x" +:+ hex_digit (n / 16) +:+ hex_digit (n mod 16)
  else String c "".

Fixpoint repr_chars (quote : ascii) (s : string) : string :=
  match s with
  | EmptyString => EmptyString
  | String c rest => repr_char quote c +:+ repr_chars quote rest
  end.

(** [repr(s)] for a [str]: single quotes, unless the text has a single quote
    and no double quote. *)
Definition repr_str (s : string) : string :=
  if contains squote s && negb (contains dquote s)
  then dquote +:+ repr_chars "034" s +:+ dquote
  else squote +:+ repr_chars "'" s +:+ squote.

(** ** Python operations on JSON values *)

(** [repr(x)] *)
Fixpoint py_repr (x : json) : string :=
  match x with
  | JNull => "None"
  | JBool b => if b then "True" else "False"
  | JInt n => str_int n
  | JStr s => repr_str s
  | JList items => "[" +:+ String.concat ", " (map py_repr items) +:+ "]"
  | JDict fields =>
      "{" +:+
      String.concat ", "
        (map (fun kv => match kv with
                        | (k, v) => repr_str k +:+ ": " +:+ py_repr v
                        end) fields)
      +:+ "}"
  end.

(** [str(x)], which is what [{x}] inside an f-string writes. *)
Definition py_str (x : json) : string :=
  match x with
  | JStr s => s
  | _ => py_repr x
  end.

(** [bool(x)] *)
Definition truthy (x : json) : bool :=
  match x with
  | JNull => false
  | JBool b => b
  | JInt n => negb (n =? 0)
  | JStr s => negb (String.eqb s "")
  | JList items => match items with [] => false | _ => true end
  | JDict fields => match fields with [] => false | _ => true end
  end.

(** [x == s] for a string literal [s] *)
Definition eq_str (x : json) (s : string) : bool :=
  match x with
  | JStr t => String.eqb t s
  | _ => false
  end.

Fixpoint lookup_field (k : string) (fields : list (string * json)) : option json :=
  match fields with
  | [] => None
  | (k', v) :: rest => if String.eqb k' k then Some v else lookup_field k rest
  end.

(** [x.get(k, default)]: only a dict has the method. *)
Definition py_get (x : json) (k : string) (default : json) : M json :=
  match x with
  | JDict fields => ret (from_option id default (lookup_field k fields))
  | _ => raise AttributeError
  end.

(** [x[k]] for a string [k] *)
Definition py_getitem (x : json) (k : string) : M json :=
  match x with
  | JDict fields =>
      match lookup_field k fields with
      | Some v => ret v
      | None => raise (KeyError (repr_str k))
      end
  | _ => raise TypeError
  end.

(** [x[0]] *)
Definition py_first (x : json) : M json :=
  match x with
  | JList (v :: _) => ret v
  | JList [] => raise IndexError
  | JStr (String c _) => ret (JStr (String c ""))
  | JStr EmptyString => raise IndexError
  | JDict _ => raise (KeyError "0")
  | _ => raise TypeError
  end.

(** [x[:n]]: lists and strings can be sliced; a dict cannot (a [TypeError],
    from Python 3.12 on a [KeyError]: no handler of the adapters tells the
    two apart where a response is sliced). *)
Definition py_slice (x : json) (n : nat) : M json :=
  match x with
  | JList items => ret (JList (take n items))
  | JStr s => ret (JStr (str_take n s))
  | _ => raise TypeError
  end.

(** [for v in x]: the values iteration yields. *)
Definition py_iter (x : json) : M (list json) :=
  match x with
  | JList items => ret items
  | JDict fields => ret (map (fun kv => JStr (fst kv)) fields)
  | JStr s => ret (map JStr (chars s))
  | _ => raise TypeError
  end.

(** [**x] in a call: [x] has to be a mapping (its keys are strings here). *)
Definition kwargs (x : json) : M (list (string * json)) :=
  match x with
  | JDict fields => ret fields
  | _ => raise TypeError
  end.

(** ** pydantic field validation *)

(** A value of the annotated type is kept as it is; a value of another type
    is a [ValidationError] (the coercions pydantic applies in lax mode, such
    as reading the string [12] as an int, are not modelled). *)
Definition as_int (x : json) : M Z :=
  match x with JInt n => ret n | _ => raise ValidationError end.

Definition as_str (x : json) : M string :=
  match x with JStr s => ret s | _ => raise ValidationError end.

Definition as_bool (x : json) : M bool :=
  match x with JBool b => ret b | _ => raise ValidationError end.

(** [T | None] *)
Definition as_optional {A} (validate : json -> M A) (x : json) : M (option A) :=
  match x with JNull => ret None | _ => v ← validate x; ret (Some v) end.

(** [list[T]] *)
Definition as_list {A} (validate : json -> M A) (x : json) : M (list A) :=
  match x with JList items => for_each validate items | _ => raise ValidationError end.

(** A field without a default: it has to be among the keyword arguments. *)
Definition required {A} (validate : json -> M A) (kw : list (string * json))
    (name : string) : M A :=
  match lookup_field name kw with
  | Some x => validate x
  | None => raise ValidationError
  end.

(** A field with a default, which is not validated. *)
Definition defaulted {A} (validate : json -> M A) (default : A)
    (kw : list (string * json)) (name : string) : M A :=
  match lookup_field name kw with
  | Some x => validate x
  | None => ret default
  end.

(** [Model( **x, name=v )] once [**x] is unpacked and [v] evaluated: a keyword
    given twice is a [TypeError]. *)
Definition kwargs_extend (kw : list (string * json)) (name : string) (v : json)
  : M (list (string * json)) :=
  match lookup_field name kw with
  | Some _ => raise TypeError
  | None => ret (kw ++ [(name, v)])
  end.

(** ** The environment *)

(** [os.getenv(name)] and [os.getenv(name, default)] over the process
    environment (after [load_dotenv()]). *)
Definition getenv (environ : gmap string string) (name : string) : option string :=
  environ !! name.

Definition getenv_default (environ : gmap string string) (name default : string)
  : string :=
  from_option id default (environ !! name).

(** [bool(s)] for [s : str | None] and for [s : str] *)
Definition nonempty (s : string) : bool := negb (String.eqb s "").

Definition truthy_str (s : option string) : bool :=
  match s with Some t => nonempty t | None => false end.

(** [bool(n)] for [n : int | None] *)
Definition truthy_int (n : option Z) : bool :=
  match n with Some k => negb (k =? 0) | None => false end.

(** ** What FastAPI answers *)

(** An [HTTPException] becomes its status and detail, any other exception
    that escapes an endpoint becomes a bare 500, a returned value a 200. *)
Inductive http_reply (A : Type) : Type :=
| Ok200 (body : A)
| Error (status : Z) (detail : string).
Arguments Ok200 {A} body.
Arguments Error {A} status detail.

Definition reply_of {A} (o : outcome A) : http_reply A :=
  match o with
  | Return a => Ok200 a
  | Raise (HTTPException status detail) => Error status detail
  | Raise _ => Error 500 "Internal Server Error"
  end.

(** Serving one request: the endpoint runs from an empty trace. *)
Definition serve {A} (endpoint : M A) : http_reply A * trace :=
  let '(o, tr) := endpoint [] in (reply_of o, tr).

(** An [APIRouter]: the paths of its GET routes, in the order the module
    declares them. *)
Record APIRouter : Type := { routes : list string }.

(** * single_application/hacker_news.py *)

Module HackerNews.

Definition BASE_URL : string := "https://hacker-news.firebaseio.com/v0".

Record Story : Type := {
  id : Z;
  title : string;
  url : option string;
  by_ : string;
  score : Z;
  time : Z;
  type : string;
  descendants : Z
}.

Record User : Type := {
  user_id : string;
  created : Z;
  karma : Z;
  about : option string;
  submitted : list Z
}.

(** [Story( **data )] *)
Definition Story_of (data : json) : M Story :=
  kw ← kwargs data;
  id ← required as_int kw "id";
  title ← defaulted as_str "N/A" kw "title";
  url ← defaulted (as_optional as_str) None kw "url";
  by_ ← defaulted as_str "N/A" kw "by";
  score ← defaulted as_int 0 kw "score";
  time ← defaulted as_int 0 kw "time";
  type ← defaulted as_str "N/A" kw "type";
  descendants ← defaulted as_int 0 kw "descendants";
  ret {| id := id; title := title; url := url; by_ := by_; score := score;
         time := time; type := type; descendants := descendants |}.

(** [User( **user_data )] *)
Definition User_of (data : json) : M User :=
  kw ← kwargs data;
  user_id ← required as_str kw "id";
  created ← required as_int kw "created";
  karma ← required as_int kw "karma";
  about ← defaulted (as_optional as_str) None kw "about";
  submitted ← defaulted (as_list as_int) [] kw "submitted";
  ret {| user_id := user_id; created := created; karma := karma;
         about := about; submitted := submitted |}.

Section Adapter.
Context (net : network).

Definition item_url (item_id : json) : string :=
  BASE_URL +:+ "/item/" +:+ py_str item_id +:+ ".json".

(** [fetch_item]: the item's JSON, or [None] when the call fails. *)
Definition fetch_item (item_id : json) : M json :=
  try_except
    (resp ← client_get net (get (item_url item_id));
     raise_for_status resp;;
     resp_json resp)
    (fun e => match e with
              | HTTPStatusError _ | RequestError _ => Some (ret JNull)
              | _ => None
              end).

Definition user_url (user_id : string) : string :=
  BASE_URL +:+ "/user/" +:+ user_id +:+ ".json".

Definition fetch_user (user_id : string) : M json :=
  try_except
    (resp ← client_get net (get (user_url user_id));
     raise_for_status resp;;
     user_data ← resp_json resp;
     if truthy user_data then ret user_data
     else raise (HTTPException 404 ("User '" +:+ user_id +:+ "' not found")))
    (fun e => match e with
              | HTTPStatusError r =>
                  Some (raise (HTTPException (status_code r)
                                 ("Failed to fetch user: " +:+ text r)))
              | RequestError _ =>
                  Some (raise (HTTPException 503
                                 "Could not connect to the Hacker News API."))
              | _ => None
              end).

Definition stories_url (story_type : string) : string :=
  BASE_URL +:+ "/" +:+ story_type +:+ "stories.json".

(** [data and data.get("type") == "story"] *)
Definition is_story (data : json) : M bool :=
  if truthy data
  then t ← py_get data "type" JNull; ret (eq_str t "story")
  else ret false.

Definition get_stories_by_type (story_type : string) : M (list Story) :=
  try_except
    (resp ← client_get net (get (stories_url story_type));
     raise_for_status resp;;
     ids ← resp_json resp;
     story_ids ← py_slice ids 10;
     story_ids ← py_iter story_ids;
     let tasks := map fetch_item story_ids in
     results ← gather tasks;
     comprehension is_story Story_of results)
    (fun e => match e with
              | HTTPStatusError r =>
                  Some (raise (HTTPException (status_code r)
                                 ("Failed to fetch " +:+ story_type +:+
                                  " stories: " +:+ text r)))
              | RequestError _ =>
                  Some (raise (HTTPException 503
                                 "Could not connect to the Hacker News API."))
              | _ => None
              end).

(** [GET /topstories] *)
Definition get_top_stories : M (list Story) := get_stories_by_type "top".

(** [GET /newstories] *)
Definition get_new_stories : M (list Story) := get_stories_by_type "new".

(** [GET /item/{item_id}] *)
Definition get_story_item (item_id : Z) : M Story :=
  story_data ← fetch_item (JInt item_id);
  if truthy story_data then Story_of story_data
  else raise (HTTPException 404
                ("Item with ID " +:+ str_int item_id +:+
                 " not found or failed to fetch.")).

(** [GET /user/{user_id}] *)
Definition get_hn_user (user_id : string) : M User :=
  user_data ← fetch_user user_id;
  User_of user_data.

End Adapter.

Definition router : APIRouter := {| routes := ["/topstories"; "/newstories"; "/item/{item_id}"; "/user/{user_id}"] |}.

End HackerNews.

(** * single_application/stackoverflow.py *)

Module StackOverflow.

Definition BASE_URL : string := "https://api.stackexchange.com/2.3".

Record Question : Type := {
  question_id : Z;
  title : string;
  link : string
}.

Record Answer : Type := {
  answer_id : Z;
  a_question_id : Z;
  a_link : string
}.

Record FeaturedQuestion : Type := {
  f_title : string;
  f_link : string;
  bounty_amount : Z;
  answer_count : Z;
  owner_display_name : string
}.

(** [Question( **q )] *)
Definition Question_of (q : json) : M Question :=
  kw ← kwargs q;
  question_id ← required as_int kw "question_id";
  title ← required as_str kw "title";
  link ← required as_str kw "link";
  ret {| question_id := question_id; title := title; link := link |}.

(** [Answer( **a, link=f"https://stackoverflow.com/a/{a['answer_id']}" )] *)
Definition Answer_of (a : json) : M Answer :=
  kw ← kwargs a;
  aid ← py_getitem a "answer_id";
  kw ← kwargs_extend kw "link" (JStr ("https://stackoverflow.com/a/" +:+ py_str aid));
  answer_id ← required as_int kw "answer_id";
  question_id ← required as_int kw "question_id";
  link ← required as_str kw "link";
  ret {| answer_id := answer_id; a_question_id := question_id; a_link := link |}.

(** [FeaturedQuestion(title=item.get("title"), ...)] *)
Definition FeaturedQuestion_of (item : json) : M FeaturedQuestion :=
  title ← py_get item "title" JNull;
  link ← py_get item "link" JNull;
  bounty_amount ← py_get item "bounty_amount" JNull;
  answer_count ← py_get item "answer_count" JNull;
  owner ← py_get item "owner" (JDict []);
  display_name ← py_get owner "display_name" JNull;
  title ← as_str title;
  link ← as_str link;
  bounty_amount ← as_int bounty_amount;
  answer_count ← as_int answer_count;
  display_name ← as_str display_name;
  ret {| f_title := title; f_link := link; bounty_amount := bounty_amount;
         answer_count := answer_count; owner_display_name := display_name |}.

Section Adapter.
Context (environ : gmap string string) (net : network).

Definition DEFAULT_USER_ID : option string := getenv environ "STACKOVERFLOW_USER_ID".
Definition DEFAULT_USERNAME : option string := getenv environ "STACKOVERFLOW_USERNAME".

Definition lookup_url (username : string) : string :=
  BASE_URL +:+ "/users?order=desc&sort=reputation&inname=" +:+ username +:+
  "&site=stackoverflow".

(** [get_user_id_from_username]: one upstream call mapping a display name
    to the id of the best-reputed match. *)
Definition get_user_id_from_username (username : string) : M json :=
  try_except
    (resp ← client_get net (get (lookup_url username));
     raise_for_status resp;;
     body ← resp_json resp;
     items ← py_get body "items" (JList []);
     if truthy items
     then first ← py_first items; py_getitem first "user_id"
     else raise (HTTPException 404
                   ("Stack Overflow user '" +:+ username +:+ "' not found")))
    (fun e => match e with
              | HTTPStatusError r =>
                  Some (raise (HTTPException (status_code r) "Failed to fetch user ID."))
              | RequestError _ =>
                  Some (raise (HTTPException 503
                                 "Could not connect to the Stack Exchange API."))
              | _ => None
              end).

(** [resolve_user_id(client, user_id, username)] *)
Definition resolve_user_id (user_id : option Z) (username : option string) : M json :=
  if truthy_int user_id then ret (JInt (default 0 user_id))
  else if truthy_str DEFAULT_USER_ID
  then n ← py_int (default "" DEFAULT_USER_ID); ret (JInt n)
  else if truthy_str username
  then get_user_id_from_username (default "" username)
  else if truthy_str DEFAULT_USERNAME
  then get_user_id_from_username (default "" DEFAULT_USERNAME)
  else raise (HTTPException 400
                "A Stack Overflow user_id or username must be provided.").

Definition featured_url : string :=
  BASE_URL +:+ "/questions/featured?order=desc&sort=activity&site=stackoverflow".

(** [GET /featured] *)
Definition fetch_featured_questions : M (list FeaturedQuestion) :=
  try_except
    (resp ← client_get net (get featured_url);
     raise_for_status resp;;
     body ← resp_json resp;
     data ← py_get body "items" (JList []);
     top ← py_slice data 15;
     items ← py_iter top;
     for_each FeaturedQuestion_of items)
    (fun e => match e with
              | HTTPStatusError r =>
                  Some (raise (HTTPException (status_code r)
                                 "Failed to fetch featured questions."))
              | RequestError _ =>
                  Some (raise (HTTPException 503
                                 "Could not connect to the Stack Exchange API."))
              | _ => None
              end).

Definition questions_url (resolved_user_id : json) : string :=
  BASE_URL +:+ "/users/" +:+ py_str resolved_user_id +:+
  "/questions?order=desc&sort=creation&site=stackoverflow".

(** [GET /questions] *)
Definition fetch_questions (user_id : option Z) (username : option string)
  : M (list Question) :=
  resolved_user_id ← resolve_user_id user_id username;
  try_except
    (resp ← client_get net (get (questions_url resolved_user_id));
     raise_for_status resp;;
     body ← resp_json resp;
     data ← py_get body "items" (JList []);
     top ← py_slice data 10;
     qs ← py_iter top;
     for_each Question_of qs)
    (fun e => match e with
              | HTTPStatusError r =>
                  Some (raise (HTTPException (status_code r) "Failed to fetch questions."))
              | _ => None
              end).

Definition answers_url (resolved_user_id : json) : string :=
  BASE_URL +:+ "/users/" +:+ py_str resolved_user_id +:+
  "/answers?order=desc&sort=creation&site=stackoverflow".

(** [GET /answers] *)
Definition fetch_answers (user_id : option Z) (username : option string)
  : M (list Answer) :=
  resolved_user_id ← resolve_user_id user_id username;
  try_except
    (resp ← client_get net (get (answers_url resolved_user_id));
     raise_for_status resp;;
     body ← resp_json resp;
     data ← py_get body "items" (JList []);
     top ← py_slice data 10;
     answers ← py_iter top;
     for_each Answer_of answers)
    (fun e => match e with
              | HTTPStatusError r =>
                  Some (raise (HTTPException (status_code r) "Failed to fetch answers."))
              | _ => None
              end).

End Adapter.

Definition router : APIRouter := {| routes := ["/featured"; "/questions"; "/answers"] |}.

End StackOverflow.

(** * single_application/codeforces.py *)

Module Codeforces.

Definition BASE_URL : string := "https://codeforces.com/api".

Record Contest : Type := {
  id : Z;
  name : string;
  phase : string;
  link : string
}.

Record UserInfo : Type := {
  handle : string;
  firstName : option string;
  lastName : option string;
  country : option string;
  organization : option string;
  rating : option Z;
  maxRating : option Z;
  rank : option string;
  maxRank : option string;
  lastOnline : option string;
  profileLink : string
}.

(** [Contest( **c, link=f"https://codeforces.com/contest/{c['id']}" )] *)
Definition Contest_of (c : json) : M Contest :=
  kw ← kwargs c;
  cid ← py_getitem c "id";
  kw ← kwargs_extend kw "link" (JStr ("https://codeforces.com/contest/" +:+ py_str cid));
  id ← required as_int kw "id";
  name ← required as_str kw "name";
  phase ← required as_str kw "phase";
  link ← required as_str kw "link";
  ret {| id := id; name := name; phase := phase; link := link |}.

Section Adapter.
Context (environ : gmap string string) (net : network).

(** [datetime.fromtimestamp(t).strftime("%Y-%m-%d %H:%M:%S")] in the server's
    time zone; [None] where [fromtimestamp] refuses the number. *)
Context (local_time : Z -> option string).

Definition DEFAULT_CODEFORCES_HANDLE : string :=
  getenv_default environ "CODEFORCES_HANDLE" "".

(** [format_time(timestamp)] *)
Definition format_time (timestamp : json) : M json :=
  if truthy timestamp
  then match timestamp with
       | JInt t => match local_time t with
                   | Some shown => ret (JStr shown)
                   | None => raise ValueError
                   end
       | JBool _ => match local_time 1 with
                    | Some shown => ret (JStr shown)
                    | None => raise ValueError
                    end
       | _ => raise TypeError
       end
  else ret JNull.

(** [UserInfo( **user_data, lastOnline=..., profileLink=... )] *)
Definition UserInfo_of (user_data : json) : M UserInfo :=
  kw ← kwargs user_data;
  seconds ← py_get user_data "lastOnlineTimeSeconds" JNull;
  last_online ← format_time seconds;
  h ← py_getitem user_data "handle";
  kw ← kwargs_extend kw "lastOnline" last_online;
  kw ← kwargs_extend kw "profileLink"
         (JStr ("https://codeforces.com/profile/" +:+ py_str h));
  handle ← required as_str kw "handle";
  firstName ← defaulted (as_optional as_str) None kw "firstName";
  lastName ← defaulted (as_optional as_str) None kw "lastName";
  country ← defaulted (as_optional as_str) None kw "country";
  organization ← defaulted (as_optional as_str) None kw "organization";
  rating ← defaulted (as_optional as_int) None kw "rating";
  maxRating ← defaulted (as_optional as_int) None kw "maxRating";
  rank ← defaulted (as_optional as_str) None kw "rank";
  maxRank ← defaulted (as_optional as_str) None kw "maxRank";
  lastOnline ← defaulted (as_optional as_str) None kw "lastOnline";
  profileLink ← required as_str kw "profileLink";
  ret {| handle := handle; firstName := firstName; lastName := lastName;
         country := country; organization := organization; rating := rating;
         maxRating := maxRating; rank := rank; maxRank := maxRank;
         lastOnline := lastOnline; profileLink := profileLink |}.

Definition contests_url : string := BASE_URL +:+ "/contest.list".

(** [c.get('phase') == 'BEFORE'] *)
Definition is_upcoming (c : json) : M bool :=
  p ← py_get c "phase" JNull; ret (eq_str p "BEFORE").

(** [GET /contests] *)
Definition get_contests : M (list Contest) :=
  try_except
    (resp ← client_get net (get contests_url);
     raise_for_status resp;;
     body ← resp_json resp;
     contests ← py_getitem body "result";
     contests ← py_iter contests;
     upcoming ← comprehension is_upcoming Contest_of contests;
     ret (take 10 upcoming))
    (fun e => match e with
              | HTTPStatusError r =>
                  Some (raise (HTTPException 500
                                 ("Failed to fetch or parse contests: " +:+
                                  error_message r)))
              | KeyError shown =>
                  Some (raise (HTTPException 500
                                 ("Failed to fetch or parse contests: " +:+ shown)))
              | RequestError _ =>
                  Some (raise (HTTPException 503
                                 "Could not connect to the Codeforces API."))
              | _ => None
              end).

Definition user_info_url (handle : string) : string :=
  BASE_URL +:+ "/user.info?handles=" +:+ handle.

(** [GET /userinfo/me] *)
Definition get_default_user_info : M UserInfo :=
  if negb (nonempty DEFAULT_CODEFORCES_HANDLE)
  then raise (HTTPException 400
                "CODEFORCES_HANDLE is not set in the environment file.")
  else
    let handle := DEFAULT_CODEFORCES_HANDLE in
    try_except
      (resp ← client_get net (get (user_info_url handle));
       raise_for_status resp;;
       body ← resp_json resp;
       result ← py_getitem body "result";
       user_data ← py_first result;
       UserInfo_of user_data)
      (fun e => match e with
                | HTTPStatusError _ =>
                    Some (raise (HTTPException 404
                                   ("Default Codeforces user '" +:+ handle +:+
                                    "' not found or API error.")))
                | KeyError _ | IndexError =>
                    Some (raise (HTTPException 404
                                   ("Default Codeforces user '" +:+ handle +:+
                                    "' not found.")))
                | RequestError _ =>
                    Some (raise (HTTPException 503
                                   "Could not connect to the Codeforces API."))
                | _ => None
                end).

(** [GET /userinfo/{handle}] *)
Definition get_user_info (handle : string) : M UserInfo :=
  try_except
    (resp ← client_get net (get (user_info_url handle));
     raise_for_status resp;;
     body ← resp_json resp;
     result ← py_getitem body "result";
     user_data ← py_first result;
     UserInfo_of user_data)
    (fun e => match e with
              | HTTPStatusError _ =>
                  Some (raise (HTTPException 404
                                 ("Codeforces user '" +:+ handle +:+
                                  "' not found or API error.")))
              | KeyError _ | IndexError =>
                  Some (raise (HTTPException 404
                                 ("Codeforces user '" +:+ handle +:+ "' not found.")))
              | RequestError _ =>
                  Some (raise (HTTPException 503
                                 "Could not connect to the Codeforces API."))
              | _ => None
              end).

End Adapter.

Definition router : APIRouter := {| routes := ["/contests"; "/userinfo/me"; "/userinfo/{handle}"] |}.

End Codeforces.

(** * single_application/gitlab.py *)

Module GitLab.

Record Project : Type := {
  id : Z;
  name : string;
  url : string
}.

Record Issue : Type := {
  issue_id : Z;
  title : string;
  issue_url : string
}.

Record Pipeline : Type := {
  project : string;
  pipeline_id : Z;
  status : string;
  pipeline_url : string
}.

(** [Project(id=p['id'], name=p['name'], url=p['web_url'])] *)
Definition Project_of (p : json) : M Project :=
  id ← py_getitem p "id";
  name ← py_getitem p "name";
  url ← py_getitem p "web_url";
  id ← as_int id;
  name ← as_str name;
  url ← as_str url;
  ret {| id := id; name := name; url := url |}.

(** [Issue(id=i['id'], title=i['title'], url=i['web_url'])] *)
Definition Issue_of (i : json) : M Issue :=
  id ← py_getitem i "id";
  title ← py_getitem i "title";
  url ← py_getitem i "web_url";
  id ← as_int id;
  title ← as_str title;
  url ← as_str url;
  ret {| issue_id := id; title := title; issue_url := url |}.

(** [Pipeline(project=project_name, pipeline_id=p['id'], status=p['status'],
    url=p['web_url'])] *)
Definition Pipeline_of (project_name : json) (p : json) : M Pipeline :=
  id ← py_getitem p "id";
  status ← py_getitem p "status";
  url ← py_getitem p "web_url";
  project ← as_str project_name;
  id ← as_int id;
  status ← as_str status;
  url ← as_str url;
  ret {| project := project; pipeline_id := id; status := status;
         pipeline_url := url |}.

Section Adapter.
Context (environ : gmap string string) (net : network).

Definition GITLAB_URL : string := getenv_default environ "GITLAB_URL" "https://gitlab.com".
Definition TOKEN : string := getenv_default environ "GITLAB_TOKEN" "".
Definition BASE_URL : string := GITLAB_URL +:+ "/api/v4".

(** [get_gitlab_headers()] *)
Definition get_gitlab_headers : M (list (string * string)) :=
  if negb (nonempty TOKEN)
  then raise (HTTPException 500 "GITLAB_TOKEN not found in .env file.")
  else ret [("PRIVATE-TOKEN", TOKEN)].

Definition projects_request (headers : list (string * string)) : request :=
  Request (BASE_URL +:+ "/projects") headers
    [("owned", "true"); ("order_by", "created_at"); ("sort", "desc"); ("per_page", "10")]
    None.

(** [GET /projects] *)
Definition fetch_projects : M (list Project) :=
  headers ← get_gitlab_headers;
  try_except
    (resp ← client_get net (projects_request headers);
     raise_for_status resp;;
     projects ← resp_json resp;
     projects ← py_iter projects;
     for_each Project_of projects)
    (fun e => match e with
              | HTTPStatusError r =>
                  Some (raise (HTTPException (status_code r)
                                 ("Failed to fetch GitLab projects: " +:+ text r)))
              | RequestError _ =>
                  Some (raise (HTTPException 503 "Could not connect to the GitLab API."))
              | _ => None
              end).

Definition issues_request (headers : list (string * string)) : request :=
  Request (BASE_URL +:+ "/issues") headers
    [("scope", "assigned_to_me"); ("order_by", "created_at"); ("sort", "desc");
     ("per_page", "10")]
    None.

(** [GET /issues] *)
Definition fetch_issues : M (list Issue) :=
  headers ← get_gitlab_headers;
  try_except
    (resp ← client_get net (issues_request headers);
     raise_for_status resp;;
     issues ← resp_json resp;
     issues ← py_iter issues;
     for_each Issue_of issues)
    (fun e => match e with
              | HTTPStatusError r =>
                  Some (raise (HTTPException (status_code r)
                                 ("Failed to fetch GitLab issues: " +:+ text r)))
              | RequestError _ =>
                  Some (raise (HTTPException 503 "Could not connect to the GitLab API."))
              | _ => None
              end).

Definition pipelines_request (project_id : json) (headers : list (string * string))
  : request :=
  Request (BASE_URL +:+ "/projects/" +:+ py_str project_id +:+ "/pipelines") headers
    [("per_page", "3")] None.

(** [get_pipelines_for_project(client, project, headers)]: the project's
    pipelines, or the empty list when the call fails. *)
Definition get_pipelines_for_project (project : json) (headers : list (string * string))
  : M (list Pipeline) :=
  project_id ← py_getitem project "id";
  project_name ← py_getitem project "name";
  try_except
    (resp ← client_get net (pipelines_request project_id headers);
     raise_for_status resp;;
     pipelines ← resp_json resp;
     pipelines ← py_iter pipelines;
     for_each (Pipeline_of project_name) pipelines)
    (fun e => match e with
              | HTTPStatusError _ | RequestError _ => Some (ret [])
              | _ => None
              end).

Definition recent_projects_request (headers : list (string * string)) : request :=
  Request (BASE_URL +:+ "/projects") headers
    [("owned", "true"); ("order_by", "last_activity_at"); ("sort", "desc");
     ("per_page", "3")]
    None.

(** [GET /pipelines] *)
Definition fetch_pipelines : M (list Pipeline) :=
  headers ← get_gitlab_headers;
  try_except
    (project_resp ← client_get net (recent_projects_request headers);
     raise_for_status project_resp;;
     projects ← resp_json project_resp;
     projects ← py_iter projects;
     let tasks := map (fun p => get_pipelines_for_project p headers) projects in
     results ← gather tasks;
     ret (concat results))
    (fun e => match e with
              | HTTPStatusError r =>
                  Some (raise (HTTPException (status_code r)
                                 ("Failed to fetch initial projects for pipelines: " +:+
                                  text r)))
              | RequestError _ =>
                  Some (raise (HTTPException 503 "Could not connect to the GitLab API."))
              | _ => None
              end).

End Adapter.

Definition router : APIRouter := {| routes := ["/projects"; "/issues"; "/pipelines"] |}.

End GitLab.

(** * single_application/gfg.py *)

Module GFG.

(** The tree BeautifulSoup builds: tags with their attributes and children,
    and text. *)
Inductive node : Type :=
| Tag (name : string) (attrs : list (string * string)) (children : list node)
| Text (s : string).

Record GFGStats : Type := {
  totalSolved : option Z;
  easy : option Z;
  medium : option Z;
  hard : option Z
}.

Record GFGPOTD : Type := {
  title : option string;
  link : option string
}.

Fixpoint lookup_attr (k : string) (attrs : list (string * string)) : option string :=
  match attrs with
  | [] => None
  | (k', v) :: rest => if String.eqb k' k then Some v else lookup_attr k rest
  end.

(** The nodes below a node, in document order. *)
Fixpoint descendants (n : node) : list node :=
  match n with
  | Tag _ _ children => flat_map (fun c => c :: descendants c) children
  | Text _ => []
  end.

(** The nodes of a parsed page, in document order. *)
Definition all_nodes (soup : list node) : list node :=
  flat_map (fun c => c :: descendants c) soup.

(** [tag.text]: the text below a node, joined. *)
Fixpoint get_text (n : node) : string :=
  match n with
  | Tag _ _ children => String.concat "" (map get_text children)
  | Text s => s
  end.

(** [lambda x: x and 'POTD_header-main' in x] *)
Definition potd_class (x : option string) : bool :=
  match x with
  | Some c => nonempty c && contains "POTD_header-main" c
  | None => false
  end.

(** How BeautifulSoup matches a function against the [class] attribute: on
    each class of the list, then on the list joined by spaces; on [None] when
    the tag has no such attribute. *)
Definition class_matches (f : option string -> bool) (attrs : list (string * string))
  : bool :=
  match lookup_attr "class" attrs with
  | Some value =>
      let classes := split_ws value in
      existsb (fun c => f (Some c)) classes || f (Some (String.concat " " classes))
  | None => f None
  end.

(** [x.find('div', class_=f)] over the nodes below [x] *)
Definition find_div (f : option string -> bool) (below : list node) : option node :=
  List.find (fun n => match n with
                      | Tag name attrs _ => String.eqb name "div" && class_matches f attrs
                      | Text _ => false
                      end) below.

(** [x.find('a', href=True)] over the nodes below [x] *)
Definition find_anchor (below : list node) : option node :=
  List.find (fun n => match n with
                      | Tag name attrs _ =>
                          String.eqb name "a" && bool_decide (is_Some (lookup_attr "href" attrs))
                      | Text _ => false
                      end) below.

(** [tag['href']] *)
Definition attr_href (n : node) : M string :=
  match n with
  | Tag _ attrs _ =>
      match lookup_attr "href" attrs with
      | Some v => ret v
      | None => raise (KeyError "'href'")
      end
  | Text _ => raise TypeError
  end.

Section Adapter.
Context (net : network).

(** [BeautifulSoup(text, "html.parser")]: the top-level nodes of the page,
    [None] when the parser rejects the markup. *)
Context (BeautifulSoup : string -> option (list node)).

Definition parse_page (markup : string) : M (list node) :=
  match BeautifulSoup markup with
  | Some soup => ret soup
  | None => raise ParserRejectedMarkup
  end.

(** [str(e)] for an exception [e] *)
Context (str_exn : exn -> string).

Definition stats_url (username : string) : string :=
  "https://geeks-for-geeks-stats-api.vercel.app/?raw=y&userName=" +:+ username.

(** [GET /stats/{username}] *)
Definition get_gfg_stats (username : string) : M GFGStats :=
  try_except
    (resp ← client_get net (get (stats_url username));
     raise_for_status resp;;
     data ← resp_json resp;
     totalSolved ← py_get data "totalProblemsSolved" JNull;
     easy ← py_get data "easy" JNull;
     medium ← py_get data "medium" JNull;
     hard ← py_get data "hard" JNull;
     totalSolved ← as_optional as_int totalSolved;
     easy ← as_optional as_int easy;
     medium ← as_optional as_int medium;
     hard ← as_optional as_int hard;
     ret {| totalSolved := totalSolved; easy := easy; medium := medium;
            hard := hard |})
    (fun e => match e with
              | HTTPStatusError r =>
                  Some (raise (HTTPException (status_code r)
                                 ("GFG stats fetch failed for user '" +:+ username +:+
                                  "'. The user may not exist.")))
              | RequestError _ =>
                  Some (raise (HTTPException 503
                                 "Could not connect to the GFG stats service."))
              | _ =>
                  Some (raise (HTTPException 500
                                 ("An unexpected error occurred: " +:+ str_exn e)))
              end).

Definition potd_url : string := "https://www.geeksforgeeks.org/problem-of-the-day".

Definition potd_request : request :=
  Request potd_url
    [("User-Agent",
      "Mozilla/5.0 (Windows NT 10.0; Win64; x64) AppleWebKit/537.36 (KHTML, like Gecko) Chrome/91.0.4472.124 Safari/537.36")]
    [] None.

Definition fallback : GFGPOTD :=
  {| title := Some "Could not parse POTD title/link from page";
     link := Some potd_url |}.

(** [GET /potd] *)
Definition get_gfg_potd : M GFGPOTD :=
  try_except
    (resp ← client_get net potd_request;
     raise_for_status resp;;
     soup ← parse_page (text resp);
     let potd_div := find_div potd_class (all_nodes soup) in
     match potd_div with
     | Some div =>
         let title_tag := find_anchor (descendants div) in
         match title_tag with
         | Some a =>
             let title := strip (get_text a) in
             link ← attr_href a;
             ret {| title := Some title; link := Some link |}
         | None => ret fallback
         end
     | None => ret fallback
     end)
    (fun _ => Some (raise (HTTPException 500
                             "Failed to fetch or parse the GFG POTD page."))).

End Adapter.

Definition router : APIRouter := {| routes := ["/stats/{username}"; "/potd"] |}.

End GFG.

(** * endpoints/github_ep.py *)

Module GithubEp.

Definition BASE_URL : string := "https://api.github.com".

Record Release : Type := {
  tag_name : string;
  name : option string;
  url : string;
  published_at : string
}.

(** [Release(tag_name=r.get("tag_name", "No Tag"), ...)] *)
Definition Release_of (r : json) : M Release :=
  tag_name ← py_get r "tag_name" (JStr "No Tag");
  name ← py_get r "name" (JStr "No Name");
  url ← py_get r "html_url" (JStr "");
  published_at ← py_get r "published_at" (JStr "");
  tag_name ← as_str tag_name;
  name ← as_optional as_str name;
  url ← as_str url;
  published_at ← as_str published_at;
  ret {| tag_name := tag_name; name := name; url := url;
         published_at := published_at |}.

Section Adapter.
Context (environ : gmap string string) (net : network).

Definition API_TOKEN : option string := getenv environ "GITHUB_API_TOKEN".

(** [get_headers()]: the token is optional. *)
Definition get_headers : list (string * string) :=
  let headers := [("Accept", "application/vnd.github.v3+json")] in
  if truthy_str API_TOKEN
  then headers ++ [("Authorization", "Bearer " +:+ default "" API_TOKEN)]
  else headers.

Definition releases_request (owner repo : string) : request :=
  Request (BASE_URL +:+ "/repos/" +:+ owner +:+ "/" +:+ repo +:+ "/releases")
    get_headers [] None.

(** [GET /{owner}/{repo}/releases] *)
Definition fetch_releases (owner repo : string) : M (list Release) :=
  resp ← try_except
    (resp ← client_get net (releases_request owner repo);
     raise_for_status resp;;
     ret resp)
    (fun e => match e with
              | HTTPStatusError r =>
                  if status_code r =? 404
                  then Some (raise (HTTPException 404
                                      ("Repository '" +:+ owner +:+ "/" +:+ repo +:+
                                       "' not found.")))
                  else Some (raise (HTTPException (status_code r)
                                      ("Error fetching releases: " +:+ text r)))
              | RequestError msg =>
                  Some (raise (HTTPException 503 ("Service unavailable: " +:+ msg)))
              | _ => None
              end);
  releases ← resp_json resp;
  releases ← py_iter releases;
  for_each Release_of releases.

End Adapter.

Definition router : APIRouter := {| routes := ["/{owner}/{repo}/releases"] |}.

End GithubEp.

(** * endpoints/reddit.py *)

Module Reddit.

Definition BASE_URL : string := "https://www.reddit.com".

Record Post : Type := {
  id : string;
  title : string;
  subreddit : string;
  url : string;
  author : string;
  score : Z
}.

(** [Post(id=p["data"].get("id"), ...)] for a search in [subreddit] *)
Definition Post_of (subreddit : string) (p : json) : M Post :=
  d ← py_getitem p "data"; id ← py_get d "id" JNull;
  d ← py_getitem p "data"; title ← py_get d "title" (JStr "No Title");
  d ← py_getitem p "data"; sub ← py_get d "subreddit" (JStr subreddit);
  d ← py_getitem p "data"; permalink ← py_get d "permalink" (JStr "");
  d ← py_getitem p "data"; author ← py_get d "author" (JStr "No Author");
  d ← py_getitem p "data"; score ← py_get d "score" (JInt 0);
  id ← as_str id;
  title ← as_str title;
  sub ← as_str sub;
  author ← as_str author;
  score ← as_int score;
  ret {| id := id; title := title; subreddit := sub;
         url := BASE_URL +:+ py_str permalink; author := author; score := score |}.

Section Adapter.
Context (net : network).

Definition search_request (subreddit query : string) : request :=
  Request (BASE_URL +:+ "/r/" +:+ subreddit +:+ "/search.json")
    [("User-Agent", "FastAPI-Aggregator/0.1 by YourUsername")]
    [("q", query); ("restrict_sr", "on"); ("limit", "25")] None.

(** [GET /r/{subreddit}/search?query=...]; FastAPI has checked that [query]
    is given and not empty. *)
Definition search_subreddit (subreddit query : string) : M (list Post) :=
  resp ← try_except
    (resp ← client_get net (search_request subreddit query);
     raise_for_status resp;;
     ret resp)
    (fun e => match e with
              | HTTPStatusError r =>
                  Some (raise (HTTPException (status_code r)
                                 ("Error searching Reddit: " +:+ text r)))
              | RequestError msg =>
                  Some (raise (HTTPException 503 ("Service unavailable: " +:+ msg)))
              | _ => None
              end);
  body ← resp_json resp;
  data ← py_get body "data" (JDict []);
  results ← py_get data "children" (JList []);
  results ← py_iter results;
  for_each (Post_of subreddit) results.

End Adapter.

Definition router : APIRouter := {| routes := ["/r/{subreddit}/search"] |}.

End Reddit.

(** * single_application/github.py *)

Module Github.

Definition BASE_URL : string := "https://api.github.com".

Record Repo : Type := {
  id : Z;
  name : string;
  url : string
}.

Record Issue : Type := {
  issue_id : Z;
  title : string;
  issue_url : string
}.

Record PullRequest : Type := {
  pr_id : Z;
  pr_title : string;
  pr_url : string;
  user : string
}.

(** [Repo(id=r['id'], name=r['name'], url=r['html_url'])] *)
Definition Repo_of (r : json) : M Repo :=
  id ← py_getitem r "id";
  name ← py_getitem r "name";
  url ← py_getitem r "html_url";
  id ← as_int id;
  name ← as_str name;
  url ← as_str url;
  ret {| id := id; name := name; url := url |}.

(** [Issue(id=i['id'], title=i['title'], url=i['html_url'])] *)
Definition Issue_of (i : json) : M Issue :=
  id ← py_getitem i "id";
  title ← py_getitem i "title";
  url ← py_getitem i "html_url";
  id ← as_int id;
  title ← as_str title;
  url ← as_str url;
  ret {| issue_id := id; title := title; issue_url := url |}.

(** An element of a returned list, validated against [response_model=
    list[Issue]]. *)
Definition Issue_response (x : json) : M Issue :=
  match x with
  | JDict kw =>
      id ← required as_int kw "id";
      title ← required as_str kw "title";
      url ← required as_str kw "url";
      ret {| issue_id := id; title := title; issue_url := url |}
  | _ => raise ValidationError
  end.

(** [PullRequest(id=pr['id'], title=pr['title'], url=pr['html_url'],
    user=pr['user']['login'])] *)
Definition PullRequest_of (pr : json) : M PullRequest :=
  id ← py_getitem pr "id";
  title ← py_getitem pr "title";
  url ← py_getitem pr "html_url";
  u ← py_getitem pr "user";
  login ← py_getitem u "login";
  id ← as_int id;
  title ← as_str title;
  url ← as_str url;
  login ← as_str login;
  ret {| pr_id := id; pr_title := title; pr_url := url; user := login |}.

(** [len(x)] *)
Definition py_len (x : json) : M nat :=
  match x with
  | JList items => ret (length items)
  | JDict fields => ret (length fields)
  | JStr s => ret (String.length s)
  | _ => raise TypeError
  end.

Section Adapter.
Context (environ : gmap string string) (net : network).

Definition TOKEN : option string := getenv environ "GITHUB_TOKEN".

(** [get_headers()] *)
Definition get_headers : M (list (string * string)) :=
  if negb (truthy_str TOKEN)
  then raise (HTTPException 500
                "GITHUB_TOKEN not found. Please create a .env file with your token.")
  else ret [("Authorization", "Bearer " +:+ default "" TOKEN);
            ("Accept", "application/vnd.github.v3+json")].

(** [GET /repos] *)
Definition fetch_repos : M (list Repo) :=
  try_except
    (headers ← get_headers;
     resp ← client_get net
              (Request (BASE_URL +:+ "/user/repos?sort=updated&per_page=10") headers [] None);
     raise_for_status resp;;
     repos ← resp_json resp;
     repos ← py_iter repos;
     for_each Repo_of repos)
    (fun e => match e with
              | HTTPStatusError r =>
                  Some (raise (HTTPException (status_code r)
                                 ("Failed to fetch GitHub repos: " +:+ text r)))
              | RequestError _ =>
                  Some (raise (HTTPException 503 "Could not connect to the GitHub API."))
              | _ => None
              end).

(** [GET /issues] *)
Definition fetch_issues : M (list Issue) :=
  try_except
    (headers ← get_headers;
     resp ← client_get net
              (Request (BASE_URL +:+ "/issues?filter=assigned&sort=updated&per_page=10")
                 headers [] None);
     raise_for_status resp;;
     issues ← resp_json resp;
     issues ← py_iter issues;
     for_each Issue_of issues)
    (fun e => match e with
              | HTTPStatusError r =>
                  Some (raise (HTTPException (status_code r)
                                 ("Failed to fetch GitHub issues: " +:+ text r)))
              | RequestError _ =>
                  Some (raise (HTTPException 503 "Could not connect to the GitHub API."))
              | _ => None
              end).

Definition search_url (username : json) : string :=
  BASE_URL +:+ "/search/issues?q=" +:+ ("is:pr is:open involves:" +:+ py_str username)
  +:+ "&sort=updated&per_page=10".

(** [GET /pulls].  The handler returns the upstream items as they are and
    FastAPI validates them against [list[Issue]]; the [print] calls write to
    the server's output only, but [len(items)] in the last one can raise. *)
Definition fetch_my_pull_requests : M (list Issue) :=
  items ← try_except
    (headers ← get_headers;
     user_resp ← client_get net (Request (BASE_URL +:+ "/user") headers [] None);
     raise_for_status user_resp;;
     user ← resp_json user_resp;
     username ← py_getitem user "login";
     headers ← get_headers;
     pr_resp ← client_get net (Request (search_url username) headers [] None);
     raise_for_status pr_resp;;
     body ← resp_json pr_resp;
     items ← py_get body "items" (JList []);
     py_len items;;
     ret items)
    (fun e => match e with
              | HTTPStatusError r =>
                  Some (raise (HTTPException (status_code r)
                                 ("Failed to fetch GitHub pull requests: " +:+ text r)))
              | _ =>
                  Some (raise (HTTPException 500
                                 "An unexpected error occurred while fetching PRs."))
              end);
  as_list Issue_response items.

Definition pulls_url (owner repo : string) : string :=
  BASE_URL +:+ "/repos/" +:+ owner +:+ "/" +:+ repo +:+ "/pulls".

(** [GET /repos/{owner}/{repo}/pulls] *)
Definition fetch_pull_requests (owner repo : string) : M (list PullRequest) :=
  try_except
    (headers ← get_headers;
     resp ← client_get net (Request (pulls_url owner repo) headers [] None);
     raise_for_status resp;;
     pull_requests ← resp_json resp;
     pull_requests ← py_iter pull_requests;
     for_each PullRequest_of pull_requests)
    (fun e => match e with
              | HTTPStatusError r =>
                  let detail_msg :=
                    if status_code r =? 404
                    then "Repository " +:+ owner +:+ "/" +:+ repo +:+ " not found."
                    else "Failed to fetch pull requests for " +:+ owner +:+ "/" +:+ repo
                         +:+ ": " +:+ text r in
                  Some (raise (HTTPException (status_code r) detail_msg))
              | RequestError _ =>
                  Some (raise (HTTPException 503 "Could not connect to the GitHub API."))
              | _ => None
              end).

End Adapter.

Definition router : APIRouter := {| routes := ["/repos"; "/issues"; "/pulls"; "/repos/{owner}/{repo}/pulls"] |}.

End Github.

(** * single_application/devto.py *)

Module Devto.

Definition BASE_URL : string := "https://dev.to/api".

Record Article : Type := {
  id : Z;
  title : string;
  url : string;
  author : option string;
  tags : option string
}.

(** [", ".join(xs)]: every element has to be a [str]. *)
Fixpoint py_join (xs : list json) : M string :=
  match xs with
  | [] => ret ""
  | JStr s :: rest =>
      match rest with
      | [] => ret s
      | _ => joined ← py_join rest; ret (s +:+ ", " +:+ joined)
      end
  | _ :: _ => raise TypeError
  end.

(** [Article(id=a["id"], title=a.get("title", "No Title"), ...)] *)
Definition Article_of (a : json) : M Article :=
  id ← py_getitem a "id";
  title ← py_get a "title" (JStr "No Title");
  url ← py_get a "url" (JStr "");
  user ← py_get a "user" (JDict []);
  author ← py_get user "name" JNull;
  tag_list ← py_get a "tag_list" (JList []);
  tags ← match tag_list with
         | JList _ =>
             tag_list ← py_get a "tag_list" (JList []);
             match tag_list with
             | JList items => py_join items
             | _ => raise TypeError
             end
         | _ => ret ""
         end;
  id ← as_int id;
  title ← as_str title;
  url ← as_str url;
  author ← as_optional as_str author;
  ret {| id := id; title := title; url := url; author := author;
         tags := Some tags |}.

Section Adapter.
Context (environ : gmap string string) (net : network).

Definition API_KEY : option string := getenv environ "DEVTO_API_KEY".

(** [get_headers()] *)
Definition get_headers : M (list (string * string)) :=
  if negb (truthy_str API_KEY)
  then raise (HTTPException 500 "DEVTO_API_KEY not found in .env file.")
  else ret [("api-key", default "" API_KEY);
            ("Accept", "application/vnd.forem.api-v1+json")].

(** [GET /articles] *)
Definition fetch_articles : M (list Article) :=
  resp ← try_except
    (headers ← get_headers;
     resp ← client_get net
              (Request (BASE_URL +:+ "/articles/latest") headers [("per_page", "10")] None);
     raise_for_status resp;;
     ret resp)
    (fun e => match e with
              | HTTPStatusError r =>
                  Some (raise (HTTPException (status_code r)
                                 ("Error fetching articles: " +:+ text r)))
              | RequestError msg =>
                  Some (raise (HTTPException 503 ("Service unavailable: " +:+ msg)))
              | _ => None
              end);
  articles ← resp_json resp;
  articles ← py_iter articles;
  for_each Article_of articles.

(** [GET /article/{article_id}] *)
Definition fetch_single_article (article_id : Z) : M Article :=
  resp ← try_except
    (headers ← get_headers;
     resp ← client_get net
              (Request (BASE_URL +:+ "/articles/" +:+ str_int article_id) headers [] None);
     raise_for_status resp;;
     ret resp)
    (fun e => match e with
              | HTTPStatusError r =>
                  if status_code r =? 404
                  then Some (raise (HTTPException 404
                                      ("Article with ID " +:+ str_int article_id +:+
                                       " not found.")))
                  else Some (raise (HTTPException (status_code r)
                                      ("Error fetching article: " +:+ text r)))
              | RequestError msg =>
                  Some (raise (HTTPException 503 ("Service unavailable: " +:+ msg)))
              | _ => None
              end);
  a ← resp_json resp;
  Article_of a.

End Adapter.

Definition router : APIRouter := {| routes := ["/articles"; "/article/{article_id}"] |}.

End Devto.

(** * single_application/kaggle.py *)

Module Kaggle.

Definition BASE_URL : string := "https://www.kaggle.com/api/v1".

Record Dataset : Type := {
  title : string;
  ref : string;
  url : string
}.

Record Competition : Type := {
  c_ref : string;
  c_title : string;
  deadline : string
}.

(** [Dataset(title=d['title'], ref=d['ref'],
    url=f"https://www.kaggle.com/datasets/{d['ref']}")] *)
Definition Dataset_of (d : json) : M Dataset :=
  title ← py_getitem d "title";
  ref ← py_getitem d "ref";
  ref' ← py_getitem d "ref";
  title ← as_str title;
  ref ← as_str ref;
  ret {| title := title; ref := ref;
         url := "https://www.kaggle.com/datasets/" +:+ py_str ref' |}.

(** [Competition(ref=c['ref'], title=c['title'], deadline=c['deadline'])] *)
Definition Competition_of (c : json) : M Competition :=
  ref ← py_getitem c "ref";
  title ← py_getitem c "title";
  deadline ← py_getitem c "deadline";
  ref ← as_str ref;
  title ← as_str title;
  deadline ← as_str deadline;
  ret {| c_ref := ref; c_title := title; deadline := deadline |}.

Section Adapter.
Context (environ : gmap string string) (net : network).

Definition KAGGLE_USERNAME : string := getenv_default environ "KAGGLE_USERNAME" "".
Definition KAGGLE_KEY : string := getenv_default environ "KAGGLE_KEY" "".

(** [get_kaggle_auth()] *)
Definition get_kaggle_auth : M (string * string) :=
  if negb (nonempty KAGGLE_USERNAME) || negb (nonempty KAGGLE_KEY)
  then raise (HTTPException 500
                "KAGGLE_USERNAME or KAGGLE_KEY not found in .env file.")
  else ret (KAGGLE_USERNAME, KAGGLE_KEY).

(** [GET /datasets] *)
Definition fetch_datasets : M (list Dataset) :=
  auth ← get_kaggle_auth;
  try_except
    (resp ← client_get net
              (Request (BASE_URL +:+ "/datasets/list") []
                 [("sort_by", "updated"); ("page_size", "10")] (Some auth));
     raise_for_status resp;;
     datasets ← resp_json resp;
     datasets ← py_iter datasets;
     for_each Dataset_of datasets)
    (fun e => match e with
              | HTTPStatusError r =>
                  Some (raise (HTTPException (status_code r)
                                 ("Failed to fetch Kaggle datasets: " +:+ text r)))
              | RequestError _ =>
                  Some (raise (HTTPException 503 "Could not connect to the Kaggle API."))
              | _ => None
              end).

(** [GET /competitions] *)
Definition fetch_competitions : M (list Competition) :=
  auth ← get_kaggle_auth;
  try_except
    (resp ← client_get net
              (Request (BASE_URL +:+ "/competitions/list") []
                 [("sort_by", "latestDeadline"); ("page_size", "10")] (Some auth));
     raise_for_status resp;;
     competitions ← resp_json resp;
     competitions ← py_iter competitions;
     for_each Competition_of competitions)
    (fun e => match e with
              | HTTPStatusError r =>
                  Some (raise (HTTPException (status_code r)
                                 ("Failed to fetch Kaggle competitions: " +:+ text r)))
              | RequestError _ =>
                  Some (raise (HTTPException 503 "Could not connect to the Kaggle API."))
              | _ => None
              end).

End Adapter.

Definition router : APIRouter := {| routes := ["/datasets"; "/competitions"] |}.

End Kaggle.

(** * endpoints/so.py *)

Module So.

Definition BASE_URL : string := "https://api.stackexchange.com/2.3".

Record Owner : Type := {
  display_name : string
}.

Record Question : Type := {
  question_id : Z;
  title : string;
  link : string;
  owner : Owner;
  tags : list string;
  score : Z;
  is_answered : bool
}.

Definition as_Owner (x : json) : M Owner :=
  match x with
  | JDict kw =>
      display_name ← required as_str kw "display_name";
      ret {| display_name := display_name |}
  | _ => raise ValidationError
  end.

Definition as_Question (x : json) : M Question :=
  match x with
  | JDict kw =>
      question_id ← required as_int kw "question_id";
      title ← required as_str kw "title";
      link ← required as_str kw "link";
      owner ← required as_Owner kw "owner";
      tags ← required (as_list as_str) kw "tags";
      score ← required as_int kw "score";
      is_answered ← required as_bool kw "is_answered";
      ret {| question_id := question_id; title := title; link := link;
             owner := owner; tags := tags; score := score;
             is_answered := is_answered |}
  | _ => raise ValidationError
  end.

(** [SearchResponse( **body ).items] *)
Definition SearchResponse_items (body : json) : M (list Question) :=
  kw ← kwargs body;
  required (as_list as_Question) kw "items".

Section Adapter.
Context (net : network).

Definition search_request (query tagged : string) : request :=
  Request (BASE_URL +:+ "/search") []
    [("site", "stackoverflow"); ("intitle", query); ("tagged", tagged);
     ("sort", "relevance"); ("order", "desc")]
    None.

(** [GET /search?q=...&tagged=...] *)
Definition search_stackoverflow (query tagged : string) : M (list Question) :=
  resp ← try_except
    (resp ← client_get net (search_request query tagged);
     raise_for_status resp;;
     ret resp)
    (fun e => match e with
              | HTTPStatusError r =>
                  Some (raise (HTTPException (status_code r)
                                 ("Error searching Stack Overflow: " +:+ text r)))
              | RequestError msg =>
                  Some (raise (HTTPException 503 ("Service unavailable: " +:+ msg)))
              | _ => None
              end);
  body ← resp_json resp;
  SearchResponse_items body.

End Adapter.

Definition router : APIRouter := {| routes := ["/search"] |}.

End So.

(** * endpoints/hn.py *)

Module Hn.

Definition BASE_URL : string := "http://hn.algolia.com/api/v1".

Record Story : Type := {
  objectID : string;
  title : string;
  url : option string;
  points : Z;
  author : string
}.

(** [Story(objectID=hit.get("objectID"), title=hit.get("title", "No Title"),
    ...)] *)
Definition Story_of (hit : json) : M Story :=
  objectID ← py_get hit "objectID" JNull;
  title ← py_get hit "title" (JStr "No Title");
  url ← py_get hit "url" JNull;
  points ← py_get hit "points" (JInt 0);
  author ← py_get hit "author" (JStr "No Author");
  objectID ← as_str objectID;
  title ← as_str title;
  url ← as_optional as_str url;
  points ← as_int points;
  author ← as_str author;
  ret {| objectID := objectID; title := title; url := url; points := points;
         author := author |}.

(** [hit.get("title")] as a condition *)
Definition has_title (hit : json) : M bool :=
  t ← py_get hit "title" JNull; ret (truthy t).

Section Adapter.
Context (net : network).

Definition search_request (query : string) : request :=
  Request (BASE_URL +:+ "/search") [] [("query", query); ("tags", "story")] None.

(** [GET /search?query=...]; FastAPI has checked that [query] is given and
    not empty. *)
Definition search_hacker_news (query : string) : M (list Story) :=
  resp ← try_except
    (resp ← client_get net (search_request query);
     raise_for_status resp;;
     ret resp)
    (fun e => match e with
              | HTTPStatusError r =>
                  Some (raise (HTTPException (status_code r)
                                 ("Error searching Hacker News: " +:+ text r)))
              | RequestError msg =>
                  Some (raise (HTTPException 503 ("Service unavailable: " +:+ msg)))
              | _ => None
              end);
  body ← resp_json resp;
  results ← py_get body "hits" (JList []);
  results ← py_iter results;
  comprehension has_title Story_of results.

End Adapter.

Definition router : APIRouter := {| routes := ["/search"] |}.

End Hn.

(** * endpoints/pypi.py *)

Module Pypi.

Definition BASE_URL : string := "https://pypi.org/pypi".

Record PackageInfo : Type := {
  name : string;
  version : string;
  summary : string;
  author : option string;
  home_page : option string
}.

Record LatestVersion : Type := {
  package_name : string;
  latest_version : string
}.

Section Adapter.
Context (net : network).

Definition package_url (package_name : string) : string :=
  BASE_URL +:+ "/" +:+ package_name +:+ "/json".

(** [GET /{package_name}] *)
Definition fetch_package_details (package_name : string) : M PackageInfo :=
  resp ← try_except
    (resp ← client_get net (get (package_url package_name));
     raise_for_status resp;;
     ret resp)
    (fun e => match e with
              | HTTPStatusError r =>
                  if status_code r =? 404
                  then Some (raise (HTTPException 404
                                      ("Package '" +:+ package_name +:+
                                       "' not found on PyPI.")))
                  else Some (raise (HTTPException (status_code r)
                                      ("Error fetching package details: " +:+ text r)))
              | RequestError msg =>
                  Some (raise (HTTPException 503 ("Service unavailable: " +:+ msg)))
              | _ => None
              end);
  body ← resp_json resp;
  data ← py_getitem body "info";
  name ← py_get data "name" (JStr "No Name");
  version ← py_get data "version" (JStr "0.0.0");
  summary ← py_get data "summary" (JStr "");
  author ← py_get data "author" JNull;
  home_page ← py_get data "home_page" JNull;
  name ← as_str name;
  version ← as_str version;
  summary ← as_str summary;
  author ← as_optional as_str author;
  home_page ← as_optional as_str home_page;
  ret {| name := name; version := version; summary := summary; author := author;
         home_page := home_page |}.

(** [GET /{package_name}/latest] *)
Definition fetch_latest_version (package_name : string) : M LatestVersion :=
  resp ← try_except
    (resp ← client_get net (get (package_url package_name));
     raise_for_status resp;;
     ret resp)
    (fun e => match e with
              | HTTPStatusError r =>
                  if status_code r =? 404
                  then Some (raise (HTTPException 404
                                      ("Package '" +:+ package_name +:+
                                       "' not found on PyPI.")))
                  else Some (raise (HTTPException (status_code r)
                                      ("Error fetching package version: " +:+ text r)))
              | RequestError msg =>
                  Some (raise (HTTPException 503 ("Service unavailable: " +:+ msg)))
              | _ => None
              end);
  body ← resp_json resp;
  data ← py_getitem body "info";
  name ← py_get data "name" (JStr package_name);
  version ← py_get data "version" (JStr "0.0.0");
  name ← as_str name;
  version ← as_str version;
  ret {| package_name := name; latest_version := version |}.

End Adapter.

Definition router : APIRouter := {| routes := ["/{package_name}"; "/{package_name}/latest"] |}.

End Pypi.

(** * endpoints/npm.py *)

Module Npm.

Definition BASE_URL : string := "https://registry.npmjs.org".

Record NpmPackage : Type := {
  name : string;
  description : option string;
  latest_version : string;
  homepage : option string
}.

Record NpmLatestVersion : Type := {
  package_name : string;
  l_latest_version : string
}.

Section Adapter.
Context (net : network).

Definition package_url (package_name : string) : string :=
  BASE_URL +:+ "/" +:+ package_name.

(** [GET /{package_name}] *)
Definition fetch_npm_package (package_name : string) : M NpmPackage :=
  resp ← try_except
    (resp ← client_get net (get (package_url package_name));
     raise_for_status resp;;
     ret resp)
    (fun e => match e with
              | HTTPStatusError r =>
                  if status_code r =? 404
                  then Some (raise (HTTPException 404
                                      ("Package '" +:+ package_name +:+
                                       "' not found on npm.")))
                  else Some (raise (HTTPException (status_code r)
                                      ("Error fetching npm package: " +:+ text r)))
              | RequestError msg =>
                  Some (raise (HTTPException 503 ("Service unavailable: " +:+ msg)))
              | _ => None
              end);
  data ← resp_json resp;
  dist_tags ← py_get data "dist-tags" (JDict []);
  latest_version ← py_get dist_tags "latest" (JStr "0.0.0");
  name ← py_get data "name" (JStr package_name);
  description ← py_get data "description" (JStr "");
  homepage ← py_get data "homepage" JNull;
  name ← as_str name;
  description ← as_optional as_str description;
  latest_version ← as_str latest_version;
  homepage ← as_optional as_str homepage;
  ret {| name := name; description := description;
         latest_version := latest_version; homepage := homepage |}.

(** [GET /{package_name}/latest] *)
Definition fetch_npm_latest (package_name : string) : M NpmLatestVersion :=
  resp ← try_except
    (resp ← client_get net (get (package_url package_name));
     raise_for_status resp;;
     ret resp)
    (fun e => match e with
              | HTTPStatusError r =>
                  if status_code r =? 404
                  then Some (raise (HTTPException 404
                                      ("Package '" +:+ package_name +:+
                                       "' not found on npm.")))
                  else Some (raise (HTTPException (status_code r)
                                      ("Error fetching npm version: " +:+ text r)))
              | RequestError msg =>
                  Some (raise (HTTPException 503 ("Service unavailable: " +:+ msg)))
              | _ => None
              end);
  data ← resp_json resp;
  dist_tags ← py_get data "dist-tags" (JDict []);
  latest_version ← py_get dist_tags "latest" (JStr "0.0.0");
  name ← py_get data "name" (JStr package_name);
  name ← as_str name;
  latest_version ← as_str latest_version;
  ret {| package_name := name; l_latest_version := latest_version |}.

End Adapter.

Definition router : APIRouter := {| routes := ["/{package_name}"; "/{package_name}/latest"] |}.

End Npm.

(** * aggregator/aggregator_main.py *)

Module Aggregator.

(** The application: the paths it serves, in registration order. *)
Record FastAPI : Type := { app_routes : list string }.

(** [app.include_router(router, prefix=prefix)] *)
Definition include_router (app : FastAPI) (router : APIRouter) (prefix : string)
  : FastAPI :=
  {| app_routes := app_routes app ++ map (fun path => prefix +:+ path) (routes router) |}.

(** [@app.get(path)] *)
Definition app_get (app : FastAPI) (path : string) : FastAPI :=
  {| app_routes := app_routes app ++ [path] |}.

Definition old_github_router : APIRouter := Github.router.
Definition old_stackoverflow_router : APIRouter := StackOverflow.router.
Definition old_hackernews_router : APIRouter := HackerNews.router.
Definition devto_router : APIRouter := Devto.router.
Definition kaggle_router : APIRouter := Kaggle.router.
Definition codeforces_router : APIRouter := Codeforces.router.
Definition gitlab_router : APIRouter := GitLab.router.
Definition pypi_router : APIRouter := Pypi.router.
Definition npm_router : APIRouter := Npm.router.
Definition new_github_router : APIRouter := GithubEp.router.
Definition new_hn_router : APIRouter := Hn.router.
Definition reddit_router : APIRouter := Reddit.router.
Definition new_stackoverflow_router : APIRouter := So.router.

(** The [app.include_router] calls of the module, in order: the router and
    its prefix. *)
Definition included : list (APIRouter * string) :=
  [ (devto_router, "/devto");
    (kaggle_router, "/kaggle");
    (codeforces_router, "/codeforces");
    (gitlab_router, "/gitlab");
    (pypi_router, "/pypi");
    (npm_router, "/npm");
    (reddit_router, "/reddit");
    (old_github_router, "/github");
    (old_hackernews_router, "/hackernews");
    (old_stackoverflow_router, "/stackoverflow") ].

Definition app : FastAPI :=
  let app := {| app_routes := [] |} in
  let app := foldl (fun app '(router, prefix) => include_router app router prefix)
               app included in
  let app := app_get app "/features" in
  app_get app "/".

Record feature : Type := {
  example_endpoint : string;
  description : string
}.

(** [GET /features]: the dict the handler returns. *)
Definition features : gmap string feature :=
  list_to_map
    [ ("devto", {| example_endpoint := "/devto/articles";
                   description := "Fetch latest DEV.to articles" |});
      ("kaggle", {| example_endpoint := "/kaggle/datasets";
                    description := "List trending Kaggle datasets" |});
      ("codeforces", {| example_endpoint := "/codeforces/contests";
                        description := "Get upcoming Codeforces contests" |});
      ("gitlab", {| example_endpoint := "/gitlab/projects";
                    description := "List your GitLab projects" |});
      ("pypi", {| example_endpoint := "/pypi/latest";
                  description := "Get the latest packages from PyPI" |});
      ("npm", {| example_endpoint := "/npm/search?text=react";
                 description := "Search for packages on npm" |});
      ("reddit", {| example_endpoint := "/reddit/top/programming";
                    description := "Get top posts from a specified subreddit" |});
      ("github", {| example_endpoint := "/github/repos";
                    description := "List your GitHub repositories" |});
      ("hackernews", {| example_endpoint := "/hackernews/topstories";
                        description := "List top stories from Hacker News" |});
      ("stackoverflow", {| example_endpoint := "/stackoverflow/questions";
                           description := "Get recent Stack Overflow questions" |}) ].

(** The source a prefix names: the prefix without its leading slash. *)
Definition source_of (prefix : string) : string :=
  match prefix with
  | String "/" name => name
  | _ => prefix
  end.

(** The first segment of a path: [/gitlab/projects] is under [gitlab]. *)
Fixpoint until_slash (s : string) : string :=
  match s with
  | EmptyString => EmptyString
  | String c rest => if Ascii.eqb c "/" then EmptyString else String c (until_slash rest)
  end.

Definition first_segment (path : string) : string := until_slash (source_of path).





End Aggregator.

(** * aggregator/main.py *)

Module Main.

Definition github_router : APIRouter := Github.router.
Definition stackoverflow_router : APIRouter := StackOverflow.router.
Definition hackernews_router : APIRouter := HackerNews.router.
Definition devto_router : APIRouter := Devto.router.
Definition kaggle_router : APIRouter := Kaggle.router.
Definition codeforces_router : APIRouter := Codeforces.router.
Definition gitlab_router : APIRouter := GitLab.router.

(** The [app.include_router] calls of the module, in order. *)
Definition included : list (APIRouter * string) :=
  [ (github_router, "/github");
    (stackoverflow_router, "/stackoverflow");
    (hackernews_router, "/hackernews");
    (devto_router, "/devto");
    (kaggle_router, "/kaggle");
    (codeforces_router, "/codeforces");
    (gitlab_router, "/gitlab") ].

Definition app : Aggregator.FastAPI :=
  let app := {| Aggregator.app_routes := [] |} in
  let app := foldl (fun app '(router, prefix) => Aggregator.include_router app router prefix)
               app included in
  let app := Aggregator.app_get app "/features" in
  Aggregator.app_get app "/".

(** [GET /features]: the dict the handler returns. *)
Definition features : gmap string Aggregator.feature :=
  list_to_map
    [ ("github", {| Aggregator.example_endpoint := "/github/repos";
                    Aggregator.description := "List your GitHub repositories" |});
      ("stackoverflow", {| Aggregator.example_endpoint := "/stackoverflow/featured";
                           Aggregator.description :=
                             "Get recent Stack Overflow feed for a user" |});
      ("hackernews", {| Aggregator.example_endpoint := "/hackernews/topstories";
                        Aggregator.description := "List top stories from Hacker News" |});
      ("devto", {| Aggregator.example_endpoint := "/devto/articles";
                   Aggregator.description := "Fetch latest DEV.to articles" |});
      ("kaggle", {| Aggregator.example_endpoint := "/kaggle/datasets";
                    Aggregator.description := "List trending Kaggle datasets" |});
      ("codeforces", {| Aggregator.example_endpoint := "/codeforces/contests";
                        Aggregator.description := "Get upcoming Codeforces contests" |});
      ("gitlab", {| Aggregator.example_endpoint := "/gitlab/projects";
                    Aggregator.description := "List your GitLab projects" |}) ].

End Main.

(** * aggregator/ep.py *)

Module Ep.

Definition pypi_router : APIRouter := Pypi.router.
Definition npm_router : APIRouter := Npm.router.
Definition github_router : APIRouter := GithubEp.router.
Definition hn_router : APIRouter := Hn.router.
Definition reddit_router : APIRouter := Reddit.router.
Definition stackoverflow_router : APIRouter := So.router.

(** The [app.include_router] calls of the module, in order. *)
Definition included : list (APIRouter * string) :=
  [ (pypi_router, "/pypi");
    (npm_router, "/npm");
    (github_router, "/github");
    (hn_router, "/hackernews");
    (reddit_router, "/reddit");
    (stackoverflow_router, "/stackoverflow") ].

Definition app : Aggregator.FastAPI :=
  let app := {| Aggregator.app_routes := [] |} in
  let app := foldl (fun app '(router, prefix) => Aggregator.include_router app router prefix)
               app included in
  Aggregator.app_get app "/".

End Ep.

(** * Routing *)

Module Routing.

(** How the application picks the route of a request path (Starlette's
    router, for the path templates of this repository, whose parameters
    each fill one whole segment): templates are tried in registration order,
    and a template matches a path when they have the same number of
    segments, a [{parameter}] segment standing for any non-empty segment. *)
Fixpoint split_slash (cur : string) (s : string) : list string :=
  match s with
  | EmptyString => [cur]
  | String c rest =>
      if Ascii.eqb c "/" then cur :: split_slash "" rest
      else split_slash (cur +:+ String c "") rest
  end.

Definition segments (path : string) : list string := split_slash "" path.

Definition is_parameter (segment : string) : bool :=
  starts_with "{" segment && starts_with "}" (String.rev segment).

Fixpoint segments_match (template path : list string) : bool :=
  match template, path with
  | [], [] => true
  | t :: template', p :: path' =>
      (if is_parameter t then nonempty p else String.eqb t p)
      && segments_match template' path'
  | _, _ => false
  end.

Definition route_matches (template path : string) : bool :=
  segments_match (segments template) (segments path).

(** The route that serves a path: the first one that matches. *)
Definition dispatch (app : Aggregator.FastAPI) (path : string) : option string :=
  List.find (fun template => route_matches template path) (Aggregator.app_routes app).

(** The path of a URL: what stands before the query string. *)
Fixpoint path_of (url : string) : string :=
  match url with
  | EmptyString => EmptyString
  | String c rest => if Ascii.eqb c "?" then EmptyString else String c (path_of rest)
  end.

End Routing.

(** * The gateway as a whole *)

(** What an adapter reads besides its request: the environment, the
    upstream, and three library functions that the adapters call and the
    model leaves open. *)
Record deployment : Type := {
  environ : gmap string string;
  net : network;
  local_time : Z -> option string;
  BeautifulSoup : string -> option (list GFG.node);
  str_exn : exn -> string
}.

(** Every adapter endpoint of the repository, with its parameters. *)
Inductive endpoint : Type :=
| github_repos
| github_issues
| github_pulls
| github_repo_pulls (owner repo : string)
| stackoverflow_featured
| stackoverflow_questions (user_id : option Z) (username : option string)
| stackoverflow_answers (user_id : option Z) (username : option string)
| hackernews_topstories
| hackernews_newstories
| hackernews_item (item_id : Z)
| hackernews_user (user_id : string)
| devto_articles
| devto_article (article_id : Z)
| kaggle_datasets
| kaggle_competitions
| codeforces_contests
| codeforces_userinfo_me
| codeforces_userinfo (handle : string)
| gitlab_projects
| gitlab_issues
| gitlab_pipelines
| gfg_stats (username : string)
| gfg_potd
| ep_github_releases (owner repo : string)
| ep_so_search (query tagged : string)
| ep_pypi_package (package_name : string)
| ep_pypi_latest (package_name : string)
| ep_reddit_search (subreddit query : string)
| ep_hn_search (query : string)
| ep_npm_package (package_name : string)
| ep_npm_latest (package_name : string).

(** The status line of an answer: its body is dropped. *)
Definition status_line {A} (r : http_reply A * trace) : http_reply unit * trace :=
  match r with
  | (Ok200 _, tr) => (Ok200 tt, tr)
  | (Error status detail, tr) => (Error status detail, tr)
  end.

(** One request served by the endpoint's handler. *)
Definition handle (d : deployment) (e : endpoint) : http_reply unit * trace :=
  match e with
  | github_repos => status_line (serve (Github.fetch_repos (environ d) (net d)))
  | github_issues => status_line (serve (Github.fetch_issues (environ d) (net d)))
  | github_pulls => status_line (serve (Github.fetch_my_pull_requests (environ d) (net d)))
  | github_repo_pulls owner repo =>
      status_line (serve (Github.fetch_pull_requests (environ d) (net d) owner repo))
  | stackoverflow_featured =>
      status_line (serve (StackOverflow.fetch_featured_questions (net d)))
  | stackoverflow_questions user_id username =>
      status_line (serve (StackOverflow.fetch_questions (environ d) (net d) user_id username))
  | stackoverflow_answers user_id username =>
      status_line (serve (StackOverflow.fetch_answers (environ d) (net d) user_id username))
  | hackernews_topstories => status_line (serve (HackerNews.get_top_stories (net d)))
  | hackernews_newstories => status_line (serve (HackerNews.get_new_stories (net d)))
  | hackernews_item item_id => status_line (serve (HackerNews.get_story_item (net d) item_id))
  | hackernews_user user_id => status_line (serve (HackerNews.get_hn_user (net d) user_id))
  | devto_articles => status_line (serve (Devto.fetch_articles (environ d) (net d)))
  | devto_article article_id =>
      status_line (serve (Devto.fetch_single_article (environ d) (net d) article_id))
  | kaggle_datasets => status_line (serve (Kaggle.fetch_datasets (environ d) (net d)))
  | kaggle_competitions => status_line (serve (Kaggle.fetch_competitions (environ d) (net d)))
  | codeforces_contests => status_line (serve (Codeforces.get_contests (net d)))
  | codeforces_userinfo_me =>
      status_line (serve (Codeforces.get_default_user_info (environ d) (net d) (local_time d)))
  | codeforces_userinfo handle =>
      status_line (serve (Codeforces.get_user_info (net d) (local_time d) handle))
  | gitlab_projects => status_line (serve (GitLab.fetch_projects (environ d) (net d)))
  | gitlab_issues => status_line (serve (GitLab.fetch_issues (environ d) (net d)))
  | gitlab_pipelines => status_line (serve (GitLab.fetch_pipelines (environ d) (net d)))
  | gfg_stats username =>
      status_line (serve (GFG.get_gfg_stats (net d) (str_exn d) username))
  | gfg_potd => status_line (serve (GFG.get_gfg_potd (net d) (BeautifulSoup d)))
  | ep_github_releases owner repo =>
      status_line (serve (GithubEp.fetch_releases (environ d) (net d) owner repo))
  | ep_so_search query tagged =>
      status_line (serve (So.search_stackoverflow (net d) query tagged))
  | ep_pypi_package package_name =>
      status_line (serve (Pypi.fetch_package_details (net d) package_name))
  | ep_pypi_latest package_name =>
      status_line (serve (Pypi.fetch_latest_version (net d) package_name))
  | ep_reddit_search subreddit query =>
      status_line (serve (Reddit.search_subreddit (net d) subreddit query))
  | ep_hn_search query => status_line (serve (Hn.search_hacker_news (net d) query))
  | ep_npm_package package_name =>
      status_line (serve (Npm.fetch_npm_package (net d) package_name))
  | ep_npm_latest package_name =>
      status_line (serve (Npm.fetch_npm_latest (net d) package_name))
  end.

(** * Vocabulary of the properties *)

(** A computation that issues no request and whose result does not depend
    on the requests issued before it. *)
Definition silent {A} (m : M A) : Prop := forall tr, m tr = ((m []).1, tr).

(** [m] issues exactly the requests [reqs], in this order, whatever it ends
    in. *)
Definition issues {A} (m : M A) (reqs : list request) : Prop :=
  forall tr, (m tr).2 = tr ++ reqs.

(** ** Hacker News fan-out *)

Section StoriesVocabulary.
Context (net : network).

(** The follow-up call for an identifier fails: no reply, or a reply that is
    not a 2xx. *)
Definition follow_up_fails (i : json) : bool :=
  match net (get (HackerNews.item_url i)) with
  | Unreachable _ => true
  | Reply r => negb (is_success r)
  end.

(** What the follow-up call hands to the shaping step: the decoded body of
    a 2xx reply, [None] otherwise. *)
Definition item_data (i : json) : json :=
  match net (get (HackerNews.item_url i)) with
  | Unreachable _ => JNull
  | Reply r => if is_success r then default JNull (json_body r) else JNull
  end.

(** A payload the filter of the story endpoints keeps: a non-empty object
    whose [type] is [story]. *)
Definition is_story_item (d : json) : bool :=
  truthy d &&
  match d with
  | JDict kw => eq_str (default JNull (lookup_field "type" kw)) "story"
  | _ => false
  end.

(** A payload the shaping step goes through without an exception: [None] or
    an empty value, or an object that, when it is a story, validates. *)
Definition shapes (d : json) : bool :=
  match d with
  | JDict _ =>
      if is_story_item d
      then match HackerNews.Story_of d [] with (Return _, _) => true | _ => false end
      else true
  | _ => negb (truthy d)
  end.

(** The follow-up call of an identifier fails, or it delivers JSON that
    [shapes]. *)
Definition item_ok (i : json) : bool :=
  match net (get (HackerNews.item_url i)) with
  | Unreachable _ => true
  | Reply r =>
      if is_success r
      then match json_body r with Some d => shapes d | None => false end
      else true
  end.

(** C1 as the specification words it: [k] identifiers, [m] failed
    follow-up calls, [k - m] stories. *)
Definition fanout_count_as_stated (story_type : string) : Prop :=
  forall first ids stories tr,
    net (get (HackerNews.stories_url story_type)) = Reply first ->
    is_success first = true ->
    json_body first = Some (JList ids) ->
    HackerNews.get_stories_by_type net story_type [] = (Return stories, tr) ->
    length stories = (length ids - length (List.filter follow_up_fails ids))%nat.

End StoriesVocabulary.

(** A reply with status 200 and JSON body [j]. *)
Definition ok_json (j : json) : net_result :=
  Reply {| status_code := 200; text := ""; json_body := Some j; error_message := "" |}.

(** An upstream whose top story is a job posting: the one identifier is
    fetched without failure and is not a story. *)
Definition job_net : network :=
  fun req =>
    if String.eqb (req_url req) (HackerNews.stories_url "top")
    then ok_json (JList [JInt 8863])
    else ok_json (JDict [("id", JInt 8863); ("type", JStr "job"); ("title", JStr "Hiring")]).

(** An upstream with eleven top stories, each fetched without failure. *)
Definition eleven_net : network :=
  fun req =>
    if String.eqb (req_url req) (HackerNews.stories_url "top")
    then ok_json (JList (map JInt [1; 2; 3; 4; 5; 6; 7; 8; 9; 10; 11]))
    else ok_json (JDict [("id", JInt 1); ("type", JStr "story"); ("title", JStr "News")]).

(** An upstream with three top identifiers: a story, a job posting, and one
    whose follow-up call is refused. *)
Definition mixed_net : network :=
  fun req =>
    if String.eqb (req_url req) (HackerNews.stories_url "top")
    then ok_json (JList [JInt 1; JInt 2; JInt 3])
    else if String.eqb (req_url req) (HackerNews.item_url (JInt 1))
    then ok_json (JDict [("id", JInt 1); ("type", JStr "story"); ("title", JStr "News")])
    else if String.eqb (req_url req) (HackerNews.item_url (JInt 2))
    then ok_json (JDict [("id", JInt 2); ("type", JStr "job"); ("title", JStr "Hiring")])
    else Unreachable "connection refused".

(** ** Codeforces contests *)

(** The filter of [GET /contests] on an upstream contest. *)
Definition upcoming (c : json) : bool :=
  match c with
  | JDict kw => eq_str (default JNull (lookup_field "phase" kw)) "BEFORE"
  | _ => false
  end.

(** A contest as the Codeforces API lists it: an object with an integer
    [id], a string [name] and a string [phase], and no [link]. *)
Definition contest_object (c : json) : bool :=
  match c with
  | JDict kw =>
      match lookup_field "id" kw, lookup_field "name" kw,
            lookup_field "phase" kw, lookup_field "link" kw with
      | Some (JInt _), Some (JStr _), Some (JStr _), None => true
      | _, _, _, _ => false
      end
  | _ => false
  end.

(** An entry of the upstream list that [GET /contests] can shape: an object,
    and a contest object when it is upcoming. *)
Definition listed_contest (c : json) : bool :=
  match c with
  | JDict _ => implb (upcoming c) (contest_object c)
  | _ => false
  end.

(** The record [r] is the upstream contest [c], which is upcoming, with the
    link built from its id. *)
Definition shaped_from (c : json) (r : Codeforces.Contest) : Prop :=
  exists kw,
    c = JDict kw /\
    lookup_field "id" kw = Some (JInt (Codeforces.id r)) /\
    lookup_field "name" kw = Some (JStr (Codeforces.name r)) /\
    lookup_field "phase" kw = Some (JStr "BEFORE") /\
    Codeforces.phase r = "BEFORE" /\
    Codeforces.link r = "https://codeforces.com/contest/" +:+ str_int (Codeforces.id r).

Definition contest (id : Z) (name phase : string) : json :=
  JDict [("id", JInt id); ("name", JStr name); ("phase", JStr phase)].

(** An upstream that lists four contests, two of them upcoming. *)
Definition four_contests : list json :=
  [contest 2101 "Round 990" "BEFORE"; contest 2100 "Round 989" "CODING";
   contest 2099 "Educational 175" "BEFORE"; contest 2098 "Round 988" "FINISHED"].

Definition contests_net : network :=
  fun _ => ok_json (JDict [("status", JStr "OK"); ("result", JList four_contests)]).

(** ** GitLab pipelines *)

(** An upstream call that fails: no reply, or a reply that is not a 2xx. *)
Definition call_fails (res : net_result) : bool :=
  match res with
  | Unreachable _ => true
  | Reply r => negb (is_success r)
  end.

Section PipelinesVocabulary.
Context (environ : gmap string string) (net : network).
Context (headers : list (string * string)).

(** What a project of the first-stage list adds to the result: nothing when
    its follow-up call fails, the records of the pipelines the call
    delivers otherwise. *)
Inductive contributes : json -> list GitLab.Pipeline -> Prop :=
| contributes_nothing kw id name :
    lookup_field "id" kw = Some id ->
    lookup_field "name" kw = Some name ->
    call_fails (net (GitLab.pipelines_request environ id headers)) = true ->
    contributes (JDict kw) []
| contributes_pipelines kw id name r pipelines records :
    lookup_field "id" kw = Some id ->
    lookup_field "name" kw = Some name ->
    net (GitLab.pipelines_request environ id headers) = Reply r ->
    is_success r = true ->
    json_body r = Some (JList pipelines) ->
    Forall2 (fun p record => GitLab.Pipeline_of name p [] = (Return record, []))
      pipelines records ->
    contributes (JDict kw) records.

End PipelinesVocabulary.

(** A GitLab with two projects; the pipelines call of the first one answers
    500, the second one has one pipeline. *)
Definition gitlab_environ : gmap string string := {[ "GITLAB_TOKEN" := "glpat-token" ]}.

Definition alpha_project : json :=
  JDict [("id", JInt 7); ("name", JStr "alpha")].

Definition beta_project : json :=
  JDict [("id", JInt 8); ("name", JStr "beta")].

Definition beta_pipeline : json :=
  JDict [("id", JInt 55); ("status", JStr "success");
         ("web_url", JStr "https://gitlab.com/me/beta/-/pipelines/55")].

Definition gitlab_net : network :=
  fun req =>
    if String.eqb (req_url req) "https://gitlab.com/api/v4/projects"
    then ok_json (JList [alpha_project; beta_project])
    else if String.eqb (req_url req) "https://gitlab.com/api/v4/projects/7/pipelines"
    then Reply {| status_code := 500; text := "boom"; json_body := None;
                  error_message := "Server error" |}
    else ok_json (JList [beta_pipeline]).

(** ** The scraped problem of the day *)

Section ScrapeVocabulary.
Context (net : network) (BeautifulSoup : string -> option (list GFG.node)).

(** The container of the problem of the day in a parsed page. *)
Definition container (soup : list GFG.node) : option GFG.node :=
  GFG.find_div GFG.potd_class (GFG.all_nodes soup).

(** C8 as the specification words it, for the two structural failures: on
    a page without the container, or with a container without an anchor,
    the endpoint answers the generic scrape-failed error. *)
Definition structural_failures_collapse : Prop :=
  forall r soup,
    net GFG.potd_request = Reply r ->
    is_success r = true ->
    BeautifulSoup (text r) = Some soup ->
    (container soup = None \/
     exists div,
       container soup = Some div /\ GFG.find_anchor (GFG.descendants div) = None) ->
    exists tr,
      serve (GFG.get_gfg_potd net BeautifulSoup) =
        (Error 500 "Failed to fetch or parse the GFG POTD page.", tr).

End ScrapeVocabulary.

(** A string neither begins nor ends with a whitespace character. *)
Definition no_outer_whitespace (s : string) : Prop :=
  forall w, In w whitespace -> starts_with w s = false /\ ends_with w s = false.

(** A page without the problem-of-the-day container, and the upstream that
    serves it. *)
Definition bare_page : list GFG.node :=
  [GFG.Tag "html" [] [GFG.Tag "body" [] [GFG.Tag "p" [] [GFG.Text "Maintenance"]]]].

Definition page_net (page_text : string) : network :=
  fun _ => Reply {| status_code := 200; text := page_text; json_body := None;
                    error_message := "" |}.

(** A page with the container and the problem's anchor inside it. *)
Definition potd_page : list GFG.node :=
  [GFG.Tag "html" []
     [GFG.Tag "body" []
        [GFG.Tag "div" [("class", "POTD_header-main__x1 card")]
           [GFG.Tag "span" [] [GFG.Text "Problem of the day"];
            GFG.Tag "a" [("href", "https://www.geeksforgeeks.org/problems/two-sum/1")]
              [GFG.Text "  Two Sum "]]]]].

(** The same page with no-break spaces and a thin space around the title. *)
Definition padded_title : string := utf8 160 +:+ "Two Sum" +:+ utf8 8201 +:+ utf8 160.

Definition padded_page : list GFG.node :=
  [GFG.Tag "div" [("class", "POTD_header-main__x1")]
     [GFG.Tag "a" [("href", "/problems/two-sum/1")] [GFG.Text padded_title]]].

(** ** Discovery *)



(** ** List caps *)

(** C7 as the specification and the docstring of [fetch_releases] word it,
    for the releases endpoint: at most 30 records whatever the upstream
    sends. *)
Definition releases_capped (environ : gmap string string) (net : network)
    (owner repo : string) : Prop :=
  forall releases tr,
    GithubEp.fetch_releases environ net owner repo [] = (Return releases, tr) ->
    (length releases <= 30)%nat.

Definition release (tag : string) : json :=
  JDict [("tag_name", JStr tag); ("name", JStr tag);
         ("html_url", JStr "https://github.com/o/r/releases");
         ("published_at", JStr "2024-01-01T00:00:00Z")].

(** An upstream whose reply lists 31 releases. *)
Definition releases_net : network :=
  fun _ => ok_json (JList (repeat (release "v1") 31)).

(** ** Settings and unreachable upstreams *)

(** The settings an endpoint refuses to work without: the environment
    variables its adapter checks before it calls the upstream. *)
Definition required_settings (e : endpoint) : list string :=
  match e with
  | github_repos | github_issues | github_pulls | github_repo_pulls _ _ =>
      ["GITHUB_TOKEN"]
  | devto_articles | devto_article _ => ["DEVTO_API_KEY"]
  | kaggle_datasets | kaggle_competitions => ["KAGGLE_USERNAME"; "KAGGLE_KEY"]
  | codeforces_userinfo_me => ["CODEFORCES_HANDLE"]
  | gitlab_projects | gitlab_issues | gitlab_pipelines => ["GITLAB_TOKEN"]
  | _ => []
  end.

(** C6 as the specification words it: a required setting that is absent
    makes the request fail with a 500 that names it, with no upstream call. *)
Definition missing_setting_is_500 (d : deployment) (e : endpoint) : Prop :=
  forall name,
    In name (required_settings e) ->
    environ d !! name = None ->
    exists detail,
      handle d e = (Error 500 detail, []) /\ contains name detail = true.

(** The status with which an endpoint reports a missing setting. *)
Definition missing_setting_status (e : endpoint) : Z :=
  match e with
  | codeforces_userinfo_me => 400
  | _ => 500
  end.

(** A deployment with nothing configured and an upstream that cannot be
    reached. *)
Definition down (msg : string) : network := fun _ => Unreachable msg.

Definition bare_deployment : deployment :=
  {| environ := ∅;
     net := down "connection refused";
     local_time := fun _ => None;
     BeautifulSoup := fun _ => Some [];
     str_exn := fun _ => "" |}.

(** C5 as the specification words it: when the upstream cannot be reached
    and the endpoint calls it, the answer is a 503. *)
Definition unreachable_is_503 (d : deployment) (e : endpoint) : Prop :=
  (forall req, exists msg, net d req = Unreachable msg) ->
  (handle d e).2 <> [] ->
  exists detail, (handle d e).1 = Error 503 detail.

(** The message with which an endpoint reports an upstream it cannot reach,
    where its adapter has a handler for that; [msg] is the text of the
    transport error. *)
Definition could_not_connect (e : endpoint) (msg : string) : option string :=
  match e with
  | github_repos | github_issues | github_repo_pulls _ _ =>
      Some "Could not connect to the GitHub API."
  | stackoverflow_featured => Some "Could not connect to the Stack Exchange API."
  | hackernews_topstories | hackernews_newstories | hackernews_user _ =>
      Some "Could not connect to the Hacker News API."
  | kaggle_datasets | kaggle_competitions => Some "Could not connect to the Kaggle API."
  | codeforces_contests | codeforces_userinfo_me | codeforces_userinfo _ =>
      Some "Could not connect to the Codeforces API."
  | gitlab_projects | gitlab_issues | gitlab_pipelines =>
      Some "Could not connect to the GitLab API."
  | gfg_stats _ => Some "Could not connect to the GFG stats service."
  | devto_articles | devto_article _
  | ep_github_releases _ _ | ep_so_search _ _ | ep_pypi_package _ | ep_pypi_latest _
  | ep_reddit_search _ _ | ep_hn_search _ | ep_npm_package _ | ep_npm_latest _ =>
      Some ("Service unavailable: " +:+ msg)
  | github_pulls | stackoverflow_questions _ _ | stackoverflow_answers _ _
  | hackernews_item _ | gfg_potd => None
  end.

(** ** Stack Overflow identities *)

(** An environment with a default user id, and one with a default username
    only. *)
Definition id_environ : gmap string string := {[ "STACKOVERFLOW_USER_ID" := "22656" ]}.

Definition name_environ : gmap string string := {[ "STACKOVERFLOW_USERNAME" := "jon" ]}.


(** ** The requests of an endpoint *)

(** Every request [m] adds to the trace satisfies [P]. *)
Definition sends {A} (P : request -> Prop) (m : M A) : Prop :=
  forall tr, exists added, (m tr).2 = tr ++ added /\ Forall P added.

(** [m] adds at most [n] requests to the trace, and each satisfies [P]. *)
Definition emits {A} (P : request -> Prop) (n : nat) (m : M A) : Prop :=
  forall tr, exists added,
    (m tr).2 = tr ++ added /\ Forall P added /\ (length added <= n)%nat.

(** Where the requests of an endpoint go: the base URL of its adapter. *)
Definition upstream_base (d : deployment) (e : endpoint) : string :=
  match e with
  | github_repos | github_issues | github_pulls | github_repo_pulls _ _ => Github.BASE_URL
  | stackoverflow_featured | stackoverflow_questions _ _ | stackoverflow_answers _ _ =>
      StackOverflow.BASE_URL
  | hackernews_topstories | hackernews_newstories | hackernews_item _ | hackernews_user _ =>
      HackerNews.BASE_URL
  | devto_articles | devto_article _ => Devto.BASE_URL
  | kaggle_datasets | kaggle_competitions => Kaggle.BASE_URL
  | codeforces_contests | codeforces_userinfo_me | codeforces_userinfo _ =>
      Codeforces.BASE_URL
  | gitlab_projects | gitlab_issues | gitlab_pipelines => GitLab.BASE_URL (environ d)
  | gfg_stats _ => "https://geeks-for-geeks-stats-api.vercel.app/"
  | gfg_potd => GFG.potd_url
  | ep_github_releases _ _ => GithubEp.BASE_URL
  | ep_so_search _ _ => So.BASE_URL
  | ep_pypi_package _ | ep_pypi_latest _ => Pypi.BASE_URL
  | ep_reddit_search _ _ => Reddit.BASE_URL
  | ep_hn_search _ => Hn.BASE_URL
  | ep_npm_package _ | ep_npm_latest _ => Npm.BASE_URL
  end.

(** The headers the requests of an endpoint carry. *)
Definition upstream_headers (d : deployment) (e : endpoint) : list (string * string) :=
  match e with
  | github_repos | github_issues | github_pulls | github_repo_pulls _ _ =>
      [("Authorization", "Bearer " +:+ default "" (Github.TOKEN (environ d)));
       ("Accept", "application/vnd.github.v3+json")]
  | devto_articles | devto_article _ =>
      [("api-key", default "" (Devto.API_KEY (environ d)));
       ("Accept", "application/vnd.forem.api-v1+json")]
  | gitlab_projects | gitlab_issues | gitlab_pipelines =>
      [("PRIVATE-TOKEN", GitLab.TOKEN (environ d))]
  | gfg_potd => req_headers GFG.potd_request
  | ep_github_releases _ _ => GithubEp.get_headers (environ d)
  | ep_reddit_search _ _ => [("User-Agent", "FastAPI-Aggregator/0.1 by YourUsername")]
  | _ => []
  end.

(** The basic-auth pair the requests of an endpoint carry. *)
Definition upstream_auth (d : deployment) (e : endpoint) : option (string * string) :=
  match e with
  | kaggle_datasets | kaggle_competitions =>
      Some (Kaggle.KAGGLE_USERNAME (environ d), Kaggle.KAGGLE_KEY (environ d))
  | _ => None
  end.

(** A request of endpoint [e]: to its upstream, with its credentials. *)
Definition addressed (d : deployment) (e : endpoint) (req : request) : Prop :=
  starts_with (upstream_base d e) (req_url req) = true /\
  req_headers req = upstream_headers d e /\
  req_auth req = upstream_auth d e.

(** The upstream calls one request to an endpoint can cause: the story
    endpoints fan out over at most ten identifiers, the endpoints that look
    a user up first call twice. *)
Definition max_calls (e : endpoint) : nat :=
  match e with
  | hackernews_topstories | hackernews_newstories => 11
  | github_pulls | stackoverflow_questions _ _ | stackoverflow_answers _ _ => 2
  | _ => 1
  end.

(** [m] adds at least one request to the trace. *)
Definition calls {A} (m : M A) : Prop :=
  forall tr, exists added, (m tr).2 = tr ++ added /\ added <> [].

(** ** Upstream error statuses *)

(** The status with which an endpoint answers when its upstream call is
    answered with an error status: most adapters forward the upstream's
    status, the Codeforces contests and the scraper answer 500, the
    Codeforces user endpoints and the Hacker News item endpoint answer 404. *)
Definition answered_status (e : endpoint) (r : response) : Z :=
  match e with
  | codeforces_contests | gfg_potd => 500
  | codeforces_userinfo_me | codeforces_userinfo _ | hackernews_item _ => 404
  | _ => status_code r
  end.

(** The message of the endpoints that have one of their own for an upstream
    404. *)
Definition not_found_detail (e : endpoint) : option string :=
  match e with
  | github_repo_pulls owner repo =>
      Some ("Repository " +:+ owner +:+ "/" +:+ repo +:+ " not found.")
  | devto_article article_id =>
      Some ("Article with ID " +:+ str_int article_id +:+ " not found.")
  | ep_github_releases owner repo =>
      Some ("Repository '" +:+ owner +:+ "/" +:+ repo +:+ "' not found.")
  | ep_pypi_package package_name | ep_pypi_latest package_name =>
      Some ("Package '" +:+ package_name +:+ "' not found on PyPI.")
  | ep_npm_package package_name | ep_npm_latest package_name =>
      Some ("Package '" +:+ package_name +:+ "' not found on npm.")
  | _ => None
  end.

(** The 200 reply with JSON body [j]. *)
Definition ok_response (j : json) : response :=
  {| status_code := 200; text := ""; json_body := Some j; error_message := "" |}.

(** An upstream that answers every request with [r]. *)
Definition always (r : response) : network := fun _ => Reply r.

Definition not_found : response :=
  {| status_code := 404; text := "Not Found"; json_body := None;
     error_message := "Client error '404 Not Found'" |}.

Definition rate_limited : response :=
  {| status_code := 429; text := "Too Many Requests"; json_body := None;
     error_message := "Client error '429 Too Many Requests'" |}.

(** A deployment with the environment [environ] and the upstream [net]. *)
Definition serving (environ : gmap string string) (net : network) : deployment :=
  {| environ := environ;
     net := net;
     local_time := fun _ => None;
     BeautifulSoup := fun _ => Some [];
     str_exn := fun _ => "" |}.

(** The settings of an endpoint are all set, to non-empty values. *)
Definition configured (d : deployment) (e : endpoint) : Prop :=
  Forall (fun name => exists v, environ d !! name = Some v /\ v <> "")
    (required_settings e).

(** ** Shapes of upstream values *)

(** How a field annotated [int | None] reads a value that was looked up with
    [.get]: an absent key and [null] are [None], an integer is itself, and
    anything else is refused. *)
Definition optional_int (x : option json) : option (option Z) :=
  match x with
  | None | Some JNull => Some None
  | Some (JInt n) => Some (Some n)
  | Some _ => None
  end.

(** A Codeforces user as [user.info] reports one. *)
Definition tourist : json :=
  JDict [("handle", JStr "tourist"); ("rating", JInt 3979); ("rank", JStr "legendary grandmaster");
         ("lastOnlineTimeSeconds", JInt 1700000000)].

Definition tourist_net : network :=
  always (ok_response (JDict [("status", JStr "OK"); ("result", JList [tourist])])).

Definition utc_clock (t : Z) : option string :=
  if t =? 1700000000 then Some "2023-11-14 22:13:20" else None.

(** A GitHub that knows the token's owner and one open pull request that
    involves them. *)
Definition github_environ : gmap string string := {[ "GITHUB_TOKEN" := "ghp_token" ]}.

Definition octocat_pull : json :=
  JDict [("id", JInt 1); ("title", JStr "Fix typo");
         ("url", JStr "https://api.github.com/repos/octocat/hello/issues/1");
         ("html_url", JStr "https://github.com/octocat/hello/pull/1")].

Definition github_net : network :=
  fun req =>
    if String.eqb (req_url req) "https://api.github.com/user"
    then ok_json (JDict [("login", JStr "octocat")])
    else ok_json (JDict [("total_count", JInt 1); ("items", JList [octocat_pull])]).

(** An article that carries two tags. *)
Definition tagged_article : json :=
  JDict [("id", JInt 7); ("title", JStr "T"); ("url", JStr "https://dev.to/a/t");
         ("tag_list", JList [JStr "rocq"; JStr "proofs"])].

(** A Kaggle with credentials and one dataset. *)
Definition kaggle_environ : gmap string string :=
  {[ "KAGGLE_USERNAME" := "ada"; "KAGGLE_KEY" := "secret" ]}.

Definition kaggle_net : network :=
  always (ok_response (JList [JDict [("title", JStr "Titanic"); ("ref", JStr "ada/titanic")]])).

(** A registry document of npm, and a package document of PyPI. *)
Definition left_pad : json :=
  JDict [("name", JStr "left-pad"); ("description", JStr "String left pad");
         ("dist-tags", JDict [("latest", JStr "1.3.0")])].

Definition requests_package : json :=
  JDict [("info", JDict [("name", JStr "requests"); ("version", JStr "2.32.3");
                         ("summary", JStr "Python HTTP for Humans.")])].

(** A Stack Exchange that finds one user for every name and one question
    for every user. *)
Definition stack_net : network :=
  fun req =>
    if contains "/users?" (req_url req)
    then ok_json (JDict [("items", JList [JDict [("user_id", JInt 22656);
                                                ("display_name", JStr "Jon Skeet")]])])
    else ok_json (JDict [("items", JList [JDict [("question_id", JInt 11);
                                                ("title", JStr "Why?");
                                                ("link", JStr "https://stackoverflow.com/q/11")]])]).

(** ** Search hits *)

(** A hit the Hacker News search keeps: an object with a [title] that
    Python takes as true. *)
Definition titled (hit : json) : bool :=
  match hit with
  | JDict kw => truthy (default JNull (lookup_field "title" kw))
  | _ => false
  end.

(** The story [s] is the hit [hit]: its [objectID], [title], [points] and
    [author], the last two with their defaults. *)
Definition story_of_hit (hit : json) (s : Hn.Story) : Prop :=
  exists kw,
    hit = JDict kw /\
    lookup_field "objectID" kw = Some (JStr (Hn.objectID s)) /\
    lookup_field "title" kw = Some (JStr (Hn.title s)) /\
    default (JInt 0) (lookup_field "points" kw) = JInt (Hn.points s) /\
    default (JStr "No Author") (lookup_field "author" kw) = JStr (Hn.author s).

(** Two hits, the first without a title. *)
Definition two_hits : list json :=
  [JDict [("objectID", JStr "1"); ("title", JStr "")];
   JDict [("objectID", JStr "2"); ("title", JStr "Rocq 9.0")]].

(** ** GitLab lists *)

(** The record carries the entry's [id], its [web_url], and its name or
    title under [key]. *)
Definition gitlab_entry (key : string) (entry : json) (id : Z) (label url : string) : Prop :=
  exists kw,
    entry = JDict kw /\
    lookup_field "id" kw = Some (JInt id) /\
    lookup_field key kw = Some (JStr label) /\
    lookup_field "web_url" kw = Some (JStr url).

(** * Properties *)

(** ** The model on small inputs *)

Example parse_int_examples :
  parse_int " 22656 " = Some 22656 /\ parse_int "-7" = Some (-7) /\
  parse_int "+1_000" = Some 1000 /\ parse_int "007" = Some 7 /\
  parse_int "12a" = None /\ parse_int "1__0" = None /\ parse_int "" = None /\
  parse_int "+ 7" = None /\ parse_int "4 2" = None.
Proof. repeat split; reflexivity. Qed.

(** [int] skips the whitespace of C and of Unicode past ASCII, not the
    separators 28..31 that [str.strip] removes, and reads the decimal digits
    of every script. *)
Example parse_int_unicode :
  parse_int (utf8 31 +:+ "42") = None /\
  parse_int (utf8 160 +:+ "42" +:+ utf8 8195) = Some 42 /\
  parse_int (utf8 1636 +:+ utf8 1634) = Some 42 /\
  parse_int (utf8 65300 +:+ "_" +:+ utf8 2408) = Some 42 /\
  parse_int (utf8 8722 +:+ "42") = None /\
  parse_int (String (char_of 192) (String (char_of 180) "")) = None.
Proof. repeat split; reflexivity. Qed.

Example py_str_examples :
  py_str (JInt (-3)) = "-3" /\ py_str (JStr "a b") = "a b" /\ py_str JNull = "None" /\
  py_str (JBool true) = "True" /\
  py_str (JList [JInt 1; JStr "it's"; JDict [("k", JNull)]]) =
    "[1, " +:+ dquote +:+ "it's" +:+ dquote +:+ ", {'k': None}]".
Proof. repeat split; reflexivity. Qed.

Example strip_examples :
  strip "  Two Sum " = "Two Sum" /\ strip "" = "" /\ split_ws " a  b c " = ["a"; "b"; "c"] /\
  strip (utf8 160 +:+ "Two Sum" +:+ utf8 160 +:+ utf8 8201) = "Two Sum" /\
  strip (utf8 31 +:+ " Two" +:+ utf8 12288 +:+ "Sum" +:+ utf8 10) =
    "Two" +:+ utf8 12288 +:+ "Sum" /\
  strip (utf8 233 +:+ " ") = utf8 233 /\
  split_ws ("a" +:+ utf8 160 +:+ "b" +:+ utf8 8232 +:+ utf8 9 +:+ "c") = ["a"; "b"; "c"].
Proof. repeat split; reflexivity. Qed.

Example truthy_examples :
  truthy JNull = false /\ truthy (JInt 0) = false /\ truthy (JStr "") = false /\
  truthy (JList []) = false /\ truthy (JDict []) = false /\ truthy (JStr "0") = true.
Proof. repeat split; reflexivity. Qed.

Example class_matches_examples :
  GFG.class_matches GFG.potd_class [("class", "card POTD_header-main__x1")] = true /\
  GFG.class_matches GFG.potd_class [("class", "POTD_header main")] = false /\
  GFG.class_matches GFG.potd_class [("id", "POTD_header-main")] = false.
Proof. repeat split; reflexivity. Qed.

(** A story whose follow-up call is refused is reported as not found. *)
Example item_unreachable :
  serve (HackerNews.get_story_item (fun _ => Unreachable "connection refused") 8863) =
    (Error 404 "Item with ID 8863 not found or failed to fetch.",
     [get "https://hacker-news.firebaseio.com/v0/item/8863.json"]).
Proof. reflexivity. Qed.

(** The questions call of a user given by id has no handler for a transport
    failure: the exception escapes and FastAPI answers a bare 500. *)
Example questions_unreachable :
  serve (StackOverflow.fetch_questions ∅ (fun _ => Unreachable "connection refused")
           (Some 22656) None) =
    (Error 500 "Internal Server Error",
     [get ("https://api.stackexchange.com/2.3/users/22656/questions" +:+
           "?order=desc&sort=creation&site=stackoverflow")]).
Proof. reflexivity. Qed.

(** [/github/pulls] without its token: the catch-all handler replaces the
    message that names the setting. *)
Example pulls_without_token :
  serve (Github.fetch_my_pull_requests ∅ (fun _ => Unreachable "connection refused")) =
    (Error 500 "An unexpected error occurred while fetching PRs.", []).
Proof. reflexivity. Qed.

(** A contest without an id is a [KeyError], which the contests endpoint
    reports with the key. *)
Example contest_without_id :
  serve (Codeforces.get_contests
           (fun _ => ok_json (JDict [("result", JList [JDict [("phase", JStr "BEFORE")]])]))) =
    (Error 500 "Failed to fetch or parse contests: 'id'", [get Codeforces.contests_url]).
Proof. reflexivity. Qed.

(** ** Running coroutines *)

Lemma run_bind {A B} (m : M A) (k : A -> M B) tr a tr1 :
  m tr = (Return a, tr1) -> (m ≫= k) tr = k a tr1.
Proof. intros H. unfold mbind, M_bind, bind. by rewrite H. Qed.

Lemma run_bind_raise {A B} (m : M A) (k : A -> M B) tr e tr1 :
  m tr = (Raise e, tr1) -> (m ≫= k) tr = (Raise e, tr1).
Proof. intros H. unfold mbind, M_bind, bind. by rewrite H. Qed.

Lemma run_try_return {A} (body : M A) handler tr a tr1 :
  body tr = (Return a, tr1) -> try_except body handler tr = (Return a, tr1).
Proof. intros H. unfold try_except. by rewrite H. Qed.

Lemma run_try_caught {A} (body : M A) handler tr e tr1 h :
  body tr = (Raise e, tr1) -> handler e = Some h ->
  try_except body handler tr = h tr1.
Proof. intros H Hh. unfold try_except. by rewrite H, Hh. Qed.

Lemma bind_return_inv {A B} (m : M A) (k : A -> M B) tr b tr' :
  (m ≫= k) tr = (Return b, tr') ->
  exists a tr1, m tr = (Return a, tr1) /\ k a tr1 = (Return b, tr').
Proof.
  unfold mbind, M_bind, bind. destruct (m tr) as [[a|e] tr1]; [eauto | discriminate].
Qed.

Lemma client_get_reply net req resp tr :
  net req = Reply resp -> client_get net req tr = (Return resp, tr ++ [req]).
Proof. intros H. unfold client_get. by rewrite H. Qed.

Lemma client_get_unreachable net req msg tr :
  net req = Unreachable msg -> client_get net req tr = (Raise (RequestError msg), tr ++ [req]).
Proof. intros H. unfold client_get. by rewrite H. Qed.

Lemma raise_for_status_success resp tr :
  is_success resp = true -> raise_for_status resp tr = (Return tt, tr).
Proof. intros H. unfold raise_for_status. by rewrite H. Qed.

Lemma raise_for_status_error resp tr :
  is_success resp = false -> raise_for_status resp tr = (Raise (HTTPStatusError resp), tr).
Proof. intros H. unfold raise_for_status. by rewrite H. Qed.

Lemma resp_json_some resp j tr :
  json_body resp = Some j -> resp_json resp tr = (Return j, tr).
Proof. intros H. unfold resp_json. by rewrite H. Qed.

Ltac bind_inv H :=
  let a := fresh "v" in
  let tr := fresh "tr" in
  let H1 := fresh "Hstep" in
  apply bind_return_inv in H as (a & tr & H1 & H).

Lemma try_return_inv {A} (body : M A) handler tr a tr' :
  try_except body handler tr = (Return a, tr') ->
  (forall e h tr1 b tr2, handler e = Some h -> h tr1 <> (Return b, tr2)) ->
  body tr = (Return a, tr').
Proof.
  unfold try_except. intros H Hh.
  destruct (body tr) as [[b|e] tr1]; [exact H|].
  destruct (handler e) as [h|] eqn:E; [|discriminate].
  exfalso. exact (Hh e h tr1 a tr' E H).
Qed.

(** A gathering returns when every task returns, each from the trace the
    task before it left. *)
Lemma gather_cons_return {A} (t : M A) rest tr results tr' :
  gather (t :: rest) tr = (Return results, tr') ->
  exists r rs tr1,
    t tr = (Return r, tr1) /\ gather rest tr1 = (Return rs, tr') /\ results = r :: rs.
Proof.
  cbn [gather]. destruct (t tr) as [[r|e] tr1]; [|discriminate].
  unfold mbind, M_bind, bind.
  destruct (gather rest tr1) as [[rs|e] tr2] eqn:E; [|discriminate].
  intros [= <- <-]. by exists r, rs, tr1.
Qed.

Lemma run_gather_cons {A} (t : M A) rest tr r rs tr1 tr2 :
  t tr = (Return r, tr1) -> gather rest tr1 = (Return rs, tr2) ->
  gather (t :: rest) tr = (Return (r :: rs), tr2).
Proof.
  intros Ht Hrest. cbn [gather]. rewrite Ht.
  unfold mbind, M_bind, bind. by rewrite Hrest.
Qed.

Lemma gather_length {A} (tasks : list (M A)) tr results tr' :
  gather tasks tr = (Return results, tr') -> length results = length tasks.
Proof.
  revert tr results tr'. induction tasks as [|t rest IH]; intros tr results tr' H.
  - by injection H as <- _.
  - apply gather_cons_return in H as (r & rs & tr1 & _ & Hrest & ->).
    simpl. f_equal. eauto.
Qed.

Lemma for_each_length {A B} (f : A -> M B) xs tr ys tr' :
  for_each f xs tr = (Return ys, tr') -> length ys = length xs.
Proof.
  revert tr ys tr'. induction xs as [|x xs IH]; simpl; intros tr ys tr' H.
  - by injection H as <- _.
  - apply bind_return_inv in H as (y & tr1 & _ & H).
    apply bind_return_inv in H as (ys' & tr2 & Hrest & H).
    injection H as <- _. simpl. f_equal. eauto.
Qed.

Lemma comprehension_return_inv {A B} (cond : A -> M bool) (f : A -> M B)
    (P : B -> Prop) xs tr ys tr' :
  comprehension cond f xs tr = (Return ys, tr') ->
  (forall x t1 t2 y t3, cond x t1 = (Return true, t2) -> f x t2 = (Return y, t3) -> P y) ->
  Forall P ys /\ (length ys <= length xs)%nat.
Proof.
  intros H HP. revert tr ys tr' H.
  induction xs as [|x xs IH]; simpl; intros tr ys tr' H.
  - injection H as <- _. split; [constructor | reflexivity].
  - apply bind_return_inv in H as (c & tr1 & Hc & H). destruct c.
    + apply bind_return_inv in H as (y & tr2 & Hy & H).
      apply bind_return_inv in H as (ys' & tr3 & Hrest & H).
      injection H as <- _. destruct (IH _ _ _ Hrest) as [Hall Hlen].
      split; [constructor; eauto | simpl; lia].
    + destruct (IH _ _ _ H) as [Hall Hlen]. split; [exact Hall | lia].
Qed.

(** ** Silent computations *)

Lemma silent_ret {A} (a : A) : silent (ret a).
Proof. by intros tr. Qed.

Lemma silent_mret {A} (a : A) : silent (mret a).
Proof. by intros tr. Qed.

Lemma silent_raise {A} e : silent (@raise A e).
Proof. by intros tr. Qed.

Lemma silent_bind {A B} (m : M A) (k : A -> M B) :
  silent m -> (forall a, silent (k a)) -> silent (m ≫= k).
Proof.
  intros Hm Hk tr. unfold mbind, M_bind, bind.
  rewrite (Hm tr). pose proof (Hm []) as H0.
  destruct (m []) as [[a|e] tr0]; simpl in *.
  - injection H0 as ->. apply Hk.
  - reflexivity.
Qed.

Lemma silent_for_each {A B} (f : A -> M B) xs :
  (forall x, silent (f x)) -> silent (for_each f xs).
Proof.
  intros Hf. induction xs as [|x xs IH]; simpl.
  - apply silent_mret.
  - apply silent_bind; [apply Hf|]. intros y.
    apply silent_bind; [apply IH|]. intros ys. apply silent_mret.
Qed.

Create HintDb silent.

#[local] Hint Resolve silent_ret silent_mret silent_raise silent_for_each : silent.

Lemma silent_as_int x : silent (as_int x).
Proof. destruct x; simpl; auto with silent. Qed.

Lemma silent_as_str x : silent (as_str x).
Proof. destruct x; simpl; auto with silent. Qed.

Lemma silent_as_bool x : silent (as_bool x).
Proof. destruct x; simpl; auto with silent. Qed.

Lemma silent_as_optional {A} (v : json -> M A) x :
  (forall y, silent (v y)) -> silent (as_optional v x).
Proof.
  intros Hv. destruct x; simpl; auto with silent;
    (apply silent_bind; [apply Hv | intros; apply silent_mret]).
Qed.

Lemma silent_as_list {A} (v : json -> M A) x :
  (forall y, silent (v y)) -> silent (as_list v x).
Proof. intros Hv. destruct x; simpl; auto with silent. Qed.

Lemma silent_required {A} (v : json -> M A) kw name :
  (forall y, silent (v y)) -> silent (required v kw name).
Proof. intros Hv. unfold required. destruct (lookup_field name kw); auto with silent. Qed.

Lemma silent_defaulted {A} (v : json -> M A) d kw name :
  (forall y, silent (v y)) -> silent (defaulted v d kw name).
Proof. intros Hv. unfold defaulted. destruct (lookup_field name kw); auto with silent. Qed.

Lemma silent_kwargs x : silent (kwargs x).
Proof. destruct x; simpl; auto with silent. Qed.

Lemma silent_kwargs_extend kw name v : silent (kwargs_extend kw name v).
Proof. unfold kwargs_extend. destruct (lookup_field name kw); auto with silent. Qed.

Lemma silent_py_get x k d : silent (py_get x k d).
Proof. destruct x; simpl; auto with silent. Qed.

Lemma silent_py_getitem x k : silent (py_getitem x k).
Proof. destruct x; simpl; auto with silent. destruct (lookup_field k fields); auto with silent. Qed.

#[local] Hint Resolve silent_as_int silent_as_str silent_as_bool silent_as_optional
  silent_as_list silent_required silent_defaulted silent_kwargs silent_kwargs_extend
  silent_py_get silent_py_getitem : silent.

Lemma silent_raise_for_status resp : silent (raise_for_status resp).
Proof. unfold raise_for_status. destruct (is_success resp); auto with silent. Qed.

Lemma silent_resp_json resp : silent (resp_json resp).
Proof. unfold resp_json. destruct (json_body resp); auto with silent. Qed.

Lemma silent_py_first x : silent (py_first x).
Proof.
  destruct x as [|b|n|s|items|kw]; simpl; auto with silent.
  - destruct s; auto with silent.
  - destruct items; auto with silent.
Qed.

Lemma silent_py_slice x n : silent (py_slice x n).
Proof. destruct x; simpl; auto with silent. Qed.

Lemma silent_py_iter x : silent (py_iter x).
Proof. destruct x; simpl; auto with silent. Qed.

Lemma silent_py_int s : silent (py_int s).
Proof. unfold py_int. destruct (parse_int s); auto with silent. Qed.

Lemma silent_comprehension {A B} (cond : A -> M bool) (f : A -> M B) xs :
  (forall x, silent (cond x)) -> (forall x, silent (f x)) ->
  silent (comprehension cond f xs).
Proof.
  intros Hc Hf. induction xs as [|x xs IH]; simpl; [apply silent_mret|].
  apply silent_bind; [apply Hc|]. intros [|]; [|exact IH].
  apply silent_bind; [apply Hf|]. intros y.
  apply silent_bind; [apply IH|]. intros ys. apply silent_mret.
Qed.

#[local] Hint Resolve silent_raise_for_status silent_resp_json silent_py_first
  silent_py_slice silent_py_iter silent_py_int silent_comprehension : silent.

(** Splits a computation into its steps: binds, conditionals, matches. *)
Ltac silent_tac :=
  repeat first
    [ solve [auto 6 with silent]
    | apply silent_bind; [|intros ?]
    | match goal with
      | |- silent (if ?b then _ else _) => destruct b
      | |- silent (match ?x with _ => _ end) => destruct x
      end ].

Lemma silent_Story_of d : silent (HackerNews.Story_of d).
Proof. unfold HackerNews.Story_of. silent_tac. Qed.

Lemma silent_Pipeline_of name p : silent (GitLab.Pipeline_of name p).
Proof. unfold GitLab.Pipeline_of. silent_tac. Qed.

Lemma silent_return {A} (m : M A) a tr0 tr :
  silent m -> m [] = (Return a, tr0) -> m tr = (Return a, tr).
Proof. intros Hs H. rewrite (Hs tr), H. reflexivity. Qed.

(** ** The requests a computation issues *)

Lemma issues_client_get net req : issues (client_get net req) [req].
Proof. intros tr. unfold client_get. by destruct (net req). Qed.

(** A call followed by silent steps issues what the call issues. *)
Lemma issues_call_then {A B} (m : M A) (k : A -> M B) r :
  issues m r -> (forall a, silent (k a)) -> issues (m ≫= k) r.
Proof.
  intros Hm Hk tr. unfold mbind, M_bind, bind.
  pose proof (Hm tr) as H1. destruct (m tr) as [[a|e] tr1]; simpl in *; [|exact H1].
  rewrite (Hk a tr1). exact H1.
Qed.

Lemma issues_try_except {A} (body : M A) handler r :
  issues body r ->
  (forall e h, handler e = Some h -> silent h) ->
  issues (try_except body handler) r.
Proof.
  intros Hb Hh tr. unfold try_except.
  pose proof (Hb tr) as H1. destruct (body tr) as [[a|e] tr1]; simpl in *; [exact H1|].
  destruct (handler e) as [h|] eqn:E; [|exact H1].
  rewrite (Hh e h E tr1). simpl. exact H1.
Qed.

(** ** Lists *)

Lemma filter_map_swap {A B} (p : B -> bool) (f : A -> B) (l : list A) :
  List.filter p (map f l) = map f (List.filter (fun x => p (f x)) l).
Proof.
  induction l as [|x l IH]; simpl; [reflexivity|].
  destruct (p (f x)); simpl; by rewrite IH.
Qed.

Lemma Forall2_map_left {A B C} (R : B -> C -> Prop) (f : A -> B) l k :
  Forall2 R (map f l) k -> Forall2 (fun x y => R (f x) y) l k.
Proof.
  revert k. induction l as [|x l IH]; intros k H; inversion H; subst; constructor; auto.
Qed.

(** Three classes that split a list: [p], [q], and neither. *)
Lemma filter_three_way {A} (p q : A -> bool) (l : list A) :
  (forall x, p x = true -> q x = false) ->
  length (List.filter q l) =
  (length l - length (List.filter p l)
   - length (List.filter (fun x => negb (p x) && negb (q x)) l))%nat.
Proof.
  intros Hpq. induction l as [|x l IH]; simpl; [reflexivity|].
  pose proof (length_filter p l) as Hp.
  pose proof (length_filter (fun x => negb (p x) && negb (q x)) l) as Hn.
  assert (length (List.filter p l)
          + length (List.filter (fun x => negb (p x) && negb (q x)) l)
          <= length l)%nat as Hsum.
  { clear. induction l as [|y l IH]; simpl; [lia|].
    destruct (p y), (q y); simpl; lia. }
  destruct (p x) eqn:Ep, (q x) eqn:Eq; simpl.
  - rewrite (Hpq x Ep) in Eq. discriminate.
  - lia.
  - lia.
  - lia.
Qed.

(** ** C1: the fan-out of the story endpoints *)

Section StoriesFanout.
Context (net : network).

Lemma fetch_item_ok i tr :
  item_ok net i = true ->
  HackerNews.fetch_item net i tr =
  (Return (item_data net i), tr ++ [get (HackerNews.item_url i)]).
Proof.
  unfold item_ok, item_data, HackerNews.fetch_item, try_except.
  unfold mbind, M_bind, bind, client_get. intros H.
  destruct (net (get (HackerNews.item_url i))) as [msg|r]; [reflexivity|].
  unfold raise_for_status. destruct (is_success r); [|reflexivity].
  unfold resp_json, ret. destruct (json_body r); [reflexivity | discriminate].
Qed.

Lemma gather_fetch_items ids tr :
  Forall (fun i => item_ok net i = true) ids ->
  gather (map (HackerNews.fetch_item net) ids) tr =
  (Return (map (item_data net) ids),
   tr ++ map (fun i => get (HackerNews.item_url i)) ids).
Proof.
  intros H. revert tr. induction H as [|i ids Hi _ IH]; intros tr.
  - simpl. by rewrite app_nil_r.
  - cbn [map]. rewrite (run_gather_cons _ _ _ _ _ _ _ (fetch_item_ok i tr Hi) (IH _)).
    by rewrite <- app_assoc.
Qed.

Lemma is_story_item_dict d : is_story_item d = true -> exists kw, d = JDict kw.
Proof.
  unfold is_story_item. destruct d; simpl; rewrite ?andb_false_r; try discriminate; eauto.
Qed.

Lemma is_story_run d tr :
  shapes d = true -> HackerNews.is_story d tr = (Return (is_story_item d), tr).
Proof.
  unfold HackerNews.is_story, is_story_item.
  destruct d as [|b|n|s|items|kw]; simpl; intros H; try reflexivity;
    try (apply negb_true_iff in H; rewrite H; reflexivity).
  destruct kw; reflexivity.
Qed.

Lemma shape_stories ds tr :
  Forall (fun d => shapes d = true) ds ->
  exists stories,
    comprehension HackerNews.is_story HackerNews.Story_of ds tr = (Return stories, tr) /\
    Forall2 (fun d s => HackerNews.Story_of d [] = (Return s, []))
      (List.filter is_story_item ds) stories.
Proof.
  induction 1 as [|d ds Hd _ [stories [Hrun Hall]]]; simpl.
  - exists []. split; [reflexivity | constructor].
  - erewrite run_bind by (by apply is_story_run).
    destruct (is_story_item d) eqn:Hstory.
    + destruct (is_story_item_dict d Hstory) as [kw ->].
      unfold shapes in Hd. rewrite Hstory in Hd.
      destruct (HackerNews.Story_of (JDict kw) []) as [[s|e] tr0] eqn:Hs; [|discriminate].
      pose proof (silent_Story_of (JDict kw) []) as Hnil. rewrite Hs in Hnil.
      injection Hnil as ->.
      exists (s :: stories). split.
      * erewrite run_bind by (eapply silent_return; [apply silent_Story_of | exact Hs]).
        erewrite run_bind by exact Hrun. reflexivity.
      * constructor; assumption.
    + exists stories. split; assumption.
Qed.

Lemma item_data_shapes i : item_ok net i = true -> shapes (item_data net i) = true.
Proof.
  unfold item_ok, item_data.
  destruct (net (get (HackerNews.item_url i))) as [msg|r]; [reflexivity|].
  destruct (is_success r); [|reflexivity].
  destruct (json_body r); [tauto | discriminate].
Qed.

Lemma failed_item_no_story i :
  follow_up_fails net i = true -> is_story_item (item_data net i) = false.
Proof.
  unfold follow_up_fails, item_data.
  destruct (net (get (HackerNews.item_url i))) as [msg|r]; [reflexivity|].
  intros H. apply negb_true_iff in H. by rewrite H.
Qed.

Lemma fetch_item_return i tr d tr' :
  HackerNews.fetch_item net i tr = (Return d, tr') -> d = item_data net i.
Proof.
  unfold item_data, HackerNews.fetch_item, try_except.
  unfold mbind, M_bind, bind, client_get.
  destruct (net (get (HackerNews.item_url i))) as [msg|r]; [by intros [= <- _]|].
  unfold raise_for_status. destruct (is_success r); [|by intros [= <- _]].
  unfold resp_json, ret. destruct (json_body r); [by intros [= <- _] | discriminate].
Qed.

Lemma gather_fetch_return ids tr results tr' :
  gather (map (HackerNews.fetch_item net) ids) tr = (Return results, tr') ->
  results = map (item_data net) ids.
Proof.
  revert tr results tr'. induction ids as [|i ids IH]; intros tr results tr' H.
  - by injection H as <- _.
  - cbn [map] in H. apply gather_cons_return in H as (r & rs & tr1 & Hi & Hrest & ->).
    simpl. f_equal; [by eapply fetch_item_return | by eapply IH].
Qed.

Lemma is_story_return d tr c tr' :
  HackerNews.is_story d tr = (Return c, tr') -> c = is_story_item d.
Proof.
  unfold HackerNews.is_story, is_story_item.
  destruct (truthy d); [|by intros [= <- _]].
  destruct d; try discriminate. by intros [= <- _].
Qed.

Lemma shape_stories_return ds tr stories tr' :
  comprehension HackerNews.is_story HackerNews.Story_of ds tr = (Return stories, tr') ->
  Forall2 (fun d s => HackerNews.Story_of d [] = (Return s, []))
    (List.filter is_story_item ds) stories.
Proof.
  revert tr stories tr'. induction ds as [|d ds IH]; simpl; intros tr stories tr' H.
  - injection H as <- _. constructor.
  - bind_inv H. apply is_story_return in Hstep as ->.
    destruct (is_story_item d).
    + bind_inv H. bind_inv H. injection H as <- _. constructor; [|by eapply IH].
      rewrite (silent_Story_of d tr0) in Hstep. injection Hstep as Hs _.
      rewrite (silent_Story_of d []). by rewrite Hs.
    + by eapply IH.
Qed.

(** The fan-out over the first 10 identifiers goes through when every
    follow-up call fails or delivers a payload that [shapes]. *)
Lemma stories_fanout_returns (story_type : string) (first : response) (ids : list json) :
  net (get (HackerNews.stories_url story_type)) = Reply first ->
  is_success first = true ->
  json_body first = Some (JList ids) ->
  Forall (fun i => item_ok net i = true) (take 10 ids) ->
  exists stories tr,
    HackerNews.get_stories_by_type net story_type [] = (Return stories, tr).
Proof.
  intros Hnet Hok Hbody Hitems.
  assert (Forall (fun d => shapes d = true) (map (item_data net) (take 10 ids)))
    as Hshapes.
  { apply Forall_map. eapply Forall_impl; [exact Hitems|].
    intros i Hi. by apply item_data_shapes. }
  set (tr1 := [get (HackerNews.stories_url story_type)]
              ++ map (fun i => get (HackerNews.item_url i)) (take 10 ids)).
  destruct (shape_stories _ tr1 Hshapes) as [stories [Hrun _]].
  exists stories, tr1.
  unfold HackerNews.get_stories_by_type. apply run_try_return.
  erewrite run_bind by (by apply client_get_reply).
  erewrite run_bind by (by apply raise_for_status_success).
  erewrite run_bind by (by apply resp_json_some).
  erewrite run_bind by reflexivity.
  erewrite run_bind by reflexivity.
  erewrite run_bind by (by apply gather_fetch_items).
  exact Hrun.
Qed.

(** C1, amended.  The story endpoints fan out over the first 10
    identifiers only, and keep only the payloads whose type is [story].
    Let the first-stage call deliver [k] identifiers, and of the first
    [min k 10] let [m] fail their follow-up call and [n] succeed with an
    empty payload or one whose type is not [story].  Then the endpoint
    returns a list when every fanned-out follow-up call fails or delivers a
    payload the shaping step accepts, and every list it returns has exactly
    [min k 10 - m - n] records: the stories of the remaining identifiers, in
    the order of the identifier list. *)
Theorem stories_fanout_amended (story_type : string) (first : response) (ids : list json) :
  net (get (HackerNews.stories_url story_type)) = Reply first ->
  is_success first = true ->
  json_body first = Some (JList ids) ->
  let fanned := take 10 ids in
  let m := length (List.filter (follow_up_fails net) fanned) in
  let n := length (List.filter
                     (fun i => negb (follow_up_fails net i) &&
                               negb (is_story_item (item_data net i))) fanned) in
  (Forall (fun i => item_ok net i = true) fanned ->
   exists stories tr,
     HackerNews.get_stories_by_type net story_type [] = (Return stories, tr)) /\
  (forall stories tr,
     HackerNews.get_stories_by_type net story_type [] = (Return stories, tr) ->
     length stories = (length fanned - m - n)%nat /\
     Forall2 (fun i s => HackerNews.Story_of (item_data net i) [] = (Return s, []))
       (List.filter (fun i => is_story_item (item_data net i)) fanned) stories).
Proof.
  intros Hnet Hok Hbody fanned m n. split.
  - intros Hitems. by apply (stories_fanout_returns story_type first ids).
  - intros stories tr H.
    assert (Forall2 (fun i s => HackerNews.Story_of (item_data net i) [] = (Return s, []))
              (List.filter (fun i => is_story_item (item_data net i)) fanned) stories)
      as Hall.
    { unfold HackerNews.get_stories_by_type in H.
      apply try_return_inv in H; [|intros [] h ? ? ? [= <-]; discriminate].
      erewrite run_bind in H by (by apply client_get_reply).
      erewrite run_bind in H by (by apply raise_for_status_success).
      erewrite run_bind in H by (by apply resp_json_some).
      erewrite run_bind in H by reflexivity.
      erewrite run_bind in H by reflexivity.
      bind_inv H. apply gather_fetch_return in Hstep as ->.
      apply shape_stories_return in H. rewrite filter_map_swap in H.
      by apply Forall2_map_left in H. }
    split; [|exact Hall].
    rewrite <- (Forall2_length _ _ _ Hall).
    apply filter_three_way. intros i Hi. by apply failed_item_no_story.
Qed.

End StoriesFanout.

(** The amended C1 at [mixed_net]: three identifiers, one failed follow-up
    call, one job posting, so one story is returned. *)
Lemma stories_fanout_witness :
  exists stories tr,
    HackerNews.get_stories_by_type mixed_net "top" [] = (Return stories, tr) /\
    length stories = 1%nat.
Proof.
  destruct (stories_fanout_amended mixed_net "top"
              {| status_code := 200; text := ""; error_message := "";
                 json_body := Some (JList [JInt 1; JInt 2; JInt 3]) |}
              [JInt 1; JInt 2; JInt 3] eq_refl eq_refl eq_refl)
    as (Hreturns & Hexact).
  destruct Hreturns as (stories & tr & Hrun); [repeat constructor|].
  exists stories, tr. split; [exact Hrun|].
  destruct (Hexact stories tr Hrun) as (Hlen & _). exact Hlen.
Defined.

(** C1 as stated fails.  At [job_net] the list has one identifier and no
    follow-up call fails, yet no story is returned; at [eleven_net] the list
    has eleven identifiers and no follow-up call fails, yet ten stories are
    returned. *)
Lemma stories_fanout_counterexample :
  ~ fanout_count_as_stated job_net "top" /\ ~ fanout_count_as_stated eleven_net "top".
Proof.
  split; intros H.
  - pose proof (H _ _ _ _ eq_refl eq_refl eq_refl eq_refl) as Hlen.
    vm_compute in Hlen. discriminate.
  - pose proof (H _ _ _ _ eq_refl eq_refl eq_refl eq_refl) as Hlen.
    vm_compute in Hlen. discriminate.
Qed.

(** ** C2 and C10: whose questions and answers *)

Section IdentityResolution.
Context (environ : gmap string string) (net : network).



(** C10.  A [user_id] of 0 resolves as no [user_id] does, and an empty
    [username] as no [username] does: with a default id configured, the
    target of [user_id=0] is that default and not user 0, and with only a
    default username configured, the empty [username] is passed over for
    it. *)
Theorem falsy_identity_falls_through (user_id : option Z) (username : option string)
    (tr : trace) :
  StackOverflow.resolve_user_id environ net (Some 0) username =
    StackOverflow.resolve_user_id environ net None username /\
  StackOverflow.resolve_user_id environ net user_id (Some "") =
    StackOverflow.resolve_user_id environ net user_id None /\
  (forall d n,
     environ !! "STACKOVERFLOW_USER_ID" = Some d -> d <> "" -> parse_int d = Some n ->
     StackOverflow.resolve_user_id environ net (Some 0) username tr =
       (Return (JInt n), tr)) /\
  (forall name,
     environ !! "STACKOVERFLOW_USER_ID" = None ->
     environ !! "STACKOVERFLOW_USERNAME" = Some name -> name <> "" ->
     StackOverflow.resolve_user_id environ net (Some 0) (Some "") tr =
       StackOverflow.get_user_id_from_username net name tr).
Proof.
  split; [reflexivity | split; [reflexivity | split]].
  - intros d n Hd Hne Hn. unfold StackOverflow.resolve_user_id,
      StackOverflow.DEFAULT_USER_ID, getenv. rewrite Hd. simpl.
    unfold nonempty. apply String.eqb_neq in Hne. rewrite Hne. simpl.
    unfold py_int, mbind, M_bind, bind. by rewrite Hn.
  - intros name Hid Hname Hne. unfold StackOverflow.resolve_user_id,
      StackOverflow.DEFAULT_USER_ID, StackOverflow.DEFAULT_USERNAME, getenv.
    rewrite Hid, Hname. simpl.
    unfold nonempty. apply String.eqb_neq in Hne. by rewrite Hne.
Qed.

End IdentityResolution.


(** C10 at concrete requests: [user_id=0] resolves to the default id 22656,
    and [user_id=0] with an empty [username] goes to the lookup of the
    default username. *)
Lemma falsy_identity_falls_through_witness :
  StackOverflow.resolve_user_id id_environ (down "connection refused") (Some 0) None []
    = (Return (JInt 22656), []) /\
  StackOverflow.resolve_user_id name_environ (down "connection refused") (Some 0) (Some "") []
    = StackOverflow.get_user_id_from_username (down "connection refused") "jon" [].
Proof.
  destruct (falsy_identity_falls_through id_environ (down "connection refused")
              None None []) as (_ & _ & Hid & _).
  destruct (falsy_identity_falls_through name_environ (down "connection refused")
              None None []) as (_ & _ & _ & Hname).
  split.
  - apply (Hid "22656" 22656); [reflexivity | discriminate | reflexivity].
  - apply (Hname "jon"); [reflexivity | reflexivity | discriminate].
Defined.

(** ** C3: upcoming contests *)

Lemma lookup_field_app_l k kw extra v :
  lookup_field k kw = Some v -> lookup_field k (kw ++ extra) = Some v.
Proof.
  induction kw as [|[k' v'] kw IH]; simpl; [discriminate|].
  destruct (String.eqb k' k); auto.
Qed.

Lemma lookup_field_app_r k kw extra :
  lookup_field k kw = None -> lookup_field k (kw ++ extra) = lookup_field k extra.
Proof.
  induction kw as [|[k' v'] kw IH]; simpl; [reflexivity|].
  destruct (String.eqb k' k); [discriminate | auto].
Qed.

Lemma eq_str_true x s : eq_str x s = true -> x = JStr s.
Proof.
  destruct x; simpl; try discriminate. intros H. apply String.eqb_eq in H. by subst.
Qed.

Lemma is_upcoming_run kw tr :
  Codeforces.is_upcoming (JDict kw) tr = (Return (upcoming (JDict kw)), tr).
Proof. reflexivity. Qed.

Lemma Contest_of_run c tr :
  contest_object c = true -> upcoming c = true ->
  exists r, Codeforces.Contest_of c tr = (Return r, tr) /\ shaped_from c r.
Proof.
  unfold contest_object, upcoming. destruct c as [| | | | |kw]; try discriminate.
  destruct (lookup_field "id" kw) as [[| |id| | |]|] eqn:Hid; try discriminate.
  destruct (lookup_field "name" kw) as [[| | |name| |]|] eqn:Hname; try discriminate.
  destruct (lookup_field "phase" kw) as [[| | |phase| |]|] eqn:Hphase; try discriminate.
  destruct (lookup_field "link" kw) eqn:Hlink; try discriminate.
  intros _ Hup. apply eq_str_true in Hup. injection Hup as ->.
  eexists. split.
  - unfold Codeforces.Contest_of.
    erewrite run_bind by reflexivity.
    erewrite run_bind by (unfold py_getitem; rewrite Hid; reflexivity).
    erewrite run_bind by (unfold kwargs_extend; rewrite Hlink; reflexivity).
    erewrite run_bind
      by (unfold required; rewrite (lookup_field_app_l _ _ _ _ Hid); reflexivity).
    erewrite run_bind
      by (unfold required; rewrite (lookup_field_app_l _ _ _ _ Hname); reflexivity).
    erewrite run_bind
      by (unfold required; rewrite (lookup_field_app_l _ _ _ _ Hphase); reflexivity).
    erewrite run_bind
      by (unfold required; rewrite (lookup_field_app_r _ _ _ Hlink); reflexivity).
    reflexivity.
  - exists kw. simpl. repeat split; assumption.
Qed.

Lemma shape_contests cs tr :
  Forall (fun c => listed_contest c = true) cs ->
  exists built,
    comprehension Codeforces.is_upcoming Codeforces.Contest_of cs tr = (Return built, tr) /\
    Forall2 shaped_from (List.filter upcoming cs) built.
Proof.
  induction 1 as [|c cs Hc _ [built [Hrun Hall]]]; simpl.
  - exists []. split; [reflexivity | constructor].
  - unfold listed_contest in Hc. destruct c as [| | | | |kw]; try discriminate.
    erewrite run_bind by apply is_upcoming_run.
    destruct (upcoming (JDict kw)) eqn:Hup; simpl in Hc.
    + destruct (Contest_of_run (JDict kw) tr Hc Hup) as [r [Hr Hshaped]].
      exists (r :: built). split.
      * erewrite run_bind by exact Hr. erewrite run_bind by exact Hrun. reflexivity.
      * constructor; assumption.
    + exists built. split; assumption.
Qed.

Lemma is_upcoming_return c tr b tr' :
  Codeforces.is_upcoming c tr = (Return b, tr') -> b = upcoming c.
Proof. destruct c; try discriminate. by intros [= <- _]. Qed.

Lemma lookup_field_app_inv k kw k' v' v :
  lookup_field k (kw ++ [(k', v')]) = Some v -> String.eqb k' k = false ->
  lookup_field k kw = Some v.
Proof.
  intros H Hne. destruct (lookup_field k kw) as [w|] eqn:E.
  - by rewrite (lookup_field_app_l _ _ _ _ E) in H.
  - rewrite (lookup_field_app_r _ _ _ E) in H. simpl in H. rewrite Hne in H. discriminate.
Qed.

Lemma as_int_return x tr n tr' : as_int x tr = (Return n, tr') -> x = JInt n.
Proof. destruct x; try discriminate. by intros [= <- _]. Qed.

Lemma as_str_return x tr s tr' : as_str x tr = (Return s, tr') -> x = JStr s.
Proof. destruct x; try discriminate. by intros [= <- _]. Qed.

Lemma required_return {A} (validate : json -> M A) kw name tr a tr' :
  required validate kw name tr = (Return a, tr') ->
  exists x, lookup_field name kw = Some x /\ validate x tr = (Return a, tr').
Proof. unfold required. destruct (lookup_field name kw); [eauto | discriminate]. Qed.

Lemma Contest_of_return c tr r tr' :
  upcoming c = true -> Codeforces.Contest_of c tr = (Return r, tr') -> shaped_from c r.
Proof.
  intros Hup H. unfold Codeforces.Contest_of in H.
  destruct c as [| | | | |kw]; try discriminate.
  erewrite run_bind in H by reflexivity.
  bind_inv H. rename v into cid, Hstep into Hcid.
  bind_inv H. rename v into kw', Hstep into Hkw'.
  bind_inv H. rename v into id, Hstep into Hid.
  bind_inv H. rename v into name, Hstep into Hname.
  bind_inv H. rename v into phase, Hstep into Hphase.
  bind_inv H. rename v into link, Hstep into Hlink.
  injection H as <- _.
  unfold py_getitem in Hcid.
  destruct (lookup_field "id" kw) as [cid'|] eqn:Eid; [|discriminate].
  injection Hcid as -> _.
  unfold kwargs_extend in Hkw'.
  destruct (lookup_field "link" kw) eqn:Elink; [discriminate|].
  injection Hkw' as <- _.
  apply required_return in Hid as (x & Hx & Hid). apply as_int_return in Hid as ->.
  rewrite (lookup_field_app_l _ _ _ _ Eid) in Hx. injection Hx as ->.
  apply required_return in Hname as (x & Hx & Hname). apply as_str_return in Hname as ->.
  apply lookup_field_app_inv in Hx; [|reflexivity].
  apply required_return in Hlink as (x & Hx' & Hlink). apply as_str_return in Hlink as ->.
  rewrite (lookup_field_app_r _ _ _ Elink) in Hx'. injection Hx' as <-.
  apply eq_str_true in Hup.
  destruct (lookup_field "phase" kw) as [p|] eqn:Ephase; simpl in Hup; [|discriminate].
  subst p.
  apply required_return in Hphase as (x & Hx' & Hphase).
  rewrite (lookup_field_app_l _ _ _ _ Ephase) in Hx'. injection Hx' as <-.
  injection Hphase as <- _.
  exists kw. simpl. repeat split; assumption.
Qed.

Lemma shape_contests_return cs tr built tr' :
  comprehension Codeforces.is_upcoming Codeforces.Contest_of cs tr = (Return built, tr') ->
  Forall2 shaped_from (List.filter upcoming cs) built.
Proof.
  revert tr built tr'. induction cs as [|c cs IH]; simpl; intros tr built tr' H.
  - injection H as <- _. constructor.
  - bind_inv H. apply is_upcoming_return in Hstep as ->.
    destruct (upcoming c) eqn:Hup.
    + bind_inv H. bind_inv H. injection H as <- _.
      constructor; [by eapply Contest_of_return | by eapply IH].
    + by eapply IH.
Qed.

(** C3.  Let the upstream answer [GET /contests] with a contest list.  The
    endpoint returns a list when the entries are contest objects, and every
    list it returns holds exactly the records of the first 10 contests whose
    phase is [BEFORE], in upstream order: the filter runs over the whole
    list before the cap.  Each record carries its contest's id and name,
    and its link is [https://codeforces.com/contest/] followed by the id. *)
Theorem contests_filtered_then_capped (net : network) (first : response)
    (kw : list (string * json)) (cs : list json) :
  net (get Codeforces.contests_url) = Reply first ->
  is_success first = true ->
  json_body first = Some (JDict kw) ->
  lookup_field "result" kw = Some (JList cs) ->
  (Forall (fun c => listed_contest c = true) cs ->
   exists out,
     Codeforces.get_contests net [] = (Return out, [get Codeforces.contests_url])) /\
  (forall out tr,
     Codeforces.get_contests net [] = (Return out, tr) ->
     Forall2 shaped_from (take 10 (List.filter upcoming cs)) out /\
     (length out <= 10)%nat).
Proof.
  intros Hnet Hok Hbody Hresult. split.
  - intros Hcs.
    destruct (shape_contests cs [get Codeforces.contests_url] Hcs) as [built [Hrun _]].
    exists (take 10 built).
    unfold Codeforces.get_contests. apply run_try_return.
    erewrite run_bind by (by apply client_get_reply).
    erewrite run_bind by (by apply raise_for_status_success).
    erewrite run_bind by (by apply resp_json_some).
    erewrite run_bind by (unfold py_getitem; rewrite Hresult; reflexivity).
    erewrite run_bind by reflexivity.
    erewrite run_bind by exact Hrun.
    reflexivity.
  - intros out tr H. unfold Codeforces.get_contests in H.
    apply try_return_inv in H; [|intros [] h ? ? ? [= <-]; discriminate].
    erewrite run_bind in H by (by apply client_get_reply).
    erewrite run_bind in H by (by apply raise_for_status_success).
    erewrite run_bind in H by (by apply resp_json_some).
    erewrite run_bind in H by (unfold py_getitem; rewrite Hresult; reflexivity).
    erewrite run_bind in H by reflexivity.
    bind_inv H. injection H as <- _.
    apply shape_contests_return in Hstep. split.
    + by apply Forall2_take.
    + rewrite length_take. lia.
Qed.

(** C3 at [contests_net]: of four contests the two upcoming ones come back,
    with their links. *)
Lemma contests_filtered_then_capped_witness :
  exists out,
    Codeforces.get_contests contests_net [] = (Return out, [get Codeforces.contests_url]) /\
    map Codeforces.link out =
      ["https://codeforces.com/contest/2101"; "https://codeforces.com/contest/2099"].
Proof.
  destruct (contests_filtered_then_capped contests_net
              {| status_code := 200; text := ""; error_message := "";
                 json_body := Some (JDict [("status", JStr "OK");
                                           ("result", JList four_contests)]) |}
              [("status", JStr "OK"); ("result", JList four_contests)]
              four_contests eq_refl eq_refl eq_refl eq_refl)
    as (Hreturns & Hexact).
  destruct Hreturns as (out & Hrun); [repeat constructor|].
  exists out. split; [exact Hrun|].
  destruct (Hexact out _ Hrun) as (Hall & _).
  inversion Hall as [|c1 r1 cs1 out1 H1 Hall1]; subst.
  inversion Hall1 as [|c2 r2 cs2 out2 H2 Hall2]; subst.
  inversion Hall2; subst.
  destruct H1 as (kw1 & Hc1 & Hid1 & _ & _ & _ & Hlink1).
  destruct H2 as (kw2 & Hc2 & Hid2 & _ & _ & _ & Hlink2).
  injection Hc1 as <-. injection Hc2 as <-.
  injection Hid1 as Hid1. injection Hid2 as Hid2.
  simpl. by rewrite Hlink1, Hlink2, <- Hid1, <- Hid2.
Defined.

(** ** C4: failure isolation in the pipelines fan-out *)

Lemma serve_return {A} (m : M A) a tr :
  m [] = (Return a, tr) -> serve m = (Ok200 a, tr).
Proof. intros H. unfold serve. by rewrite H. Qed.

Lemma serve_http_exception {A} (m : M A) status detail tr :
  m [] = (Raise (HTTPException status detail), tr) -> serve m = (Error status detail, tr).
Proof. intros H. unfold serve. by rewrite H. Qed.

Lemma for_each_run {A B} (f : A -> M B) xs ys tr :
  (forall x, silent (f x)) ->
  Forall2 (fun x y => f x [] = (Return y, [])) xs ys ->
  for_each f xs tr = (Return ys, tr).
Proof.
  intros Hf H. induction H as [|x y xs ys Hxy _ IH]; simpl; [reflexivity|].
  erewrite run_bind by (eapply silent_return; [apply Hf | exact Hxy]).
  erewrite run_bind by exact IH. reflexivity.
Qed.

Section PipelinesFanout.
Context (environ : gmap string string) (net : network).
Context (headers : list (string * string)).

Lemma project_contribution p records tr :
  contributes environ net headers p records ->
  exists req,
    GitLab.get_pipelines_for_project environ net p headers tr = (Return records, tr ++ [req]).
Proof.
  intros H. unfold GitLab.get_pipelines_for_project.
  destruct H as [kw id name Hid Hname Hfail | kw id name r pls records Hid Hname Hnet Hok Hbody Hall];
    exists (GitLab.pipelines_request environ id headers).
  - erewrite run_bind by (unfold py_getitem; rewrite Hid; reflexivity).
    erewrite run_bind by (unfold py_getitem; rewrite Hname; reflexivity).
    unfold call_fails in Hfail.
    destruct (net (GitLab.pipelines_request environ id headers)) as [msg|r] eqn:Hnet.
    + erewrite run_try_caught;
        [reflexivity
        | apply run_bind_raise; by apply client_get_unreachable
        | reflexivity].
    + apply negb_true_iff in Hfail.
      erewrite run_try_caught;
        [reflexivity
        | erewrite run_bind by (by apply client_get_reply);
          apply run_bind_raise; by apply raise_for_status_error
        | reflexivity].
  - erewrite run_bind by (unfold py_getitem; rewrite Hid; reflexivity).
    erewrite run_bind by (unfold py_getitem; rewrite Hname; reflexivity).
    apply run_try_return.
    erewrite run_bind by (by apply client_get_reply).
    erewrite run_bind by (by apply raise_for_status_success).
    erewrite run_bind by (by apply resp_json_some).
    erewrite run_bind by reflexivity.
    apply for_each_run; [apply silent_Pipeline_of | exact Hall].
Qed.

Lemma gather_contributions projects outs tr :
  Forall2 (contributes environ net headers) projects outs ->
  exists tr',
    gather (map (fun p => GitLab.get_pipelines_for_project environ net p headers) projects) tr
    = (Return outs, tr').
Proof.
  intros H. revert tr. induction H as [|p out ps outs Hp _ IH]; intros tr.
  - by exists tr.
  - destruct (project_contribution p out tr Hp) as [req Hrun].
    destruct (IH (tr ++ [req])) as [tr' Hrest].
    exists tr'. cbn [map]. exact (run_gather_cons _ _ _ _ _ _ _ Hrun Hrest).
Qed.

End PipelinesFanout.

(** C4.  With the token configured: when the first-stage call for the
    project list fails, at transport level or with an error status, the
    whole request fails with an error; when it delivers the projects, the
    request succeeds with the pipelines of the projects concatenated in
    project order, where a project whose follow-up call fails contributes
    nothing. *)
Theorem pipelines_failure_isolation (environ : gmap string string) (net : network) :
  nonempty (GitLab.TOKEN environ) = true ->
  let headers := [("PRIVATE-TOKEN", GitLab.TOKEN environ)] in
  let first := GitLab.recent_projects_request environ headers in
  (forall msg,
     net first = Unreachable msg ->
     serve (GitLab.fetch_pipelines environ net) =
       (Error 503 "Could not connect to the GitLab API.", [first])) /\
  (forall r,
     net first = Reply r -> is_success r = false ->
     serve (GitLab.fetch_pipelines environ net) =
       (Error (status_code r)
          ("Failed to fetch initial projects for pipelines: " +:+ text r), [first])) /\
  (forall r projects outs,
     net first = Reply r -> is_success r = true ->
     json_body r = Some (JList projects) ->
     Forall2 (contributes environ net headers) projects outs ->
     exists tr,
       serve (GitLab.fetch_pipelines environ net) = (Ok200 (concat outs), tr)).
Proof.
  intros Htoken headers first.
  assert (GitLab.get_gitlab_headers environ [] = (Return headers, [])) as Hheaders.
  { unfold GitLab.get_gitlab_headers. by rewrite Htoken. }
  split; [|split].
  - intros msg Hnet. apply serve_http_exception. unfold GitLab.fetch_pipelines.
    erewrite run_bind by exact Hheaders.
    erewrite run_try_caught;
      [reflexivity
      | apply run_bind_raise; by apply client_get_unreachable
      | reflexivity].
  - intros r Hnet Hfail. apply serve_http_exception. unfold GitLab.fetch_pipelines.
    erewrite run_bind by exact Hheaders.
    erewrite run_try_caught;
      [reflexivity
      | erewrite run_bind by (by apply client_get_reply);
        apply run_bind_raise; by apply raise_for_status_error
      | reflexivity].
  - intros r projects outs Hnet Hok Hbody Hall.
    destruct (gather_contributions environ net headers projects outs ([] ++ [first]) Hall)
      as [tr Hgather].
    exists tr. apply serve_return. unfold GitLab.fetch_pipelines.
    erewrite run_bind by exact Hheaders.
    apply run_try_return.
    erewrite run_bind by (by apply client_get_reply).
    erewrite run_bind by (by apply raise_for_status_success).
    erewrite run_bind by (by apply resp_json_some).
    erewrite run_bind by reflexivity.
    erewrite run_bind by exact Hgather.
    reflexivity.
Qed.

(** C4 at [gitlab_net]: the first project's pipelines call answers 500, the
    request succeeds with the second project's pipeline alone. *)
Lemma pipelines_failure_isolation_witness :
  exists tr,
    serve (GitLab.fetch_pipelines gitlab_environ gitlab_net) =
      (Ok200 [ {| GitLab.project := "beta"; GitLab.pipeline_id := 55;
                  GitLab.status := "success";
                  GitLab.pipeline_url := "https://gitlab.com/me/beta/-/pipelines/55" |} ],
       tr).
Proof.
  destruct (pipelines_failure_isolation gitlab_environ gitlab_net) as (_ & _ & H).
  - reflexivity.
  - apply (H {| status_code := 200; text := ""; error_message := "";
               json_body := Some (JList [alpha_project; beta_project]) |}
             [alpha_project; beta_project]
             [ []; [ {| GitLab.project := "beta"; GitLab.pipeline_id := 55;
                        GitLab.status := "success";
                        GitLab.pipeline_url :=
                          "https://gitlab.com/me/beta/-/pipelines/55" |} ] ]).
    + reflexivity.
    + reflexivity.
    + reflexivity.
    + constructor; [|constructor; [|constructor]].
      * eapply contributes_nothing; reflexivity.
      * eapply contributes_pipelines; try reflexivity.
        constructor; [reflexivity | constructor].
Defined.

(** ** C9: discovery and routing *)



(** ** C8: the scraped problem of the day *)

Lemma find_anchor_some below a :
  GFG.find_anchor below = Some a ->
  exists name attrs children href,
    a = GFG.Tag name attrs children /\ GFG.lookup_attr "href" attrs = Some href.
Proof.
  unfold GFG.find_anchor. intros H. apply find_some in H as [_ H].
  destruct a as [name attrs children|s]; [|discriminate].
  apply andb_true_iff in H as [_ H]. apply bool_decide_eq_true in H as [href Hhref].
  by exists name, attrs, children, href.
Qed.

(** What [strip] leaves neither begins nor ends with a character it
    removes. *)
Lemma starts_with_empty w : starts_with w "" = true -> w = "".
Proof. by destruct w. Qed.

Lemma starts_with_prefix w s t :
  starts_with w s = true -> starts_with w (s +:+ t) = true.
Proof.
  revert s. induction w as [|c w IH]; intros s; [reflexivity|].
  destruct s as [|c' s]; simpl; [discriminate|].
  intros H. apply andb_true_iff in H as [-> H]. simpl. by apply IH.
Qed.

Section StripLemmas.
Context (spaces : list string) (Hspaces : forall w, In w spaces -> w <> "").

Lemma space_width_none s w :
  space_width spaces s = 0%nat -> In w spaces -> starts_with w s = false.
Proof.
  unfold space_width. intros H Hw.
  destruct (List.find _ spaces) as [w0|] eqn:E.
  - apply find_some in E as [Hin _]. destruct w0; [|discriminate].
    by destruct (Hspaces "" Hin).
  - exact (find_none _ _ E w Hw).
Qed.

Lemma lstrip_from_head skip s :
  space_width spaces (lstrip_from spaces skip s) = 0%nat.
Proof.
  revert skip. induction s as [|c s IH]; intros skip.
  - simpl. unfold space_width.
    destruct (List.find _ spaces) as [w|] eqn:E; [|reflexivity].
    apply find_some in E as [_ E]. by apply starts_with_empty in E as ->.
  - destruct skip as [|k]; simpl; [|apply IH].
    destruct (space_width spaces (String c s)) as [|k] eqn:E; [exact E | apply IH].
Qed.

Lemma rstrip_of_suffix s w :
  In w spaces -> ends_with w (rstrip_of spaces s) = false.
Proof.
  intros Hw.
  assert (w <> "") as Hne by (by apply Hspaces).
  induction s as [|c s IH]; cbn [rstrip_of ends_with].
  - rewrite orb_false_r. by apply String.eqb_neq.
  - destruct (existsb _ spaces) eqn:E; cbn [ends_with].
    + rewrite orb_false_r. by apply String.eqb_neq.
    + rewrite IH, orb_false_r. apply String.eqb_neq. intros ->.
      apply not_true_iff_false in E. apply E, existsb_exists.
      exists (String c (rstrip_of spaces s)). split; [exact Hw | apply String.eqb_refl].
Qed.

Lemma rstrip_of_prefix s : exists t, s = rstrip_of spaces s +:+ t.
Proof.
  induction s as [|c s [t IH]]; cbn [rstrip_of]; [by exists ""|].
  destruct (existsb _ spaces); [by eexists|].
  exists t. change (String c s = String c (rstrip_of spaces s +:+ t)). by rewrite <- IH.
Qed.

Lemma strip_of_outer s w :
  In w spaces ->
  starts_with w (strip_of spaces s) = false /\ ends_with w (strip_of spaces s) = false.
Proof.
  intros Hw. unfold strip_of, lstrip_of. split; [|by apply rstrip_of_suffix].
  pose proof (space_width_none _ w (lstrip_from_head 0 s) Hw) as Hhead.
  destruct (rstrip_of_prefix (lstrip_from spaces 0 s)) as [t Ht].
  destruct (starts_with w (rstrip_of spaces (lstrip_from spaces 0 s))) eqn:E;
    [|reflexivity].
  apply (starts_with_prefix _ _ t) in E. rewrite <- Ht in E. congruence.
Qed.

End StripLemmas.

Lemma whitespace_nonempty w : In w whitespace -> w <> "".
Proof.
  intros Hw ->. revert Hw. unfold whitespace. simpl.
  intros H. repeat (destruct H as [H|H]; [discriminate|]). exact H.
Qed.

Lemma strip_no_outer_whitespace s : no_outer_whitespace (strip s).
Proof. intros w Hw. by apply strip_of_outer; [apply whitespace_nonempty|]. Qed.

Lemma no_outer_whitespace_decide s :
  forallb (fun w => negb (starts_with w s) && negb (ends_with w s)) whitespace = true ->
  no_outer_whitespace s.
Proof.
  intros H w Hw. rewrite forallb_forall in H. specialize (H w Hw).
  apply andb_true_iff in H as [H1 H2].
  by apply negb_true_iff in H1, H2.
Qed.

(** The two ways [get_gfg_potd] ends: in the generic error, or in an answer
    that is the placeholder or comes from the first anchor of the
    container. *)
Lemma potd_raises net BeautifulSoup tr e tr' :
  GFG.get_gfg_potd net BeautifulSoup tr = (Raise e, tr') ->
  e = HTTPException 500 "Failed to fetch or parse the GFG POTD page.".
Proof.
  unfold GFG.get_gfg_potd, try_except.
  match goal with
  | |- context [match ?body with (_, _) => _ end] =>
      destruct body as [[answer|e'] tr1]; [discriminate|]
  end.
  by intros [= <- _].
Qed.

Lemma potd_returns net BeautifulSoup answer tr :
  GFG.get_gfg_potd net BeautifulSoup [] = (Return answer, tr) ->
  answer = GFG.fallback \/
  exists r soup div name attrs children href,
    net GFG.potd_request = Reply r /\
    BeautifulSoup (text r) = Some soup /\
    container soup = Some div /\
    GFG.find_anchor (GFG.descendants div) = Some (GFG.Tag name attrs children) /\
    GFG.lookup_attr "href" attrs = Some href /\
    answer = {| GFG.title := Some (strip (GFG.get_text (GFG.Tag name attrs children)));
                GFG.link := Some href |}.
Proof.
  intros H. unfold GFG.get_gfg_potd in H.
  apply try_return_inv in H; [|intros e h ? ? ? [= <-]; discriminate].
  apply bind_return_inv in H as (r & t1 & Hget & H).
  apply bind_return_inv in H as ([] & t2 & _ & H).
  apply bind_return_inv in H as (soup & t3 & Hparse & H). cbv zeta in H.
  unfold client_get in Hget.
  destruct (net GFG.potd_request) as [msg|r'] eqn:Hnet; [discriminate|].
  injection Hget as -> _.
  unfold GFG.parse_page in Hparse.
  destruct (BeautifulSoup (text r)) as [soup'|] eqn:Hsoup; [|discriminate].
  injection Hparse as -> _.
  destruct (GFG.find_div _ _) as [div|] eqn:Hdiv;
    [destruct (GFG.find_anchor _) as [a|] eqn:Hanchor|].
  - right.
    destruct (find_anchor_some _ _ Hanchor) as (name & attrs & children & href & -> & Hhref).
    apply bind_return_inv in H as (link & t4 & Hlink & H). injection H as <- _.
    unfold GFG.attr_href in Hlink. rewrite Hhref in Hlink. injection Hlink as <- _.
    by exists r, soup, div, name, attrs, children, href.
  - left. by injection H as <- _.
  - left. by injection H as <- _.
Qed.

(** C8, amended.  A failed call, at transport level or with an error status,
    and a page the parser rejects end in the one generic 500.  A page that
    lacks the container, or whose container lacks an anchor, is not an
    error: the endpoint answers 200 with the placeholder title and the
    page's own URL as link.  A page that has both yields the anchor's text
    without its outer whitespace and its [href].  There is no other answer:
    an error is the generic 500, and in a 200 title and link come from the
    anchor together or are the placeholders together. *)
Theorem potd_outcomes (net : network)
    (BeautifulSoup : string -> option (list GFG.node)) :
  let scrape_failed := Error 500 "Failed to fetch or parse the GFG POTD page." in
  let potd := serve (GFG.get_gfg_potd net BeautifulSoup) in
  (forall msg,
     net GFG.potd_request = Unreachable msg ->
     potd = (scrape_failed, [GFG.potd_request])) /\
  (forall r,
     net GFG.potd_request = Reply r -> is_success r = false ->
     potd = (scrape_failed, [GFG.potd_request])) /\
  (forall r,
     net GFG.potd_request = Reply r -> is_success r = true ->
     BeautifulSoup (text r) = None ->
     potd = (scrape_failed, [GFG.potd_request])) /\
  (forall r soup,
     net GFG.potd_request = Reply r -> is_success r = true ->
     BeautifulSoup (text r) = Some soup ->
     container soup = None ->
     potd = (Ok200 GFG.fallback, [GFG.potd_request])) /\
  (forall r soup div,
     net GFG.potd_request = Reply r -> is_success r = true ->
     BeautifulSoup (text r) = Some soup ->
     container soup = Some div -> GFG.find_anchor (GFG.descendants div) = None ->
     potd = (Ok200 GFG.fallback, [GFG.potd_request])) /\
  (forall r soup div a,
     net GFG.potd_request = Reply r -> is_success r = true ->
     BeautifulSoup (text r) = Some soup ->
     container soup = Some div -> GFG.find_anchor (GFG.descendants div) = Some a ->
     exists name attrs children href,
       a = GFG.Tag name attrs children /\
       GFG.lookup_attr "href" attrs = Some href /\
       no_outer_whitespace (strip (GFG.get_text a)) /\
       potd = (Ok200 {| GFG.title := Some (strip (GFG.get_text a));
                        GFG.link := Some href |}, [GFG.potd_request])) /\
  (forall status detail tr,
     potd = (Error status detail, tr) -> Error status detail = scrape_failed) /\
  (forall answer tr,
     potd = (Ok200 answer, tr) ->
     answer = GFG.fallback \/
     exists r soup div name attrs children href,
       net GFG.potd_request = Reply r /\
       BeautifulSoup (text r) = Some soup /\
       container soup = Some div /\
       GFG.find_anchor (GFG.descendants div) = Some (GFG.Tag name attrs children) /\
       GFG.lookup_attr "href" attrs = Some href /\
       answer = {| GFG.title := Some (strip (GFG.get_text (GFG.Tag name attrs children)));
                   GFG.link := Some href |}).
Proof.
  intros scrape_failed potd. subst scrape_failed potd.
  split; [|split; [|split; [|split; [|split; [|split; [|split]]]]]].
  - intros msg Hnet. apply serve_http_exception. unfold GFG.get_gfg_potd.
    erewrite run_try_caught;
      [reflexivity
      | apply run_bind_raise; by apply client_get_unreachable
      | reflexivity].
  - intros r Hnet Hfail. apply serve_http_exception. unfold GFG.get_gfg_potd.
    erewrite run_try_caught;
      [reflexivity
      | erewrite run_bind by (by apply client_get_reply);
        apply run_bind_raise; by apply raise_for_status_error
      | reflexivity].
  - intros r Hnet Hok Hparse. apply serve_http_exception. unfold GFG.get_gfg_potd.
    erewrite run_try_caught;
      [reflexivity
      | erewrite run_bind by (by apply client_get_reply);
        erewrite run_bind by (by apply raise_for_status_success);
        apply run_bind_raise; unfold GFG.parse_page; rewrite Hparse; reflexivity
      | reflexivity].
  - intros r soup Hnet Hok Hparse Hdiv. apply serve_return. unfold GFG.get_gfg_potd.
    apply run_try_return.
    erewrite run_bind by (by apply client_get_reply).
    erewrite run_bind by (by apply raise_for_status_success).
    erewrite run_bind by (unfold GFG.parse_page; rewrite Hparse; reflexivity).
    unfold container in Hdiv. cbv zeta. by rewrite Hdiv.
  - intros r soup div Hnet Hok Hparse Hdiv Hanchor. apply serve_return.
    unfold GFG.get_gfg_potd. apply run_try_return.
    erewrite run_bind by (by apply client_get_reply).
    erewrite run_bind by (by apply raise_for_status_success).
    erewrite run_bind by (unfold GFG.parse_page; rewrite Hparse; reflexivity).
    unfold container in Hdiv. cbv zeta. by rewrite Hdiv, Hanchor.
  - intros r soup div a Hnet Hok Hparse Hdiv Hanchor.
    destruct (find_anchor_some _ _ Hanchor) as (name & attrs & children & href & -> & Hhref).
    exists name, attrs, children, href. split; [reflexivity|]. split; [exact Hhref|].
    split; [apply strip_no_outer_whitespace|].
    apply serve_return. unfold GFG.get_gfg_potd.
    apply run_try_return.
    erewrite run_bind by (by apply client_get_reply).
    erewrite run_bind by (by apply raise_for_status_success).
    erewrite run_bind by (unfold GFG.parse_page; rewrite Hparse; reflexivity).
    unfold container in Hdiv. cbv zeta. rewrite Hdiv, Hanchor.
    erewrite run_bind by (unfold GFG.attr_href; rewrite Hhref; reflexivity).
    reflexivity.
  - intros status detail tr H. unfold serve in H.
    destruct (GFG.get_gfg_potd net BeautifulSoup []) as [[answer|e] tr'] eqn:E;
      [discriminate|].
    apply potd_raises in E as ->. simpl in H. by injection H as <- <- _.
  - intros answer tr H. unfold serve in H.
    destruct (GFG.get_gfg_potd net BeautifulSoup []) as [[answer'|e] tr'] eqn:E;
      [|destruct e; discriminate].
    simpl in H. injection H as -> _.
    apply potd_returns in E. exact E.
Qed.

(** The amended C8 on [potd_page]: the anchor's text, stripped, and its
    link. *)
Lemma potd_outcomes_witness :
  serve (GFG.get_gfg_potd (page_net "<html>...</html>") (fun _ => Some potd_page)) =
    (Ok200 {| GFG.title := Some "Two Sum";
              GFG.link := Some "https://www.geeksforgeeks.org/problems/two-sum/1" |},
     [GFG.potd_request]).
Proof.
  destruct (potd_outcomes (page_net "<html>...</html>") (fun _ => Some potd_page))
    as (_ & _ & _ & _ & _ & H & _).
  destruct (H {| status_code := 200; text := "<html>...</html>"; json_body := None;
                 error_message := "" |}
              potd_page
              (GFG.Tag "div" [("class", "POTD_header-main__x1 card")]
                 [GFG.Tag "span" [] [GFG.Text "Problem of the day"];
                  GFG.Tag "a"
                    [("href", "https://www.geeksforgeeks.org/problems/two-sum/1")]
                    [GFG.Text "  Two Sum "]])
              (GFG.Tag "a" [("href", "https://www.geeksforgeeks.org/problems/two-sum/1")]
                 [GFG.Text "  Two Sum "])
              eq_refl eq_refl eq_refl eq_refl eq_refl)
    as (name & attrs & children & href & Ha & Hhref & _ & Hserve).
  injection Ha as <- <- <-. injection Hhref as <-. exact Hserve.
Defined.

(** C8 as stated fails: on [bare_page], which has no container, the
    endpoint answers 200 with the placeholder instead of the error. *)
Lemma potd_counterexample :
  ~ structural_failures_collapse (page_net "<html>...</html>") (fun _ => Some bare_page).
Proof.
  intros H.
  destruct (H {| status_code := 200; text := "<html>...</html>"; json_body := None;
                 error_message := "" |} bare_page eq_refl eq_refl eq_refl
              (or_introl eq_refl))
    as [tr Hserve].
  vm_compute in Hserve. discriminate.
Qed.

(** ** C7: caps and filters of the list endpoints *)

Lemma length_chars s : length (chars s) = String.length s.
Proof. induction s; simpl; auto. Qed.

Lemma length_str_take n s : (String.length (str_take n s) <= n)%nat.
Proof.
  revert s. induction n as [|n IH]; intros s; simpl; [lia|].
  destruct s; simpl; [lia|]. specialize (IH s). lia.
Qed.

(** Iterating over [x[:n]] yields at most [n] values. *)
Lemma slice_iter_length x n s l tr tr1 tr2 :
  py_slice x n tr = (Return s, tr1) -> py_iter s tr1 = (Return l, tr2) ->
  (length l <= n)%nat.
Proof.
  destruct x; simpl; try discriminate; intros [= <- <-]; simpl; intros [= <- _].
  - rewrite length_map, length_chars. apply length_str_take.
  - rewrite length_take. lia.
Qed.

Lemma story_type_is_story d s t1 t2 t3 :
  HackerNews.is_story d t1 = (Return true, t2) ->
  HackerNews.Story_of d t2 = (Return s, t3) ->
  HackerNews.type s = "story".
Proof.
  unfold HackerNews.is_story. intros Hc Hs.
  destruct (truthy d); [|discriminate].
  destruct d as [| | | | |kw]; try discriminate.
  unfold py_get, mbind, M_bind, bind, ret in Hc.
  injection Hc as Hc _. apply eq_str_true in Hc.
  unfold HackerNews.Story_of in Hs.
  do 9 bind_inv Hs. injection Hs as <- _. simpl.
  injection Hstep as <- _.
  unfold defaulted in Hstep6. destruct (lookup_field "type" kw); simpl in Hc; subst.
  - by injection Hstep6 as <- _.
  - discriminate.
Qed.

Lemma hit_has_title hit s t1 t2 t3 :
  Hn.has_title hit t1 = (Return true, t2) ->
  Hn.Story_of hit t2 = (Return s, t3) ->
  Hn.title s <> "".
Proof.
  unfold Hn.has_title. intros Hc Hs.
  destruct hit as [| | | | |kw]; try discriminate.
  unfold py_get, mbind, M_bind, bind, ret in Hc. injection Hc as Hc _.
  unfold Hn.Story_of in Hs.
  do 10 bind_inv Hs. injection Hs as <- _. simpl.
  unfold py_get, ret in Hstep0. injection Hstep0 as <- _.
  destruct (lookup_field "title" kw) as [t|]; simpl in *; [|discriminate].
  destruct t; try discriminate. injection Hstep5 as <- _.
  apply negb_true_iff, String.eqb_neq in Hc. exact Hc.
Qed.

Section Caps.
Context (environ : gmap string string) (net : network).

Lemma stories_capped story_type stories tr :
  HackerNews.get_stories_by_type net story_type [] = (Return stories, tr) ->
  (length stories <= 10)%nat /\
  Forall (fun s => HackerNews.type s = "story") stories.
Proof.
  unfold HackerNews.get_stories_by_type. intros H.
  apply try_return_inv in H;
    [|intros [] h ? ? ? [= <-]; discriminate].
  do 4 bind_inv H. bind_inv H. bind_inv H.
  pose proof (slice_iter_length _ _ _ _ _ _ _ Hstep2 Hstep3) as Hlen.
  apply (comprehension_return_inv _ _ (fun s => HackerNews.type s = "story")) in H
    as [Hall Hle].
  - split; [|exact Hall].
    assert (length v4 = length v3) as Hgather.
    { apply gather_length in Hstep4. by rewrite length_map in Hstep4. }
    lia.
  - intros d t1 t2 s t3. apply story_type_is_story.
Qed.

Lemma questions_capped user_id username questions tr :
  StackOverflow.fetch_questions environ net user_id username [] = (Return questions, tr) ->
  (length questions <= 10)%nat.
Proof.
  unfold StackOverflow.fetch_questions. intros H. bind_inv H.
  apply try_return_inv in H;
    [|intros [] h ? ? ? [= <-]; discriminate].
  do 6 bind_inv H.
  pose proof (slice_iter_length _ _ _ _ _ _ _ Hstep4 Hstep5) as Hlen.
  apply for_each_length in H. lia.
Qed.

Lemma answers_capped user_id username answers tr :
  StackOverflow.fetch_answers environ net user_id username [] = (Return answers, tr) ->
  (length answers <= 10)%nat.
Proof.
  unfold StackOverflow.fetch_answers. intros H. bind_inv H.
  apply try_return_inv in H;
    [|intros [] h ? ? ? [= <-]; discriminate].
  do 6 bind_inv H.
  pose proof (slice_iter_length _ _ _ _ _ _ _ Hstep4 Hstep5) as Hlen.
  apply for_each_length in H. lia.
Qed.

Lemma featured_capped featured tr :
  StackOverflow.fetch_featured_questions net [] = (Return featured, tr) ->
  (length featured <= 15)%nat.
Proof.
  unfold StackOverflow.fetch_featured_questions. intros H.
  apply try_return_inv in H;
    [|intros [] h ? ? ? [= <-]; discriminate].
  do 6 bind_inv H.
  pose proof (slice_iter_length _ _ _ _ _ _ _ Hstep3 Hstep4) as Hlen.
  apply for_each_length in H. lia.
Qed.

Lemma search_hits_titled query stories tr :
  Hn.search_hacker_news net query [] = (Return stories, tr) ->
  Forall (fun s => Hn.title s <> "") stories.
Proof.
  unfold Hn.search_hacker_news. intros H. do 4 bind_inv H.
  apply (comprehension_return_inv _ _ (fun s => Hn.title s <> "")) in H as [Hall _];
    [exact Hall|].
  intros hit t1 t2 s t3. apply hit_has_title.
Qed.

Lemma releases_uncapped owner repo r upstream releases tr :
  net (GithubEp.releases_request environ owner repo) = Reply r ->
  is_success r = true ->
  json_body r = Some (JList upstream) ->
  GithubEp.fetch_releases environ net owner repo [] = (Return releases, tr) ->
  length releases = length upstream.
Proof.
  unfold GithubEp.fetch_releases. intros Hnet Hok Hbody H.
  erewrite run_bind in H; cycle 1.
  { apply run_try_return.
    erewrite run_bind by (by apply client_get_reply).
    erewrite run_bind by (by apply raise_for_status_success).
    reflexivity. }
  erewrite run_bind in H by (by apply resp_json_some).
  erewrite run_bind in H by reflexivity.
  by apply for_each_length in H.
Qed.

End Caps.

(** C7.  The endpoints that slice the upstream list keep to their caps for
    every upstream response: at most 10 stories, 10 questions, 10 answers
    and 15 featured questions.  Where a filter applies, every returned item
    satisfies it: every story of the story endpoints has type [story],
    every hit of the Hacker News search has a non-empty title.  The
    releases endpoint, whose docstring promises the latest 30 releases,
    does not keep to that cap: against [releases_net], whose reply lists 31
    releases, it returns 31 records. *)
Theorem caps_and_filters (environ : gmap string string) (net : network) :
  (forall story_type stories tr,
     HackerNews.get_stories_by_type net story_type [] = (Return stories, tr) ->
     (length stories <= 10)%nat /\
     Forall (fun s => HackerNews.type s = "story") stories) /\
  (forall user_id username questions tr,
     StackOverflow.fetch_questions environ net user_id username [] = (Return questions, tr) ->
     (length questions <= 10)%nat) /\
  (forall user_id username answers tr,
     StackOverflow.fetch_answers environ net user_id username [] = (Return answers, tr) ->
     (length answers <= 10)%nat) /\
  (forall featured tr,
     StackOverflow.fetch_featured_questions net [] = (Return featured, tr) ->
     (length featured <= 15)%nat) /\
  (forall query stories tr,
     Hn.search_hacker_news net query [] = (Return stories, tr) ->
     Forall (fun s => Hn.title s <> "") stories) /\
  (exists releases tr,
     GithubEp.fetch_releases ∅ releases_net "o" "r" [] = (Return releases, tr) /\
     length releases = 31%nat).
Proof.
  split; [|split; [|split; [|split; [|split]]]].
  - apply stories_capped.
  - apply questions_capped.
  - apply answers_capped.
  - apply featured_capped.
  - apply search_hits_titled.
  - destruct (GithubEp.fetch_releases ∅ releases_net "o" "r" []) as [[releases|e] tr] eqn:E;
      [|vm_compute in E; discriminate].
    exists releases, tr. split; [reflexivity|].
    apply (releases_uncapped ∅ releases_net "o" "r" _ (repeat (release "v1") 31)
             releases tr eq_refl eq_refl eq_refl E).
Qed.

(** C7 at [mixed_net]: one story, of type [story]; and the 31 releases. *)
Lemma caps_and_filters_witness :
  (exists stories tr,
     HackerNews.get_stories_by_type mixed_net "top" [] = (Return stories, tr) /\
     (length stories <= 10)%nat /\
     Forall (fun s => HackerNews.type s = "story") stories) /\
  (exists releases tr,
     GithubEp.fetch_releases ∅ releases_net "o" "r" [] = (Return releases, tr) /\
     length releases = 31%nat).
Proof.
  destruct (caps_and_filters ∅ mixed_net) as (Hstories & _ & _ & _ & _ & Hreleases).
  split; [|exact Hreleases].
  destruct (HackerNews.get_stories_by_type mixed_net "top" []) as [[stories|e] tr] eqn:E;
    [|vm_compute in E; discriminate].
  exists stories, tr. split; [reflexivity|]. by apply (Hstories "top" stories tr).
Defined.

(** C7 as stated fails for the releases: [releases_net] lists 31 releases
    and 31 records come back, one more than the documented 30. *)
Lemma releases_cap_counterexample : ~ releases_capped ∅ releases_net "o" "r".
Proof.
  intros H.
  destruct (GithubEp.fetch_releases ∅ releases_net "o" "r" []) as [[releases|e] tr] eqn:E.
  - specialize (H releases tr E). vm_compute in E. injection E as <- _.
    vm_compute in H. lia.
  - vm_compute in E. discriminate.
Qed.

(** ** C6: missing settings *)

(** Runs a handler up to its check of the environment. *)
Ltac reach_gate H :=
  unfold handle, status_line, serve,
    Github.fetch_repos, Github.fetch_issues, Github.fetch_pull_requests,
    Github.get_headers, Github.TOKEN,
    Devto.fetch_articles, Devto.fetch_single_article, Devto.get_headers, Devto.API_KEY,
    Kaggle.fetch_datasets, Kaggle.fetch_competitions, Kaggle.get_kaggle_auth,
    Kaggle.KAGGLE_USERNAME, Kaggle.KAGGLE_KEY,
    Codeforces.get_default_user_info, Codeforces.DEFAULT_CODEFORCES_HANDLE,
    GitLab.fetch_projects, GitLab.fetch_issues, GitLab.fetch_pipelines,
    GitLab.get_gitlab_headers, GitLab.TOKEN,
    getenv, getenv_default;
  rewrite H; simpl; rewrite ?orb_true_r; simpl.

(** C6, amended.  An endpoint that requires a secret (the GitLab, Kaggle
    and DEV.to endpoints, and GitHub's [/repos], [/issues] and
    [/repos/{owner}/{repo}/pulls]) fails with a 500 whose message names the
    setting when it is absent, and the endpoint that requires the default
    handle, Codeforces [/userinfo/me], fails in the same way with a 400; in
    both cases before any upstream call. *)
Theorem missing_setting_fails_first (d : deployment) (e : endpoint) (name : string) :
  In name (required_settings e) ->
  environ d !! name = None ->
  e <> github_pulls ->
  exists detail,
    handle d e = (Error (missing_setting_status e) detail, []) /\
    contains name detail = true.
Proof.
  intros Hin Habsent Hpulls.
  destruct e; simpl in Hin; try contradiction;
    repeat (destruct Hin as [<-|Hin]; [|try contradiction]); try congruence.
  all: eexists; split; [reach_gate Habsent; reflexivity | reflexivity].
Qed.

(** The amended C6 at [bare_deployment]: the pipelines endpoint without its
    token. *)
Lemma missing_setting_fails_first_witness :
  exists detail,
    handle bare_deployment gitlab_pipelines = (Error 500 detail, []) /\
    contains "GITLAB_TOKEN" detail = true.
Proof.
  apply (missing_setting_fails_first bare_deployment gitlab_pipelines "GITLAB_TOKEN").
  - left. reflexivity.
  - reflexivity.
  - discriminate.
Defined.

(** C6 as stated fails: without [CODEFORCES_HANDLE], [/userinfo/me] answers
    400, not 500. *)
Lemma missing_setting_counterexample :
  ~ missing_setting_is_500 bare_deployment codeforces_userinfo_me.
Proof.
  intros H.
  destruct (H "CODEFORCES_HANDLE" (or_introl eq_refl) eq_refl) as (detail & Hd & _).
  vm_compute in Hd. discriminate.
Qed.

(** ** C5: an upstream that cannot be reached *)

(** Unfolds the handler of an endpoint down to its first upstream call. *)
Ltac open_handler :=
  unfold handle, status_line, serve,
    Github.fetch_repos, Github.fetch_issues, Github.fetch_my_pull_requests,
    Github.fetch_pull_requests, Github.get_headers,
    StackOverflow.fetch_featured_questions, StackOverflow.fetch_questions,
    StackOverflow.fetch_answers, StackOverflow.resolve_user_id,
    StackOverflow.get_user_id_from_username,
    HackerNews.get_top_stories, HackerNews.get_new_stories,
    HackerNews.get_stories_by_type, HackerNews.get_story_item, HackerNews.fetch_item,
    HackerNews.get_hn_user, HackerNews.fetch_user,
    Devto.fetch_articles, Devto.fetch_single_article, Devto.get_headers,
    Kaggle.fetch_datasets, Kaggle.fetch_competitions, Kaggle.get_kaggle_auth,
    Codeforces.get_contests, Codeforces.get_default_user_info, Codeforces.get_user_info,
    GitLab.fetch_projects, GitLab.fetch_issues, GitLab.fetch_pipelines,
    GitLab.get_gitlab_headers,
    GFG.get_gfg_stats, GFG.get_gfg_potd,
    GithubEp.fetch_releases, So.search_stackoverflow, Pypi.fetch_package_details,
    Pypi.fetch_latest_version, Reddit.search_subreddit, Hn.search_hacker_news,
    Npm.fetch_npm_package, Npm.fetch_npm_latest in *.

(** C5, amended.  When the upstream cannot be reached, an endpoint that
    calls it answers 503 wherever its adapter handles the transport error:
    with the adapter's own could-not-connect message in
    [single_application/], with [Service unavailable:] and the error's text
    in [endpoints/] and DEV.to.  Two endpoints answer otherwise on purpose:
    [/hackernews/item/{id}] answers 404, not found or failed to fetch, and
    the scraper's [/potd] its generic 500.  The Stack Overflow user
    endpoints answer 503 when the call that fails is the username lookup.
    (Nothing is said here of GitHub's [/pulls], nor of the Stack Overflow
    user endpoints when the user id needs no lookup.) *)
Theorem upstream_unreachable (d : deployment) (e : endpoint) (msg : string) :
  (forall req, net d req = Unreachable msg) ->
  (handle d e).2 <> [] ->
  (forall detail,
     could_not_connect e msg = Some detail -> (handle d e).1 = Error 503 detail) /\
  (forall item_id,
     e = hackernews_item item_id ->
     (handle d e).1 =
       Error 404 ("Item with ID " +:+ str_int item_id +:+ " not found or failed to fetch.")) /\
  (e = gfg_potd ->
     (handle d e).1 = Error 500 "Failed to fetch or parse the GFG POTD page.") /\
  (forall user_id username,
     e = stackoverflow_questions user_id username \/
     e = stackoverflow_answers user_id username ->
     truthy_int user_id = false ->
     truthy_str (StackOverflow.DEFAULT_USER_ID (environ d)) = false ->
     (handle d e).1 = Error 503 "Could not connect to the Stack Exchange API.").
Proof.
  intros Hdown Htr. split; [|split; [|split]].
  - intros detail Hd. destruct e; simpl in Hd; try discriminate; injection Hd as <-.
    all: open_handler.
    all: repeat match goal with
         | |- context [truthy_str ?x] => destruct (truthy_str x)
         | |- context [nonempty ?x] => destruct (nonempty x)
         end.
    all: unfold mbind, M_bind, bind, try_except, client_get, ret, raise in *.
    all: simpl in *; rewrite ?Hdown; simpl; done.
  - intros item_id ->. open_handler.
    unfold mbind, M_bind, bind, try_except, client_get, ret, raise in *.
    simpl in *. rewrite ?Hdown. reflexivity.
  - intros ->. open_handler.
    unfold mbind, M_bind, bind, try_except, client_get, ret, raise in *.
    simpl in *. rewrite ?Hdown. reflexivity.
  - intros user_id username [-> | ->] Hid Hdefault; open_handler;
      rewrite Hid, Hdefault in *;
      repeat match goal with
             | |- context [truthy_str ?x] => destruct (truthy_str x)
             end;
      unfold mbind, M_bind, bind, try_except, client_get, ret, raise in *;
      simpl in *; rewrite ?Hdown; simpl; done.
Qed.

(** The amended C5 at [bare_deployment]: the contests endpoint. *)
Lemma upstream_unreachable_witness :
  (handle bare_deployment codeforces_contests).1 =
    Error 503 "Could not connect to the Codeforces API.".
Proof.
  destruct (upstream_unreachable bare_deployment codeforces_contests "connection refused")
    as (H & _).
  - intros req. reflexivity.
  - vm_compute. discriminate.
  - apply H. reflexivity.
Defined.

(** C5 as stated fails: with the upstream unreachable, [/hackernews/item/1]
    calls it and answers 404. *)
Lemma upstream_unreachable_counterexample :
  ~ unreachable_is_503 bare_deployment (hackernews_item 1).
Proof.
  intros H. destruct H as [detail Hd].
  - intros req. by exists "connection refused".
  - vm_compute. discriminate.
  - vm_compute in Hd. discriminate.
Qed.

(** * Further properties of the adapters *)

(** ** The requests of the endpoints *)

Lemma emits_sends {A} P n (m : M A) : emits P n m -> sends P m.
Proof. intros H tr. destruct (H tr) as (added & ? & ? & _). eauto. Qed.

Lemma emits_weaken {A} P n n' (m : M A) : (n <= n')%nat -> emits P n m -> emits P n' m.
Proof.
  intros Hle H tr. destruct (H tr) as (added & ? & ? & ?).
  exists added. repeat split; auto. lia.
Qed.

Lemma emits_silent {A} P n (m : M A) : silent m -> emits P n m.
Proof.
  intros H tr. exists []. rewrite (H tr). simpl. rewrite app_nil_r.
  repeat split; [constructor | lia].
Qed.

Lemma emits_client_get P n net req : P req -> emits P (S n) (client_get net req).
Proof.
  intros H tr. exists [req]. rewrite issues_client_get.
  repeat split; [by constructor | simpl; lia].
Qed.

Lemma emits_bind {A B} P n1 n2 (m : M A) (k : A -> M B) :
  emits P n1 m -> (forall a, emits P n2 (k a)) -> emits P (n1 + n2) (m ≫= k).
Proof.
  intros Hm Hk tr. unfold mbind, M_bind, bind.
  destruct (Hm tr) as (added1 & H1 & HP1 & Hn1).
  destruct (m tr) as [[a|e] tr1]; simpl in *; subst tr1.
  - destruct (Hk a (tr ++ added1)) as (added2 & H2 & HP2 & Hn2).
    exists (added1 ++ added2). rewrite H2, app_assoc.
    repeat split; [by apply Forall_app | rewrite length_app; lia].
  - exists added1. repeat split; auto. lia.
Qed.

Lemma emits_try_except {A} P n (body : M A) handler :
  emits P n body ->
  (forall e h, handler e = Some h -> silent h) ->
  emits P n (try_except body handler).
Proof.
  intros Hb Hh tr. unfold try_except.
  destruct (Hb tr) as (added & H1 & HP & Hn).
  destruct (body tr) as [[a|e] tr1]; simpl in *; [by exists added|].
  destruct (handler e) as [h|] eqn:E; [|by exists added].
  rewrite (Hh e h E tr1). simpl. by exists added.
Qed.

Lemma emits_ret_bind {A B} P n (a : A) (k : A -> M B) :
  emits P n (k a) -> emits P n (ret a ≫= k).
Proof. intros H tr. exact (H tr). Qed.

Lemma emits_raise_bind {A B} P n e (k : A -> M B) : emits P n (raise e ≫= k).
Proof. apply emits_silent. by intros tr. Qed.

Lemma emits_bind_silent_l {A B} P n (m : M A) (k : A -> M B) :
  silent m -> (forall a, emits P n (k a)) -> emits P n (m ≫= k).
Proof. intros Hm Hk. apply (emits_bind P 0 n); [by apply emits_silent | exact Hk]. Qed.

Lemma emits_bind_silent_r {A B} P n (m : M A) (k : A -> M B) :
  emits P n m -> (forall a, silent (k a)) -> emits P n (m ≫= k).
Proof.
  intros Hm Hk. apply (emits_weaken P (n + 0)); [lia|].
  apply emits_bind; [exact Hm | intros a; by apply emits_silent].
Qed.

Lemma emits_bind_call {A} P n net req (k : response -> M A) :
  P req -> (forall resp, emits P n (k resp)) -> emits P (S n) (client_get net req ≫= k).
Proof. intros HP Hk. apply (emits_bind P 1 n); [by apply emits_client_get | exact Hk]. Qed.

Lemma emits_bind_split {A B} P n (m : M A) (k : A -> M B) :
  emits P 1 m -> (forall a, emits P n (k a)) -> emits P (S n) (m ≫= k).
Proof. intros Hm Hk. by apply (emits_bind P 1 n). Qed.

Lemma nonempty_true v : v <> "" -> nonempty v = true.
Proof. intros H. unfold nonempty. apply negb_true_iff, String.eqb_neq, H. Qed.

Lemma starts_with_app p s : starts_with p (p +:+ s) = true.
Proof.
  induction p as [|c p IH]; simpl; [reflexivity|].
  by rewrite Ascii.eqb_refl, IH.
Qed.

Lemma starts_with_refl p : starts_with p p = true.
Proof. induction p as [|c p IH]; simpl; [reflexivity|]. by rewrite Ascii.eqb_refl, IH. Qed.

Lemma silent_Question_of q : silent (StackOverflow.Question_of q).
Proof. unfold StackOverflow.Question_of. silent_tac. Qed.

Lemma silent_Answer_of a : silent (StackOverflow.Answer_of a).
Proof. unfold StackOverflow.Answer_of. silent_tac. Qed.

Lemma silent_FeaturedQuestion_of x : silent (StackOverflow.FeaturedQuestion_of x).
Proof. unfold StackOverflow.FeaturedQuestion_of. silent_tac. Qed.

Lemma silent_User_of x : silent (HackerNews.User_of x).
Proof. unfold HackerNews.User_of. silent_tac. Qed.

Lemma silent_is_story x : silent (HackerNews.is_story x).
Proof. unfold HackerNews.is_story. silent_tac. Qed.

Lemma silent_Contest_of x : silent (Codeforces.Contest_of x).
Proof. unfold Codeforces.Contest_of. silent_tac. Qed.

Lemma silent_is_upcoming x : silent (Codeforces.is_upcoming x).
Proof. unfold Codeforces.is_upcoming. silent_tac. Qed.

Lemma silent_format_time local_time x : silent (Codeforces.format_time local_time x).
Proof. unfold Codeforces.format_time. silent_tac. Qed.

#[local] Hint Resolve silent_format_time : silent.

Lemma silent_UserInfo_of local_time x : silent (Codeforces.UserInfo_of local_time x).
Proof. unfold Codeforces.UserInfo_of. silent_tac. Qed.

Lemma silent_Project_of x : silent (GitLab.Project_of x).
Proof. unfold GitLab.Project_of. silent_tac. Qed.

Lemma silent_gitlab_Issue_of x : silent (GitLab.Issue_of x).
Proof. unfold GitLab.Issue_of. silent_tac. Qed.

Lemma silent_attr_href x : silent (GFG.attr_href x).
Proof. unfold GFG.attr_href. silent_tac. Qed.

Lemma silent_parse_page BeautifulSoup markup :
  silent (GFG.parse_page BeautifulSoup markup).
Proof. unfold GFG.parse_page. silent_tac. Qed.

Lemma silent_Release_of x : silent (GithubEp.Release_of x).
Proof. unfold GithubEp.Release_of. silent_tac. Qed.

Lemma silent_Post_of s x : silent (Reddit.Post_of s x).
Proof. unfold Reddit.Post_of. silent_tac. Qed.

Lemma silent_Repo_of x : silent (Github.Repo_of x).
Proof. unfold Github.Repo_of. silent_tac. Qed.

Lemma silent_github_Issue_of x : silent (Github.Issue_of x).
Proof. unfold Github.Issue_of. silent_tac. Qed.

Lemma silent_Issue_response x : silent (Github.Issue_response x).
Proof. unfold Github.Issue_response. silent_tac. Qed.

Lemma silent_PullRequest_of x : silent (Github.PullRequest_of x).
Proof. unfold Github.PullRequest_of. silent_tac. Qed.

Lemma silent_py_len x : silent (Github.py_len x).
Proof. unfold Github.py_len. silent_tac. Qed.

Lemma silent_py_join xs : silent (Devto.py_join xs).
Proof.
  induction xs as [|x xs IH]; simpl; [auto with silent|].
  destruct x; auto with silent. destruct xs; [auto with silent|].
  apply silent_bind; [exact IH | intros; auto with silent].
Qed.

#[local] Hint Resolve silent_py_join : silent.

Lemma silent_Article_of x : silent (Devto.Article_of x).
Proof. unfold Devto.Article_of. silent_tac. Qed.

Lemma silent_Dataset_of x : silent (Kaggle.Dataset_of x).
Proof. unfold Kaggle.Dataset_of. silent_tac. Qed.

Lemma silent_Competition_of x : silent (Kaggle.Competition_of x).
Proof. unfold Kaggle.Competition_of. silent_tac. Qed.

Lemma silent_as_Owner x : silent (So.as_Owner x).
Proof. unfold So.as_Owner. silent_tac. Qed.

#[local] Hint Resolve silent_as_Owner : silent.

Lemma silent_as_Question x : silent (So.as_Question x).
Proof. unfold So.as_Question. silent_tac. Qed.

#[local] Hint Resolve silent_as_Question : silent.

Lemma silent_SearchResponse_items x : silent (So.SearchResponse_items x).
Proof. unfold So.SearchResponse_items. silent_tac. Qed.

Lemma silent_hn_Story_of x : silent (Hn.Story_of x).
Proof. unfold Hn.Story_of. silent_tac. Qed.

Lemma silent_has_title x : silent (Hn.has_title x).
Proof. unfold Hn.has_title. silent_tac. Qed.

#[local] Hint Resolve silent_Story_of silent_Pipeline_of silent_Question_of silent_Answer_of
  silent_FeaturedQuestion_of silent_User_of silent_is_story silent_Contest_of
  silent_is_upcoming silent_UserInfo_of silent_Project_of silent_gitlab_Issue_of
  silent_attr_href silent_parse_page silent_Release_of silent_Post_of silent_Repo_of silent_github_Issue_of
  silent_Issue_response silent_PullRequest_of silent_py_len silent_Article_of
  silent_Dataset_of silent_Competition_of silent_SearchResponse_items silent_hn_Story_of
  silent_has_title : silent.

(** The handlers of an [except] clause that only raise or return. *)
Ltac handlers_silent :=
  let e := fresh "e" in
  let h := fresh "h" in
  let Hh := fresh "Hh" in
  intros e h Hh; destruct e; simpl in Hh; repeat case_match; simplify_eq;
  auto with silent.

Ltac addressed_tac :=
  unfold addressed, upstream_base, upstream_headers, upstream_auth, get,
    GitLab.projects_request, GitLab.issues_request, GitLab.recent_projects_request,
    GitLab.pipelines_request, GithubEp.releases_request, Reddit.search_request,
    So.search_request, Hn.search_request, GFG.potd_request, GFG.potd_url,
    HackerNews.item_url, HackerNews.user_url, HackerNews.stories_url,
    StackOverflow.lookup_url, StackOverflow.featured_url, StackOverflow.questions_url,
    StackOverflow.answers_url, Codeforces.contests_url, Codeforces.user_info_url,
    GFG.stats_url, Github.search_url, Github.pulls_url, Pypi.package_url, Npm.package_url;
  cbn [req_url req_headers req_auth];
  split;
    [ first [apply starts_with_app | apply starts_with_refl | vm_compute; reflexivity]
    | split; reflexivity ].

(** Walks through a handler, counting its upstream calls. *)
Ltac emits_step :=
  first
    [ apply emits_silent; solve [silent_tac]
    | apply emits_client_get; solve [addressed_tac | exact I]
    | apply emits_try_except; [ | solve [handlers_silent] ]
    | match goal with
      | |- emits _ _ (ret _ ≫= _) => apply emits_ret_bind
      | |- emits _ _ (raise _ ≫= _) => apply emits_raise_bind
      | |- emits _ _ ((if ?b then _ else _) ≫= _) => destruct b eqn:?
      | |- emits _ _ (if ?b then _ else _) => destruct b eqn:?
      | |- emits _ _ (match ?x with _ => _ end) => destruct x eqn:?
      end
    | apply emits_bind_silent_l; [solve [silent_tac] | intros ?]
    | apply emits_bind_call; [solve [addressed_tac | exact I] | intros ?]
    | apply emits_bind_silent_r; [ | intros ?; solve [silent_tac]]
    | apply emits_bind_split; [ | intros ?] ].

Ltac emits_tac := repeat emits_step.

Lemma sends_bind {A B} P (m : M A) (k : A -> M B) :
  sends P m -> (forall a, sends P (k a)) -> sends P (m ≫= k).
Proof.
  intros Hm Hk tr. unfold mbind, M_bind, bind.
  destruct (Hm tr) as (added1 & H1 & HP1).
  destruct (m tr) as [[a|e] tr1]; simpl in *; subst tr1; [|by exists added1].
  destruct (Hk a (tr ++ added1)) as (added2 & H2 & HP2).
  exists (added1 ++ added2). rewrite H2, app_assoc. split; [reflexivity|].
  by apply Forall_app.
Qed.

Lemma sends_try_except {A} P (body : M A) handler :
  sends P body ->
  (forall e h, handler e = Some h -> silent h) ->
  sends P (try_except body handler).
Proof.
  intros Hb Hh tr. unfold try_except.
  destruct (Hb tr) as (added & H1 & HP).
  destruct (body tr) as [[a|e] tr1]; simpl in *; [by exists added|].
  destruct (handler e) as [h|] eqn:E; [|by exists added].
  rewrite (Hh e h E tr1). simpl. by exists added.
Qed.

Lemma sends_gather {A} P (tasks : list (M A)) :
  Forall (sends P) tasks -> sends P (gather tasks).
Proof.
  induction 1 as [|t tasks Ht _ IH].
  - apply (emits_sends P 0), emits_silent, silent_mret.
  - intros tr. cbn [gather].
    destruct (Ht tr) as (added1 & H1 & HP1).
    destruct (t tr) as [[r|e] tr1]; simpl in H1; subst tr1.
    + assert (sends P (gather tasks ≫= λ rs, ret (r :: rs))) as Hrest.
      { apply sends_bind; [exact IH|]. intros rs.
        apply (emits_sends P 0), emits_silent, silent_ret. }
      destruct (Hrest (tr ++ added1)) as (added2 & H2 & HP2).
      exists (added1 ++ added2). rewrite H2, app_assoc.
      split; [reflexivity | by apply Forall_app].
    + destruct (IH (tr ++ added1)) as (added2 & H2 & HP2).
      exists (added1 ++ added2). simpl. rewrite H2, app_assoc.
      split; [reflexivity | by apply Forall_app].
Qed.

Lemma emits_gather {A} P (tasks : list (M A)) :
  Forall (emits P 1) tasks -> emits P (length tasks) (gather tasks).
Proof.
  induction 1 as [|t tasks Ht _ IH].
  - apply emits_silent, silent_mret.
  - intros tr. cbn [gather].
    destruct (Ht tr) as (added1 & H1 & HP1 & Hn1).
    destruct (t tr) as [[r|e] tr1]; simpl in H1; subst tr1.
    + assert (emits P (length tasks) (gather tasks ≫= λ rs, ret (r :: rs))) as Hrest.
      { apply emits_bind_silent_r; [exact IH|]. intros rs. apply silent_ret. }
      destruct (Hrest (tr ++ added1)) as (added2 & H2 & HP2 & Hn2).
      exists (added1 ++ added2). rewrite H2, app_assoc.
      split; [reflexivity|]. split; [by apply Forall_app|].
      rewrite length_app. simpl. lia.
    + destruct (IH (tr ++ added1)) as (added2 & H2 & HP2 & Hn2).
      exists (added1 ++ added2). simpl. rewrite H2, app_assoc.
      split; [reflexivity|]. split; [by apply Forall_app|].
      rewrite length_app. simpl. lia.
Qed.

Lemma emits_run {A} P n (m : M A) :
  emits P n m -> Forall P (m []).2 /\ (length (m []).2 <= n)%nat.
Proof. intros H. destruct (H []) as (added & -> & HP & Hn). by split. Qed.

Lemma sends_run {A} P (m : M A) : sends P m -> Forall P (m []).2.
Proof. intros H. by destruct (H []) as (added & -> & HP). Qed.

Lemma trace_of_served {A} (m : M A) : (status_line (serve m)).2 = (m []).2.
Proof. unfold serve. by destruct (m []) as [[a|[]] tr]. Qed.

Section Requests.
Context (d : deployment).

Lemma fetch_item_emits e i :
  upstream_base d e = HackerNews.BASE_URL ->
  upstream_headers d e = [] -> upstream_auth d e = None ->
  emits (addressed d e) 1 (HackerNews.fetch_item (net d) i).
Proof.
  intros Hbase Hheaders Hauth. unfold HackerNews.fetch_item.
  apply emits_try_except; [|handlers_silent].
  apply emits_bind_call; [|intros resp; apply emits_silent; silent_tac].
  unfold addressed. rewrite Hbase, Hheaders, Hauth.
  split; [apply starts_with_app | by split].
Qed.

Lemma stories_emit e story_type :
  upstream_base d e = HackerNews.BASE_URL ->
  upstream_headers d e = [] -> upstream_auth d e = None ->
  emits (addressed d e) 11 (HackerNews.get_stories_by_type (net d) story_type).
Proof.
  intros Hbase Hheaders Hauth. unfold HackerNews.get_stories_by_type.
  apply emits_try_except; [|handlers_silent].
  apply emits_bind_call.
  { unfold addressed. rewrite Hbase, Hheaders, Hauth.
    split; [apply starts_with_app | by split]. }
  intros resp. apply emits_bind_silent_l; [silent_tac|]. intros [].
  apply emits_bind_silent_l; [silent_tac|]. intros ids.
  assert (forall story_ids : list json,
            (length story_ids <= 10)%nat ->
            emits (addressed d e) 10
              (gather (map (HackerNews.fetch_item (net d)) story_ids) ≫=
               comprehension HackerNews.is_story HackerNews.Story_of)) as Hfan.
  { intros story_ids Hlen. apply emits_bind_silent_r; [|intros; silent_tac].
    apply (emits_weaken _ (length (map (HackerNews.fetch_item (net d)) story_ids)));
      [by rewrite length_map|].
    apply emits_gather, Forall_map, Forall_forall. intros i _.
    by apply fetch_item_emits. }
  destruct ids as [|b|n|s|items|kw]; cbn [py_slice];
    try (apply emits_silent; by intros tr).
  - apply emits_ret_bind. cbn [py_iter]. apply emits_ret_bind, Hfan.
    rewrite length_map, length_chars. apply length_str_take.
  - apply emits_ret_bind. cbn [py_iter]. apply emits_ret_bind, Hfan.
    rewrite length_take. lia.
Qed.

Lemma project_pipelines_emit p :
  emits (addressed d gitlab_pipelines) 1
    (GitLab.get_pipelines_for_project (environ d) (net d) p
       [("PRIVATE-TOKEN", GitLab.TOKEN (environ d))]).
Proof. unfold GitLab.get_pipelines_for_project. emits_tac. Qed.

Lemma pipelines_send :
  sends (addressed d gitlab_pipelines) (GitLab.fetch_pipelines (environ d) (net d)).
Proof.
  unfold GitLab.fetch_pipelines, GitLab.get_gitlab_headers.
  destruct (negb _); [apply (emits_sends _ 0), emits_raise_bind|].
  intros tr. unfold mbind at 1, M_bind at 1, bind at 1, ret at 1. revert tr.
  apply sends_try_except; [|handlers_silent].
  apply sends_bind; [apply (emits_sends _ 1), emits_client_get; addressed_tac|].
  intros resp.
  apply sends_bind; [apply (emits_sends _ 0), emits_silent; silent_tac|]. intros [].
  apply sends_bind; [apply (emits_sends _ 0), emits_silent; silent_tac|]. intros projects.
  apply sends_bind; [apply (emits_sends _ 0), emits_silent; silent_tac|]. intros ps.
  apply sends_bind; [|intros results; apply (emits_sends _ 0), emits_silent; silent_tac].
  apply sends_gather, Forall_map, Forall_forall. intros p _.
  apply (emits_sends _ 1), project_pipelines_emit.
Qed.

(** What an endpoint other than the pipelines fan-out sends: requests to its
    upstream with its credentials, at most [max_calls] of them. *)
Lemma endpoint_emits e :
  e <> gitlab_pipelines ->
  Forall (addressed d e) (handle d e).2 /\ (length (handle d e).2 <= max_calls e)%nat.
Proof.
  intros He.
  unfold handle.
  destruct e; try congruence; rewrite trace_of_served; apply emits_run;
    try (apply stories_emit; reflexivity);
    unfold max_calls; open_handler; emits_tac.
Qed.

End Requests.

(** ** What the endpoints send upstream *)

(** X1.  Every request an endpoint sends goes to the base URL of its own adapter
    and carries that adapter's headers and credentials, and no others:
    whatever the environment holds and whatever the upstream answers, on
    every path through the handler, the fan-outs included. *)
Theorem requests_stay_with_upstream (d : deployment) (e : endpoint) :
  Forall (addressed d e) (handle d e).2.
Proof.
  destruct e;
    try (apply endpoint_emits; discriminate).
  unfold handle. rewrite trace_of_served. apply sends_run, pipelines_send.
Qed.

(** X2.  One request to an endpoint other than the pipelines fan-out causes at
    most [max_calls] upstream calls: eleven for the story endpoints, two for
    the endpoints that look a user up first, one for the others. *)
Theorem upstream_calls_bounded (d : deployment) (e : endpoint) :
  e <> gitlab_pipelines ->
  (length (handle d e).2 <= max_calls e)%nat.
Proof. intros He. by apply endpoint_emits. Qed.

(** At [eleven_net], whose list has eleven identifiers, the top stories
    cause eleven calls: the list and ten items. *)
Lemma upstream_calls_bounded_witness :
  (length (handle (serving ∅ eleven_net) hackernews_topstories).2 <= 11)%nat.
Proof. apply (upstream_calls_bounded (serving ∅ eleven_net) hackernews_topstories). discriminate. Defined.

(** ** Upstream error statuses *)

Ltac run_handler Hnet :=
  open_handler;
  repeat match goal with
         | |- context [truthy_str ?x] => destruct (truthy_str x)
         | |- context [truthy_int ?x] => destruct (truthy_int x)
         | |- context [nonempty ?x] => destruct (nonempty x)
         end;
  unfold mbind, M_bind, bind, try_except, client_get, raise_for_status, ret, raise in *;
  simpl in *; rewrite ?Hnet; simpl.

(** X3.  When the upstream answers with an error status, an endpoint that has
    called it answers with [answered_status]: the upstream's own status for
    all but six endpoints. *)
Theorem error_status_answer (d : deployment) (e : endpoint) (r : response) :
  (forall req, net d req = Reply r) ->
  is_success r = false ->
  (handle d e).2 <> [] ->
  exists detail, (handle d e).1 = Error (answered_status e r) detail.
Proof.
  intros Hnet Hfail Hcalled.
  destruct e; run_handler Hnet; rewrite ?Hfail; simpl;
    try done; try (eexists; reflexivity).
  all: unfold py_int in *;
    repeat match goal with
           | |- context [parse_int ?x] => destruct (parse_int x)
           end;
    simpl in *; rewrite ?Hnet; simpl; rewrite ?Hfail; simpl;
    try done; try (eexists; reflexivity).
  all: destruct (status_code r =? 404) eqn:E; simpl; try (eexists; reflexivity).
  all: apply Z.eqb_eq in E; rewrite E; eexists; reflexivity.
Qed.

Lemma error_status_answer_witness :
  exists detail,
    (handle (serving ∅ (always rate_limited)) (hackernews_user "pg")).1 = Error 429 detail.
Proof.
  apply (error_status_answer (serving ∅ (always rate_limited)) (hackernews_user "pg")
           rate_limited).
  - reflexivity.
  - reflexivity.
  - vm_compute. discriminate.
Defined.

(** X4.  An upstream 404 is answered with a 404 that names what was asked for,
    by the seven endpoints that have a message of their own for it. *)
Theorem upstream_404_names_resource (d : deployment) (e : endpoint) (r : response)
    (detail : string) :
  (forall req, net d req = Reply r) ->
  status_code r = 404 ->
  (handle d e).2 <> [] ->
  not_found_detail e = Some detail ->
  (handle d e).1 = Error 404 detail.
Proof.
  intros Hnet Hstatus Hcalled Hdetail.
  assert (is_success r = false) as Hfail by (unfold is_success; by rewrite Hstatus).
  destruct e; simpl in Hdetail; try discriminate; injection Hdetail as <-;
    run_handler Hnet; rewrite ?Hfail; simpl; rewrite ?Hstatus; simpl; done.
Qed.

Lemma upstream_404_names_resource_witness :
  (handle (serving ∅ (always not_found)) (ep_pypi_latest "nopkg")).1 =
    Error 404 "Package 'nopkg' not found on PyPI.".
Proof.
  apply (upstream_404_names_resource (serving ∅ (always not_found)) (ep_pypi_latest "nopkg")
           not_found).
  - reflexivity.
  - reflexivity.
  - vm_compute. discriminate.
  - reflexivity.
Defined.

(** ** Settings *)

(** X5.  A required setting that is set to the empty string counts as missing:
    the endpoint fails as it does without the setting, before any upstream
    call. *)
Theorem empty_setting_counts_as_missing (d : deployment) (e : endpoint) (name : string) :
  In name (required_settings e) ->
  environ d !! name = Some "" ->
  e <> github_pulls ->
  exists detail,
    handle d e = (Error (missing_setting_status e) detail, []) /\
    contains name detail = true.
Proof.
  intros Hin Hempty Hpulls.
  destruct e; simpl in Hin; try contradiction;
    repeat (destruct Hin as [<-|Hin]; [|try contradiction]); try congruence.
  all: eexists; split; [reach_gate Hempty; reflexivity | reflexivity].
Qed.

Lemma empty_setting_counts_as_missing_witness :
  exists detail,
    handle (serving {[ "DEVTO_API_KEY" := "" ]} (down "connection refused")) devto_articles
      = (Error 500 detail, []) /\
    contains "DEVTO_API_KEY" detail = true.
Proof.
  apply (empty_setting_counts_as_missing
           (serving {[ "DEVTO_API_KEY" := "" ]} (down "connection refused"))
           devto_articles "DEVTO_API_KEY").
  - left. reflexivity.
  - reflexivity.
  - discriminate.
Defined.

(** ** Hacker News: items and users *)

Section HackerNewsItems.
Context (net : network).

Lemma fetch_item_issues i :
  issues (HackerNews.fetch_item net i) [get (HackerNews.item_url i)].
Proof.
  unfold HackerNews.fetch_item. apply issues_try_except.
  - apply issues_call_then; [apply issues_client_get|]. intros resp. silent_tac.
  - handlers_silent.
Qed.

Lemma gather_fetch_trace ids tr results tr' :
  gather (map (HackerNews.fetch_item net) ids) tr = (Return results, tr') ->
  tr' = tr ++ map (fun i => get (HackerNews.item_url i)) ids.
Proof.
  revert tr results tr'. induction ids as [|i ids IH]; intros tr results tr' H.
  - injection H as _ <-. simpl. by rewrite app_nil_r.
  - cbn [map] in H. apply gather_cons_return in H as (r & rs & tr1 & Hstep & Hrest & _).
    pose proof (fetch_item_issues i tr) as Hi. rewrite Hstep in Hi. simpl in Hi. subst tr1.
    apply IH in Hrest. subst tr'. by rewrite <- app_assoc.
Qed.

(** X6.  Whenever a story endpoint answers with a list, it has made the list call
    and then exactly one item call for each of the first ten identifiers, in
    the order of the list; no identifier after the tenth is fetched. *)
Theorem stories_requests (story_type : string) (first : response) (ids : list json)
    (stories : list HackerNews.Story) (tr : trace) :
  net (get (HackerNews.stories_url story_type)) = Reply first ->
  json_body first = Some (JList ids) ->
  HackerNews.get_stories_by_type net story_type [] = (Return stories, tr) ->
  tr = get (HackerNews.stories_url story_type)
       :: map (fun i => get (HackerNews.item_url i)) (take 10 ids).
Proof.
  intros Hnet Hbody H. unfold HackerNews.get_stories_by_type in H.
  apply try_return_inv in H; [|intros [] h ? ? ? [= <-]; discriminate].
  erewrite run_bind in H by (by apply client_get_reply).
  apply bind_return_inv in H as ([] & t1 & Hstatus & H).
  unfold raise_for_status in Hstatus.
  destruct (is_success first); [|discriminate]. injection Hstatus as <-.
  erewrite run_bind in H by (by apply resp_json_some).
  erewrite run_bind in H by reflexivity.
  erewrite run_bind in H by reflexivity.
  apply bind_return_inv in H as (results & t2 & Hgather & H).
  apply gather_fetch_trace in Hgather. subst t2.
  rewrite (silent_comprehension _ _ _ silent_is_story silent_Story_of) in H.
  by injection H as _ <-.
Qed.

(** X7.  [GET /item/{item_id}] answers 404 when the item call fails, at transport
    level or with an error status, and when it delivers [null] or an empty
    value; a payload that validates as a [Story] is answered with that
    story whatever its [type] is: the endpoint has no filter on the type. *)
Theorem item_outcomes (item_id : Z) :
  let req := get (HackerNews.item_url (JInt item_id)) in
  let missing :=
    Error 404 ("Item with ID " +:+ str_int item_id +:+ " not found or failed to fetch.") in
  (call_fails (net req) = true ->
   serve (HackerNews.get_story_item net item_id) = (missing, [req])) /\
  (forall r j,
     net req = Reply r -> is_success r = true -> json_body r = Some j ->
     truthy j = false ->
     serve (HackerNews.get_story_item net item_id) = (missing, [req])) /\
  (forall r j story,
     net req = Reply r -> is_success r = true -> json_body r = Some j ->
     truthy j = true ->
     HackerNews.Story_of j [] = (Return story, []) ->
     serve (HackerNews.get_story_item net item_id) = (Ok200 story, [req])).
Proof.
  intros req missing. subst req missing.
  unfold serve, HackerNews.get_story_item, HackerNews.fetch_item, try_except,
    mbind, M_bind, bind, client_get, call_fails.
  split; [|split].
  - destruct (net _) as [msg|r]; [reflexivity|]. intros Hfail.
    apply negb_true_iff in Hfail. unfold raise_for_status. by rewrite Hfail.
  - intros r j -> Hok Hbody Hfalsy. unfold raise_for_status, resp_json.
    rewrite Hok, Hbody. simpl. by rewrite Hfalsy.
  - intros r j story -> Hok Hbody Htruthy Hstory. unfold raise_for_status, resp_json.
    rewrite Hok, Hbody. simpl. rewrite Htruthy.
    rewrite (silent_Story_of j _), Hstory. reflexivity.
Qed.

(** X8.  [GET /user/{user_id}]: a user the upstream does not know, for whom it
    delivers [null], is a 404 that names the user; a payload that validates
    as a [User] is answered with that user. *)
Theorem user_outcomes (user_id : string) (r : response) (j : json) :
  let req := get (HackerNews.user_url user_id) in
  net req = Reply r -> is_success r = true -> json_body r = Some j ->
  (truthy j = false ->
   serve (HackerNews.get_hn_user net user_id) =
     (Error 404 ("User '" +:+ user_id +:+ "' not found"), [req])) /\
  (forall user,
     truthy j = true ->
     HackerNews.User_of j [] = (Return user, []) ->
     serve (HackerNews.get_hn_user net user_id) = (Ok200 user, [req])).
Proof.
  intros req Hnet Hok Hbody. subst req.
  unfold serve, HackerNews.get_hn_user, HackerNews.fetch_user, try_except,
    mbind, M_bind, bind, client_get, raise_for_status, resp_json.
  rewrite Hnet, Hok, Hbody. simpl. split.
  - intros ->. reflexivity.
  - intros user -> Huser. simpl. rewrite (silent_User_of j _), Huser. reflexivity.
Qed.

End HackerNewsItems.

(** A comment is served by [/item/{item_id}] as a story of type [comment]. *)
Lemma item_outcomes_witness :
  serve (HackerNews.get_story_item
           (always (ok_response (JDict [("id", JInt 2921983); ("type", JStr "comment");
                                        ("by", JStr "norvig")])))
           2921983) =
    (Ok200 {| HackerNews.id := 2921983; HackerNews.title := "N/A";
              HackerNews.url := None; HackerNews.by_ := "norvig";
              HackerNews.score := 0; HackerNews.time := 0;
              HackerNews.type := "comment"; HackerNews.descendants := 0 |},
     [get "https://hacker-news.firebaseio.com/v0/item/2921983.json"]).
Proof.
  pose proof (item_outcomes
                (always (ok_response (JDict [("id", JInt 2921983); ("type", JStr "comment");
                                             ("by", JStr "norvig")])))
                2921983) as (_ & _ & H).
  apply (H (ok_response (JDict [("id", JInt 2921983); ("type", JStr "comment");
                                ("by", JStr "norvig")]))
           (JDict [("id", JInt 2921983); ("type", JStr "comment"); ("by", JStr "norvig")]));
    reflexivity.
Defined.

Lemma stories_requests_witness :
  exists stories,
    HackerNews.get_stories_by_type mixed_net "top" [] =
      (Return stories,
       [get "https://hacker-news.firebaseio.com/v0/topstories.json";
        get "https://hacker-news.firebaseio.com/v0/item/1.json";
        get "https://hacker-news.firebaseio.com/v0/item/2.json";
        get "https://hacker-news.firebaseio.com/v0/item/3.json"]).
Proof.
  destruct (HackerNews.get_stories_by_type mixed_net "top" []) as [[stories|e] tr] eqn:E;
    [|vm_compute in E; discriminate].
  exists stories. f_equal.
  apply (stories_requests mixed_net "top"
           (ok_response (JList [JInt 1; JInt 2; JInt 3])) [JInt 1; JInt 2; JInt 3]
           stories tr eq_refl eq_refl E).
Defined.

(** The user [nobody], for whom the upstream delivers [null], and the user
    [pg]. *)
Lemma user_outcomes_witness :
  serve (HackerNews.get_hn_user (always (ok_response JNull)) "nobody") =
    (Error 404 "User 'nobody' not found",
     [get "https://hacker-news.firebaseio.com/v0/user/nobody.json"]) /\
  serve (HackerNews.get_hn_user
           (always (ok_response (JDict [("id", JStr "pg"); ("created", JInt 1160418092);
                                        ("karma", JInt 155111)])))
           "pg") =
    (Ok200 {| HackerNews.user_id := "pg"; HackerNews.created := 1160418092;
              HackerNews.karma := 155111; HackerNews.about := None;
              HackerNews.submitted := [] |},
     [get "https://hacker-news.firebaseio.com/v0/user/pg.json"]).
Proof.
  destruct (user_outcomes (always (ok_response JNull)) "nobody" (ok_response JNull) JNull
              eq_refl eq_refl eq_refl) as (Hnull & _).
  destruct (user_outcomes
              (always (ok_response (JDict [("id", JStr "pg"); ("created", JInt 1160418092);
                                           ("karma", JInt 155111)])))
              "pg"
              (ok_response (JDict [("id", JStr "pg"); ("created", JInt 1160418092);
                                   ("karma", JInt 155111)]))
              (JDict [("id", JStr "pg"); ("created", JInt 1160418092);
                      ("karma", JInt 155111)])
              eq_refl eq_refl eq_refl) as (_ & Huser).
  split; [apply Hnull; reflexivity | apply Huser; reflexivity].
Defined.

(** ** Stack Overflow: the lookup by name *)

Section Lookup.
Context (environ : gmap string string) (net : network).

Lemma lookup_found (username : string) (r : response) (kw fields : list (string * json))
    (rest : list json) (uid : json) (tr : trace) :
  net (get (StackOverflow.lookup_url username)) = Reply r ->
  is_success r = true -> json_body r = Some (JDict kw) ->
  lookup_field "items" kw = Some (JList (JDict fields :: rest)) ->
  lookup_field "user_id" fields = Some uid ->
  StackOverflow.get_user_id_from_username net username tr =
    (Return uid, tr ++ [get (StackOverflow.lookup_url username)]).
Proof.
  intros Hnet Hok Hbody Hitems Huid.
  unfold StackOverflow.get_user_id_from_username, try_except,
    mbind, M_bind, bind, client_get, raise_for_status, resp_json.
  rewrite Hnet, Hok, Hbody. simpl. rewrite Hitems. simpl. by rewrite Huid.
Qed.

(** X9.  A lookup that finds nobody, because the reply has no [items] or an empty
    list of them, is a 404 that names the user; one that finds users yields
    the [user_id] of the first. *)
Theorem lookup_outcomes (username : string) (r : response) (kw : list (string * json))
    (tr : trace) :
  let req := get (StackOverflow.lookup_url username) in
  let items := from_option id (JList []) (lookup_field "items" kw) in
  net req = Reply r -> is_success r = true -> json_body r = Some (JDict kw) ->
  (truthy items = false ->
   StackOverflow.get_user_id_from_username net username tr =
     (Raise (HTTPException 404 ("Stack Overflow user '" +:+ username +:+ "' not found")),
      tr ++ [req])) /\
  (forall fields rest uid,
     items = JList (JDict fields :: rest) ->
     lookup_field "user_id" fields = Some uid ->
     StackOverflow.get_user_id_from_username net username tr = (Return uid, tr ++ [req])).
Proof.
  intros req items Hnet Hok Hbody. subst req.
  unfold StackOverflow.get_user_id_from_username, try_except,
    mbind, M_bind, bind, client_get, raise_for_status, resp_json.
  rewrite Hnet, Hok, Hbody. simpl. fold items. split.
  - intros ->. reflexivity.
  - intros fields rest uid -> Huid. simpl. by rewrite Huid.
Qed.

(** X10.  A request by name is the lookup call followed by the request for the
    user it finds: with no default id configured, [/questions] and
    [/answers] for a [username] go on, after the lookup, as they do for the
    [user_id] found. *)
Theorem name_request_is_lookup_then_id_request (username : string) (r : response)
    (kw fields : list (string * json)) (rest : list json) (uid : Z) :
  let req := get (StackOverflow.lookup_url username) in
  truthy_str (StackOverflow.DEFAULT_USER_ID environ) = false ->
  username <> "" ->
  net req = Reply r -> is_success r = true -> json_body r = Some (JDict kw) ->
  lookup_field "items" kw = Some (JList (JDict fields :: rest)) ->
  lookup_field "user_id" fields = Some (JInt uid) ->
  uid <> 0 ->
  StackOverflow.fetch_questions environ net None (Some username) [] =
    StackOverflow.fetch_questions environ net (Some uid) None [req] /\
  StackOverflow.fetch_answers environ net None (Some username) [] =
    StackOverflow.fetch_answers environ net (Some uid) None [req].
Proof.
  intros req Hdefault Hname Hnet Hok Hbody Hitems Huid Hnz.
  pose proof (lookup_found username r kw fields rest (JInt uid) [] Hnet Hok Hbody Hitems Huid)
    as Hfound.
  assert (StackOverflow.resolve_user_id environ net None (Some username) []
          = (Return (JInt uid), [req])) as Hname_run.
  { unfold StackOverflow.resolve_user_id. cbn [truthy_int]. rewrite Hdefault.
    cbn [truthy_str]. rewrite (nonempty_true _ Hname). exact Hfound. }
  assert (StackOverflow.resolve_user_id environ net (Some uid) None [req]
          = (Return (JInt uid), [req])) as Hid_run.
  { unfold StackOverflow.resolve_user_id. cbn [truthy_int].
    apply Z.eqb_neq in Hnz. by rewrite Hnz. }
  unfold StackOverflow.fetch_questions, StackOverflow.fetch_answers.
  split.
  - erewrite run_bind by exact Hname_run. erewrite run_bind by exact Hid_run. reflexivity.
  - erewrite run_bind by exact Hname_run. erewrite run_bind by exact Hid_run. reflexivity.
Qed.

End Lookup.

Lemma lookup_outcomes_witness :
  StackOverflow.get_user_id_from_username (always (ok_response (JDict [("items", JList [])])))
    "nobody" [] =
    (Raise (HTTPException 404 "Stack Overflow user 'nobody' not found"),
     [get (StackOverflow.lookup_url "nobody")]).
Proof.
  destruct (lookup_outcomes (always (ok_response (JDict [("items", JList [])]))) "nobody"
              (ok_response (JDict [("items", JList [])])) [("items", JList [])] []
              eq_refl eq_refl eq_refl) as (H & _).
  by apply H.
Defined.

Lemma name_request_is_lookup_then_id_request_witness :
  StackOverflow.fetch_questions ∅ stack_net None (Some "jon") [] =
    StackOverflow.fetch_questions ∅ stack_net (Some 22656) None
      [get (StackOverflow.lookup_url "jon")].
Proof.
  apply (name_request_is_lookup_then_id_request ∅ stack_net "jon"
           (ok_response (JDict [("items", JList [JDict [("user_id", JInt 22656);
                                                        ("display_name", JStr "Jon Skeet")]])]))
           [("items", JList [JDict [("user_id", JInt 22656);
                                    ("display_name", JStr "Jon Skeet")]])]
           [("user_id", JInt 22656); ("display_name", JStr "Jon Skeet")] [] 22656);
    reflexivity || discriminate.
Defined.

(** ** Codeforces: user records *)

Lemma UserInfo_of_return local_time kw u tr tr' :
  Codeforces.UserInfo_of local_time (JDict kw) tr = (Return u, tr') ->
  exists last_online,
    Codeforces.format_time local_time
      (from_option id JNull (lookup_field "lastOnlineTimeSeconds" kw)) tr
      = (Return last_online, tr) /\
    lookup_field "handle" kw = Some (JStr (Codeforces.handle u)) /\
    Codeforces.profileLink u = "https://codeforces.com/profile/" +:+ Codeforces.handle u /\
    as_optional as_str last_online [] = (Return (Codeforces.lastOnline u), []).
Proof.
  intros H. unfold Codeforces.UserInfo_of in H.
  erewrite run_bind in H by reflexivity.
  erewrite run_bind in H by reflexivity.
  apply bind_return_inv in H as (last_online & t1 & Hlast & H).
  pose proof (silent_format_time local_time
                (from_option id JNull (lookup_field "lastOnlineTimeSeconds" kw)) tr) as Hs.
  rewrite Hlast in Hs. injection Hs as Hs <-.
  apply bind_return_inv in H as (h & t2 & Hh & H).
  unfold py_getitem in Hh.
  destruct (lookup_field "handle" kw) as [h'|] eqn:Ehandle; [|discriminate].
  injection Hh as -> <-.
  apply bind_return_inv in H as (kw1 & t3 & Hkw1 & H).
  unfold kwargs_extend in Hkw1.
  destruct (lookup_field "lastOnline" kw) eqn:Elast; [discriminate|].
  injection Hkw1 as <- <-.
  apply bind_return_inv in H as (kw2 & t4 & Hkw2 & H).
  unfold kwargs_extend in Hkw2.
  destruct (lookup_field "profileLink" (kw ++ [("lastOnline", last_online)])) eqn:Elink;
    [discriminate|].
  injection Hkw2 as <- <-.
  apply bind_return_inv in H as (handle & t5 & Hhandle & H).
  apply required_return in Hhandle as (x & Hx & Hhandle).
  apply as_str_return in Hhandle as ->.
  rewrite (lookup_field_app_l _ _ _ _ (lookup_field_app_l _ _ _ _ Ehandle)) in Hx.
  injection Hx as ->.
  do 8 bind_inv H.
  apply bind_return_inv in H as (lastOnline & t6 & HlastOnline & H).
  apply bind_return_inv in H as (profileLink & t7 & Hprofile & H).
  injection H as <- _. simpl.
  exists last_online. split; [exact Hlast|]. split; [reflexivity|]. split.
  - apply required_return in Hprofile as (x & Hx & Hprofile).
    apply as_str_return in Hprofile as ->.
    rewrite (lookup_field_app_r _ _ _ Elink) in Hx. simpl in Hx. by injection Hx as <-.
  - unfold defaulted in HlastOnline.
    erewrite lookup_field_app_l in HlastOnline
      by (rewrite (lookup_field_app_r _ _ _ Elast); reflexivity).
    pose proof (silent_as_optional as_str last_online silent_as_str) as Hsil.
    rewrite (Hsil _) in HlastOnline. injection HlastOnline as Hlo _.
    rewrite (Hsil []). by rewrite Hlo.
Qed.

Section UserInfo.
Context (environ : gmap string string) (net : network) (local_time : Z -> option string).

(** X11.  The record of a Codeforces user, on both user endpoints: its handle is
    the one the upstream reports, its profile link is the profile page of
    that handle, and its last-online time is the upstream's timestamp in
    local time, absent when the upstream reports none or reports 0. *)
Theorem userinfo_shape (handle : string) (r : response) (body kw : list (string * json))
    (rest : list json) :
  net (get (Codeforces.user_info_url handle)) = Reply r ->
  json_body r = Some (JDict body) ->
  lookup_field "result" body = Some (JList (JDict kw :: rest)) ->
  forall u tr,
    Codeforces.get_user_info net local_time handle [] = (Return u, tr) \/
    (Codeforces.DEFAULT_CODEFORCES_HANDLE environ = handle /\
     Codeforces.get_default_user_info environ net local_time [] = (Return u, tr)) ->
    lookup_field "handle" kw = Some (JStr (Codeforces.handle u)) /\
    Codeforces.profileLink u = "https://codeforces.com/profile/" +:+ Codeforces.handle u /\
    (lookup_field "lastOnlineTimeSeconds" kw = None -> Codeforces.lastOnline u = None) /\
    (forall t,
       lookup_field "lastOnlineTimeSeconds" kw = Some (JInt t) ->
       Codeforces.lastOnline u = if t =? 0 then None else local_time t).
Proof.
  intros Hnet Hbody Hresult u tr H.
  assert (exists t1 t2, Codeforces.UserInfo_of local_time (JDict kw) t1 = (Return u, t2))
    as (t1 & t2 & Hu).
  { destruct H as [H | [Hdefault H]].
    - unfold Codeforces.get_user_info in H.
      apply try_return_inv in H; [|intros [] h ? ? ? [= <-]; discriminate].
      erewrite run_bind in H by (by apply client_get_reply).
      apply bind_return_inv in H as ([] & t & _ & H).
      unfold resp_json in H. rewrite Hbody in H.
      erewrite run_bind in H by reflexivity.
      erewrite run_bind in H by (unfold py_getitem; rewrite Hresult; reflexivity).
      erewrite run_bind in H by reflexivity. eauto.
    - unfold Codeforces.get_default_user_info in H. rewrite Hdefault in H.
      destruct (negb (nonempty handle)); [discriminate|].
      apply try_return_inv in H; [|intros [] h ? ? ? [= <-]; discriminate].
      erewrite run_bind in H by (by apply client_get_reply).
      apply bind_return_inv in H as ([] & t & _ & H).
      unfold resp_json in H. rewrite Hbody in H.
      erewrite run_bind in H by reflexivity.
      erewrite run_bind in H by (unfold py_getitem; rewrite Hresult; reflexivity).
      erewrite run_bind in H by reflexivity. eauto. }
  apply UserInfo_of_return in Hu as (last_online & Hlast & Hhandle & Hlink & Hshown).
  split; [exact Hhandle|]. split; [exact Hlink|]. split.
  - intros Hnone. rewrite Hnone in Hlast. injection Hlast as <-.
    by injection Hshown as <-.
  - intros t Ht. rewrite Ht in Hlast. unfold Codeforces.format_time in Hlast. simpl in Hlast.
    destruct (t =? 0); simpl in Hlast.
    + injection Hlast as <-. by injection Hshown as <-.
    + destruct (local_time t) as [shown|]; [|discriminate].
      injection Hlast as <-. by injection Hshown as <-.
Qed.

(** X12.  A reply without a usable [result]: the contests endpoint reports the
    missing key with a 500, the user endpoint reports the user as not found,
    also when [result] is an empty list. *)
Theorem reply_without_result (handle : string) (r : response) (body : list (string * json)) :
  is_success r = true ->
  json_body r = Some (JDict body) ->
  (net (get Codeforces.contests_url) = Reply r ->
   lookup_field "result" body = None ->
   serve (Codeforces.get_contests net) =
     (Error 500 "Failed to fetch or parse contests: 'result'",
      [get Codeforces.contests_url])) /\
  (net (get (Codeforces.user_info_url handle)) = Reply r ->
   lookup_field "result" body = None \/ lookup_field "result" body = Some (JList []) ->
   serve (Codeforces.get_user_info net local_time handle) =
     (Error 404 ("Codeforces user '" +:+ handle +:+ "' not found."),
      [get (Codeforces.user_info_url handle)])).
Proof.
  intros Hok Hbody. split.
  - intros Hnet Hnone.
    unfold serve, Codeforces.get_contests, try_except, mbind, M_bind, bind, client_get,
      raise_for_status, resp_json, py_getitem.
    rewrite Hnet, Hok, Hbody. simpl. rewrite Hnone. reflexivity.
  - intros Hnet Hnone.
    unfold serve, Codeforces.get_user_info, try_except, mbind, M_bind, bind, client_get,
      raise_for_status, resp_json, py_getitem.
    rewrite Hnet, Hok, Hbody. simpl. by destruct Hnone as [-> | ->].
Qed.

End UserInfo.

Lemma userinfo_shape_witness :
  exists u tr,
    Codeforces.get_user_info tourist_net utc_clock "Tourist" [] = (Return u, tr) /\
    Codeforces.handle u = "tourist" /\
    Codeforces.profileLink u = "https://codeforces.com/profile/tourist" /\
    Codeforces.lastOnline u = Some "2023-11-14 22:13:20".
Proof.
  destruct (Codeforces.get_user_info tourist_net utc_clock "Tourist" []) as [[u|e] tr] eqn:E;
    [|vm_compute in E; discriminate].
  exists u, tr. split; [reflexivity|].
  destruct (userinfo_shape ∅ tourist_net utc_clock "Tourist"
              (ok_response (JDict [("status", JStr "OK"); ("result", JList [tourist])]))
              [("status", JStr "OK"); ("result", JList [tourist])]
              [("handle", JStr "tourist"); ("rating", JInt 3979);
               ("rank", JStr "legendary grandmaster");
               ("lastOnlineTimeSeconds", JInt 1700000000)]
              [] eq_refl eq_refl eq_refl u tr (or_introl E))
    as (Hhandle & Hlink & _ & Hlast).
  injection Hhandle as Hhandle. rewrite Hlink, <- Hhandle.
  split; [reflexivity|]. split; [reflexivity|].
  apply (Hlast 1700000000). reflexivity.
Defined.

Lemma reply_without_result_witness :
  serve (Codeforces.get_user_info
           (always (ok_response (JDict [("status", JStr "OK"); ("result", JList [])])))
           utc_clock "nobody") =
    (Error 404 "Codeforces user 'nobody' not found.",
     [get "https://codeforces.com/api/user.info?handles=nobody"]).
Proof.
  destruct (reply_without_result
              (always (ok_response (JDict [("status", JStr "OK"); ("result", JList [])])))
              utc_clock "nobody"
              (ok_response (JDict [("status", JStr "OK"); ("result", JList [])]))
              [("status", JStr "OK"); ("result", JList [])] eq_refl eq_refl) as (_ & H).
  apply H; [reflexivity | by right].
Defined.

(** ** GeeksForGeeks: statistics *)

Section Stats.
Context (net : network) (BeautifulSoup : string -> option (list GFG.node))
  (str_exn : exn -> string).

(** X13.  The two handlers of the adapter catch every exception: whatever the
    upstream sends, the only exception that leaves [/stats/{username}] is an
    [HTTPException], and the only one that leaves [/potd] is the scraper's
    500. *)
Theorem gfg_raises_http_exceptions_only (username : string) (tr : trace) :
  (forall e tr',
     GFG.get_gfg_stats net str_exn username tr = (Raise e, tr') ->
     exists status detail, e = HTTPException status detail) /\
  (forall e tr',
     GFG.get_gfg_potd net BeautifulSoup tr = (Raise e, tr') ->
     e = HTTPException 500 "Failed to fetch or parse the GFG POTD page.").
Proof.
  split; intros e tr'.
  - unfold GFG.get_gfg_stats, try_except.
    match goal with |- context [let (_, _) := ?body tr in _] => destruct (body tr) as [[a|e0] t] end;
      [discriminate|].
    destruct e0; intros [= <- _]; eauto.
  - unfold GFG.get_gfg_potd, try_except.
    match goal with |- context [let (_, _) := ?body tr in _] => destruct (body tr) as [[a|e0] t] end;
      [discriminate|].
    by intros [= <- _].
Qed.

(** X14.  The statistics of a user are read key by key from the upstream's
    object: [totalSolved] from [totalProblemsSolved], the others from the
    keys of their own name.  A key that is absent or [null] gives an absent
    value, not an error. *)
Theorem stats_fields (username : string) (r : response) (kw : list (string * json))
    (total easy medium hard : option Z) :
  net (get (GFG.stats_url username)) = Reply r ->
  is_success r = true ->
  json_body r = Some (JDict kw) ->
  optional_int (lookup_field "totalProblemsSolved" kw) = Some total ->
  optional_int (lookup_field "easy" kw) = Some easy ->
  optional_int (lookup_field "medium" kw) = Some medium ->
  optional_int (lookup_field "hard" kw) = Some hard ->
  serve (GFG.get_gfg_stats net str_exn username) =
    (Ok200 {| GFG.totalSolved := total; GFG.easy := easy; GFG.medium := medium;
              GFG.hard := hard |},
     [get (GFG.stats_url username)]).
Proof.
  intros Hnet Hok Hbody Htotal Heasy Hmedium Hhard.
  unfold serve, GFG.get_gfg_stats, try_except, mbind, M_bind, bind, client_get,
    raise_for_status, resp_json.
  rewrite Hnet, Hok, Hbody. simpl.
  destruct (lookup_field "totalProblemsSolved" kw) as [[]|]; simpl in Htotal; try discriminate;
  destruct (lookup_field "easy" kw) as [[]|]; simpl in Heasy; try discriminate;
  destruct (lookup_field "medium" kw) as [[]|]; simpl in Hmedium; try discriminate;
  destruct (lookup_field "hard" kw) as [[]|]; simpl in Hhard; try discriminate;
  simplify_eq; reflexivity.
Qed.

End Stats.

Lemma stats_fields_witness :
  serve (GFG.get_gfg_stats
           (always (ok_response (JDict [("totalProblemsSolved", JInt 120); ("easy", JInt 80);
                                        ("hard", JNull)])))
           (fun _ => "") "me") =
    (Ok200 {| GFG.totalSolved := Some 120; GFG.easy := Some 80; GFG.medium := None;
              GFG.hard := None |},
     [get "https://geeks-for-geeks-stats-api.vercel.app/?raw=y&userName=me"]).
Proof.
  apply (stats_fields
           (always (ok_response (JDict [("totalProblemsSolved", JInt 120); ("easy", JInt 80);
                                        ("hard", JNull)])))
           (fun _ => "") "me"
           (ok_response (JDict [("totalProblemsSolved", JInt 120); ("easy", JInt 80);
                                ("hard", JNull)]))
           [("totalProblemsSolved", JInt 120); ("easy", JInt 80); ("hard", JNull)]);
    reflexivity.
Defined.

(** ** Lists shaped item by item *)

Lemma for_each_return_inv {A B} (f : A -> M B) xs tr ys tr' :
  for_each f xs tr = (Return ys, tr') ->
  Forall2 (fun x y => exists t t', f x t = (Return y, t')) xs ys.
Proof.
  revert tr ys tr'. induction xs as [|x xs IH]; simpl; intros tr ys tr' H.
  - injection H as <- _. constructor.
  - apply bind_return_inv in H as (y & t1 & Hy & H).
    apply bind_return_inv in H as (ys' & t2 & Hrest & H).
    injection H as <- _. constructor; eauto.
Qed.

Lemma py_getitem_return x k v tr tr' :
  py_getitem x k tr = (Return v, tr') ->
  exists kw, x = JDict kw /\ lookup_field k kw = Some v.
Proof.
  destruct x as [| | | | |kw]; try discriminate. simpl.
  destruct (lookup_field k kw) as [w|] eqn:E; [|discriminate]. intros [= <- _]. eauto.
Qed.

(** ** GitHub: my pull requests *)

Lemma Issue_response_return x i tr tr' :
  Github.Issue_response x tr = (Return i, tr') ->
  exists kw,
    x = JDict kw /\
    lookup_field "id" kw = Some (JInt (Github.issue_id i)) /\
    lookup_field "title" kw = Some (JStr (Github.title i)) /\
    lookup_field "url" kw = Some (JStr (Github.issue_url i)).
Proof.
  destruct x as [| | | | |kw]; try discriminate. simpl. intros H.
  apply bind_return_inv in H as (id & t1 & Hid & H).
  apply bind_return_inv in H as (title & t2 & Htitle & H).
  apply bind_return_inv in H as (url & t3 & Hurl & H).
  injection H as <- _. simpl.
  apply required_return in Hid as (x & Hx & Hid). apply as_int_return in Hid as ->.
  apply required_return in Htitle as (y & Hy & Htitle). apply as_str_return in Htitle as ->.
  apply required_return in Hurl as (z & Hz & Hurl). apply as_str_return in Hurl as ->.
  exists kw. by repeat split.
Qed.

Section MyPulls.
Context (environ : gmap string string) (net : network).

(** X15.  [GET /pulls] asks the upstream who the token belongs to and then
    searches the open pull requests that involve that login.  The items of
    the search come back as they are, one record per item in upstream
    order: the [url] of a record is the item's [url] field, where
    [GET /issues] takes [html_url]. *)
Theorem my_pulls_search (token : string) (r1 r2 : response) (user body : list (string * json))
    (login : json) (items : list json) :
  let headers := [("Authorization", "Bearer " +:+ token);
                  ("Accept", "application/vnd.github.v3+json")] in
  let user_request := Request (Github.BASE_URL +:+ "/user") headers [] None in
  let search_request := Request (Github.search_url login) headers [] None in
  environ !! "GITHUB_TOKEN" = Some token -> token <> "" ->
  net user_request = Reply r1 -> is_success r1 = true ->
  json_body r1 = Some (JDict user) -> lookup_field "login" user = Some login ->
  net search_request = Reply r2 -> is_success r2 = true ->
  json_body r2 = Some (JDict body) -> lookup_field "items" body = Some (JList items) ->
  forall pulls tr,
    Github.fetch_my_pull_requests environ net [] = (Return pulls, tr) ->
    tr = [user_request; search_request] /\
    Forall2 (fun item pull =>
               exists kw,
                 item = JDict kw /\
                 lookup_field "id" kw = Some (JInt (Github.issue_id pull)) /\
                 lookup_field "title" kw = Some (JStr (Github.title pull)) /\
                 lookup_field "url" kw = Some (JStr (Github.issue_url pull)))
      items pulls.
Proof.
  intros headers user_request search_request Htoken Hne Hnet1 Hok1 Hbody1 Hlogin
    Hnet2 Hok2 Hbody2 Hitems pulls tr H.
  assert (Github.get_headers environ = ret headers) as Hheaders.
  { unfold Github.get_headers, Github.TOKEN, getenv. rewrite Htoken. simpl.
    by rewrite (nonempty_true _ Hne). }
  unfold Github.fetch_my_pull_requests in H. rewrite Hheaders in H.
  erewrite run_bind in H; cycle 1.
  { apply run_try_return.
    erewrite run_bind by reflexivity.
    erewrite run_bind by (by apply client_get_reply).
    erewrite run_bind by (by apply raise_for_status_success).
    erewrite run_bind by (by apply resp_json_some).
    erewrite run_bind by (unfold py_getitem; rewrite Hlogin; reflexivity).
    erewrite run_bind by reflexivity.
    erewrite run_bind by (by apply client_get_reply).
    erewrite run_bind by (by apply raise_for_status_success).
    erewrite run_bind by (by apply resp_json_some).
    erewrite run_bind by (unfold py_get; rewrite Hitems; reflexivity).
    erewrite run_bind by reflexivity.
    reflexivity. }
  simpl in H. split.
  - rewrite (silent_for_each _ _ silent_Issue_response) in H. by injection H as _ <-.
  - apply for_each_return_inv in H.
    eapply Forall2_impl; [exact H|].
    intros item pull (t & t' & Hpull). by eapply Issue_response_return.
Qed.

End MyPulls.

Lemma my_pulls_search_witness :
  exists pulls tr,
    Github.fetch_my_pull_requests github_environ github_net [] = (Return pulls, tr) /\
    map req_url tr =
      ["https://api.github.com/user";
       "https://api.github.com/search/issues?q=is:pr is:open involves:octocat&sort=updated&per_page=10"] /\
    map Github.issue_url pulls = ["https://api.github.com/repos/octocat/hello/issues/1"].
Proof.
  destruct (Github.fetch_my_pull_requests github_environ github_net [])
    as [[pulls|e] tr] eqn:E; [|vm_compute in E; discriminate].
  exists pulls, tr. split; [reflexivity|].
  destruct (my_pulls_search github_environ github_net "ghp_token"
              (ok_response (JDict [("login", JStr "octocat")]))
              (ok_response (JDict [("total_count", JInt 1); ("items", JList [octocat_pull])]))
              [("login", JStr "octocat")]
              [("total_count", JInt 1); ("items", JList [octocat_pull])]
              (JStr "octocat") [octocat_pull]
              eq_refl ltac:(discriminate) eq_refl eq_refl eq_refl eq_refl
              eq_refl eq_refl eq_refl eq_refl pulls tr E) as (-> & Hall).
  split; [reflexivity|].
  inversion Hall as [|item pull items' pulls' (kw & Hitem & _ & _ & Hurl) Hrest]; subst.
  inversion Hrest; subst. injection Hitem as <-. simpl in Hurl. injection Hurl as Hurl.
  simpl. by rewrite <- Hurl.
Defined.

(** ** DEV.to: tags *)

Lemma py_join_return xs tr s tr' :
  Devto.py_join xs tr = (Return s, tr') ->
  exists tags, xs = map JStr tags /\ s = String.concat ", " tags.
Proof.
  revert tr s tr'. induction xs as [|x xs IH]; intros tr s tr' H.
  - injection H as <- _. by exists [].
  - destruct x as [| | |t| |]; try discriminate.
    destruct xs as [|y ys].
    + injection H as <- _. by exists [t].
    + cbn [Devto.py_join] in H.
      apply bind_return_inv in H as (joined & t1 & Hjoined & H).
      injection H as <- _.
      apply IH in Hjoined as (tags & Htags & ->).
      exists (t :: tags). split; [by rewrite Htags|].
      destruct tags as [|t' tags]; [discriminate|]. reflexivity.
Qed.

Lemma Article_of_tags a article tr tr' :
  Devto.Article_of a tr = (Return article, tr') ->
  exists kw,
    a = JDict kw /\
    match lookup_field "tag_list" kw with
    | Some (JList items) =>
        exists tags, items = map JStr tags /\
                     Devto.tags article = Some (String.concat ", " tags)
    | _ => Devto.tags article = Some ""
    end.
Proof.
  intros H. unfold Devto.Article_of in H.
  apply bind_return_inv in H as (id & t1 & Hid & H).
  apply py_getitem_return in Hid as (kw & -> & Hid).
  exists kw. split; [reflexivity|].
  do 3 (erewrite run_bind in H by reflexivity).
  apply bind_return_inv in H as (author & t2 & _ & H).
  erewrite run_bind in H by reflexivity.
  apply bind_return_inv in H as (tags & t3 & Htags & H).
  do 4 bind_inv H. injection H as <- _. simpl.
  unfold py_get in Htags.
  destruct (lookup_field "tag_list" kw) as [[| | | |items|]|]; simpl in Htags;
    try (by injection Htags as <- _).
  apply py_join_return in Htags as (ts & -> & ->). eauto.
Qed.

(** X16.  The [tags] of an article are never absent: they are the upstream's
    [tag_list] joined by a comma and a space when that is a list (of
    strings, or the article is refused), and the empty string when the key
    is missing or holds something else. *)
Theorem article_tags (environ : gmap string string) (net : network) (article_id : Z)
    (r : response) (a : json) (article : Devto.Article) (tr : trace) :
  (forall req,
     req_url req = Devto.BASE_URL +:+ "/articles/" +:+ str_int article_id ->
     net req = Reply r) ->
  json_body r = Some a ->
  Devto.fetch_single_article environ net article_id [] = (Return article, tr) ->
  exists kw,
    a = JDict kw /\
    match lookup_field "tag_list" kw with
    | Some (JList items) =>
        exists tags, items = map JStr tags /\
                     Devto.tags article = Some (String.concat ", " tags)
    | _ => Devto.tags article = Some ""
    end.
Proof.
  intros Hnet Hbody H. unfold Devto.fetch_single_article in H.
  apply bind_return_inv in H as (resp & t1 & Hresp & H).
  apply try_return_inv in Hresp;
    [|intros [] h ? ? ? Hh; repeat case_match; simplify_eq; discriminate].
  apply bind_return_inv in Hresp as (headers & t2 & _ & Hresp).
  apply bind_return_inv in Hresp as (resp' & t3 & Hget & Hresp).
  unfold client_get in Hget. rewrite Hnet in Hget by reflexivity. injection Hget as <- _.
  apply bind_return_inv in Hresp as ([] & t4 & _ & Hresp). injection Hresp as <- _.
  unfold resp_json in H. rewrite Hbody in H. erewrite run_bind in H by reflexivity.
  by eapply Article_of_tags.
Qed.

Lemma article_tags_witness :
  exists article tr,
    Devto.fetch_single_article {[ "DEVTO_API_KEY" := "key" ]}
      (always (ok_response tagged_article)) 7 [] = (Return article, tr) /\
    Devto.tags article = Some "rocq, proofs".
Proof.
  destruct (Devto.fetch_single_article {[ "DEVTO_API_KEY" := "key" ]}
              (always (ok_response tagged_article)) 7 [])
    as [[article|e] tr] eqn:E; [|vm_compute in E; discriminate].
  exists article, tr. split; [reflexivity|].
  destruct (article_tags {[ "DEVTO_API_KEY" := "key" ]} (always (ok_response tagged_article))
              7 (ok_response tagged_article) tagged_article article tr
              (fun _ _ => eq_refl) eq_refl E) as (kw & Hkw & H).
  injection Hkw as <-. simpl in H. destruct H as (tags & Htags & ->).
  destruct tags as [|t1 [|t2 [|]]]; try discriminate.
  by injection Htags as <- <-.
Defined.

(** ** Kaggle: dataset links *)

Lemma Dataset_of_link d dataset tr tr' :
  Kaggle.Dataset_of d tr = (Return dataset, tr') ->
  Kaggle.url dataset = "https://www.kaggle.com/datasets/" +:+ Kaggle.ref dataset.
Proof.
  intros H. unfold Kaggle.Dataset_of in H.
  apply bind_return_inv in H as (title & t1 & _ & H).
  apply bind_return_inv in H as (ref & t2 & Href & H).
  apply bind_return_inv in H as (ref' & t3 & Href' & H).
  apply bind_return_inv in H as (title' & t4 & _ & H).
  apply bind_return_inv in H as (ref'' & t5 & Hstr & H).
  injection H as <- _. simpl.
  apply py_getitem_return in Href as (kw & -> & Href).
  apply py_getitem_return in Href' as (kw' & [= <-] & Href').
  rewrite Href in Href'. injection Href' as <-.
  apply as_str_return in Hstr as ->. reflexivity.
Qed.

(** X17.  Every dataset [GET /datasets] returns links to the Kaggle page of its
    own [ref]. *)
Theorem dataset_links (environ : gmap string string) (net : network)
    (datasets : list Kaggle.Dataset) (tr : trace) :
  Kaggle.fetch_datasets environ net [] = (Return datasets, tr) ->
  Forall (fun dataset =>
            Kaggle.url dataset = "https://www.kaggle.com/datasets/" +:+ Kaggle.ref dataset)
    datasets.
Proof.
  intros H. unfold Kaggle.fetch_datasets in H.
  apply bind_return_inv in H as (auth & t1 & _ & H).
  apply try_return_inv in H; [|intros [] h ? ? ? [= <-]; discriminate].
  do 4 bind_inv H. apply for_each_return_inv in H.
  eapply Forall2_Forall_r; [exact H|]. apply Forall_forall.
  intros d _ dataset (t & t' & Hd). by eapply Dataset_of_link.
Qed.

Lemma dataset_links_witness :
  exists datasets tr,
    Kaggle.fetch_datasets kaggle_environ kaggle_net [] = (Return datasets, tr) /\
    Forall (fun dataset =>
              Kaggle.url dataset = "https://www.kaggle.com/datasets/" +:+ Kaggle.ref dataset)
      datasets.
Proof.
  destruct (Kaggle.fetch_datasets kaggle_environ kaggle_net []) as [[datasets|e] tr] eqn:E;
    [|vm_compute in E; discriminate].
  exists datasets, tr. split; [reflexivity|].
  exact (dataset_links kaggle_environ kaggle_net datasets tr E).
Defined.

(** ** PyPI and npm: the two endpoints of a package *)

Section Packages.
Context (net : network).

Lemma silent_trace {A} (m : M A) tr o tr' : silent m -> m tr = (o, tr') -> tr' = tr.
Proof. intros Hs H. rewrite (Hs tr) in H. by injection H as _ <-. Qed.

(** X18.  [/pypi/{package}/latest] agrees with [/pypi/{package}]: whenever the
    details endpoint returns a record, the latest-version endpoint returns
    one for the same upstream call, with the same version, and with the
    same name unless the upstream gave none. *)
Theorem pypi_latest_agrees (package_name : string) (info : Pypi.PackageInfo) (tr : trace) :
  Pypi.fetch_package_details net package_name [] = (Return info, tr) ->
  exists latest,
    Pypi.fetch_latest_version net package_name [] = (Return latest, tr) /\
    Pypi.latest_version latest = Pypi.version info /\
    (Pypi.package_name latest = Pypi.name info \/
     Pypi.name info = "No Name" /\ Pypi.package_name latest = package_name).
Proof.
  intros H. unfold Pypi.fetch_package_details in H.
  apply bind_return_inv in H as (resp & t1 & Hresp & H).
  apply try_return_inv in Hresp;
    [|intros [] h ? ? ? Hh; repeat case_match; simplify_eq; discriminate].
  apply bind_return_inv in Hresp as (resp' & t2 & Hget & Hresp).
  apply bind_return_inv in Hresp as ([] & t3 & Hstatus & Hresp). injection Hresp as <- <-.
  apply bind_return_inv in H as (body & t4 & Hbody & H).
  apply bind_return_inv in H as (data & t5 & Hdata & H).
  apply py_getitem_return in Hdata as Hinfo. destruct Hinfo as (bkw & -> & Hinfo).
  destruct data as [| | | | |kw]; try discriminate.
  apply silent_trace in Hdata as ->; [|auto with silent].
  do 5 (erewrite run_bind in H by reflexivity).
  apply bind_return_inv in H as (name & t6 & Hname & H).
  apply bind_return_inv in H as (version & t7 & Hversion & H).
  apply bind_return_inv in H as (summary & t8 & Hsummary & H).
  apply bind_return_inv in H as (author & t9 & Hauthor & H).
  apply bind_return_inv in H as (home_page & t10 & Hhome & H).
  injection H as <- <-. simpl.
  apply silent_trace in Hhome as ->; [|auto with silent].
  apply silent_trace in Hauthor as ->; [|auto with silent].
  apply silent_trace in Hsummary as ->; [|auto with silent].
  apply as_str_return in Hversion as Hv. apply silent_trace in Hversion as ->; [|auto with silent].
  apply as_str_return in Hname as Hn. apply silent_trace in Hname as ->; [|auto with silent].
  assert (forall latest_name,
            as_str (default (JStr package_name) (lookup_field "name" kw)) t4
              = (Return latest_name, t4) ->
            Pypi.fetch_latest_version net package_name [] =
              (Return {| Pypi.package_name := latest_name; Pypi.latest_version := version |},
               t4)) as Hlatest.
  { intros latest_name Hlatest. unfold Pypi.fetch_latest_version.
    erewrite run_bind; cycle 1.
    { apply run_try_return. erewrite run_bind by exact Hget.
      erewrite run_bind by exact Hstatus. reflexivity. }
    erewrite run_bind by exact Hbody.
    erewrite run_bind by (unfold py_getitem; rewrite Hinfo; reflexivity).
    erewrite run_bind by reflexivity.
    erewrite run_bind by reflexivity.
    erewrite run_bind by exact Hlatest.
    erewrite run_bind by (unfold py_get; cbn [from_option id]; rewrite Hv; reflexivity).
    reflexivity. }
  destruct (lookup_field "name" kw) as [x|]; simpl in Hn, Hlatest.
  - subst x. eexists. split; [by apply Hlatest|]. split; [reflexivity | by left].
  - injection Hn as <-. eexists. split; [by apply Hlatest|].
    split; [reflexivity | by right].
Qed.

(** X19.  [/npm/{package}/latest] agrees with [/npm/{package}]: whenever the
    details endpoint returns a record, the latest-version endpoint returns
    that record's name and latest version, for the same upstream call. *)
Theorem npm_latest_agrees (package_name : string) (package : Npm.NpmPackage) (tr : trace) :
  Npm.fetch_npm_package net package_name [] = (Return package, tr) ->
  Npm.fetch_npm_latest net package_name [] =
    (Return {| Npm.package_name := Npm.name package;
               Npm.l_latest_version := Npm.latest_version package |}, tr).
Proof.
  intros H. unfold Npm.fetch_npm_package in H.
  apply bind_return_inv in H as (resp & t1 & Hresp & H).
  apply try_return_inv in Hresp;
    [|intros [] h ? ? ? Hh; repeat case_match; simplify_eq; discriminate].
  apply bind_return_inv in Hresp as (resp' & t2 & Hget & Hresp).
  apply bind_return_inv in Hresp as ([] & t3 & Hstatus & Hresp). injection Hresp as <- <-.
  apply bind_return_inv in H as (data & t4 & Hbody & H).
  apply bind_return_inv in H as (dist_tags & t5 & Htags & H).
  apply bind_return_inv in H as (latest & t6 & Hlatest & H).
  apply bind_return_inv in H as (name & t7 & Hname & H).
  apply bind_return_inv in H as (description & t8 & Hdescription & H).
  apply bind_return_inv in H as (homepage & t9 & Hhomepage & H).
  apply bind_return_inv in H as (name' & t10 & Hname' & H).
  apply bind_return_inv in H as (description' & t11 & Hdescription' & H).
  apply bind_return_inv in H as (latest' & t12 & Hlatest' & H).
  apply bind_return_inv in H as (homepage' & t13 & Hhomepage' & H).
  injection H as <- <-. simpl.
  apply silent_trace in Hhomepage' as ->; [|auto with silent].
  pose proof (silent_trace _ _ _ _ (silent_as_str latest) Hlatest'). subst t12.
  apply silent_trace in Hdescription' as ->; [|auto with silent].
  pose proof (silent_trace _ _ _ _ (silent_as_str name) Hname'). subst t10.
  apply silent_trace in Hhomepage as ->; [|auto with silent].
  apply silent_trace in Hdescription as ->; [|auto with silent].
  pose proof (silent_trace _ _ _ _ (silent_py_get _ _ _) Hname). subst t7.
  pose proof (silent_trace _ _ _ _ (silent_py_get _ _ _) Hlatest). subst t6.
  pose proof (silent_trace _ _ _ _ (silent_py_get _ _ _) Htags). subst t5.
  unfold Npm.fetch_npm_latest.
  erewrite run_bind; cycle 1.
  { apply run_try_return. erewrite run_bind by exact Hget.
    erewrite run_bind by exact Hstatus. reflexivity. }
  erewrite run_bind by exact Hbody.
  erewrite run_bind by exact Htags.
  erewrite run_bind by exact Hlatest.
  erewrite run_bind by exact Hname.
  erewrite run_bind by exact Hname'.
  erewrite run_bind by exact Hlatest'.
  reflexivity.
Qed.

End Packages.

Lemma pypi_latest_agrees_witness :
  exists latest tr,
    Pypi.fetch_latest_version (always (ok_response requests_package)) "Requests" [] =
      (Return latest, tr) /\
    Pypi.latest_version latest = "2.32.3".
Proof.
  destruct (Pypi.fetch_package_details (always (ok_response requests_package)) "Requests" [])
    as [[info|e] tr] eqn:E; [|vm_compute in E; discriminate].
  destruct (pypi_latest_agrees (always (ok_response requests_package)) "Requests" info tr E)
    as (latest & Hlatest & Hversion & _).
  exists latest, tr. split; [exact Hlatest|].
  rewrite Hversion. vm_compute in E. by injection E as <- _.
Defined.

Lemma npm_latest_agrees_witness :
  exists tr,
    Npm.fetch_npm_latest (always (ok_response left_pad)) "left-pad" [] =
      (Return {| Npm.package_name := "left-pad"; Npm.l_latest_version := "1.3.0" |}, tr).
Proof.
  destruct (Npm.fetch_npm_package (always (ok_response left_pad)) "left-pad" [])
    as [[package|e] tr] eqn:E; [|vm_compute in E; discriminate].
  exists tr.
  rewrite (npm_latest_agrees (always (ok_response left_pad)) "left-pad" package tr E).
  vm_compute in E. by injection E as <- _.
Defined.

(** ** Replies that lack a key *)

Section MissingKeys.
Context (net : network).

(** X20.  A reply without the list an endpoint reads is an empty result for the
    endpoints that read it with [.get]: the featured questions without
    [items], the Hacker News search without [hits], the subreddit search
    without [data].  The Stack Overflow search validates the reply as a
    whole, and without [items] it fails. *)
Theorem reply_without_list (r : response) (kw : list (string * json))
    (query tagged subreddit : string) :
  is_success r = true ->
  json_body r = Some (JDict kw) ->
  (net (get StackOverflow.featured_url) = Reply r -> lookup_field "items" kw = None ->
   serve (StackOverflow.fetch_featured_questions net) =
     (Ok200 [], [get StackOverflow.featured_url])) /\
  (net (Hn.search_request query) = Reply r -> lookup_field "hits" kw = None ->
   serve (Hn.search_hacker_news net query) = (Ok200 [], [Hn.search_request query])) /\
  (net (Reddit.search_request subreddit query) = Reply r -> lookup_field "data" kw = None ->
   serve (Reddit.search_subreddit net subreddit query) =
     (Ok200 [], [Reddit.search_request subreddit query])) /\
  (net (So.search_request query tagged) = Reply r -> lookup_field "items" kw = None ->
   serve (So.search_stackoverflow net query tagged) =
     (Error 500 "Internal Server Error", [So.search_request query tagged])).
Proof.
  intros Hok Hbody.
  split; [|split; [|split]]; intros Hnet Hnone.
  - unfold serve, StackOverflow.fetch_featured_questions, try_except, mbind, M_bind, bind,
      client_get, raise_for_status, resp_json.
    rewrite Hnet; simpl; rewrite Hok; simpl; rewrite Hbody; simpl. by rewrite Hnone.
  - unfold serve, Hn.search_hacker_news, try_except, mbind, M_bind, bind,
      client_get, raise_for_status, resp_json.
    rewrite Hnet; simpl; rewrite Hok; simpl; rewrite Hbody; simpl. by rewrite Hnone.
  - unfold serve, Reddit.search_subreddit, try_except, mbind, M_bind, bind,
      client_get, raise_for_status, resp_json.
    rewrite Hnet; simpl; rewrite Hok; simpl; rewrite Hbody; simpl. by rewrite Hnone.
  - unfold serve, So.search_stackoverflow, So.SearchResponse_items, required, try_except,
      mbind, M_bind, bind, client_get, raise_for_status, resp_json.
    rewrite Hnet; simpl; rewrite Hok; simpl; rewrite Hbody; simpl. by rewrite Hnone.
Qed.

(** X21.  A package document without a version or a name: both latest-version
    endpoints answer with the version [0.0.0] and the name that was asked
    for. *)
Theorem latest_version_defaults (package_name : string) (r : response)
    (kw info : list (string * json)) :
  is_success r = true ->
  json_body r = Some (JDict kw) ->
  (net (get (Npm.package_url package_name)) = Reply r ->
   lookup_field "dist-tags" kw = None -> lookup_field "name" kw = None ->
   serve (Npm.fetch_npm_latest net package_name) =
     (Ok200 {| Npm.package_name := package_name; Npm.l_latest_version := "0.0.0" |},
      [get (Npm.package_url package_name)])) /\
  (net (get (Pypi.package_url package_name)) = Reply r ->
   lookup_field "info" kw = Some (JDict info) ->
   lookup_field "version" info = None -> lookup_field "name" info = None ->
   serve (Pypi.fetch_latest_version net package_name) =
     (Ok200 {| Pypi.package_name := package_name; Pypi.latest_version := "0.0.0" |},
      [get (Pypi.package_url package_name)])).
Proof.
  intros Hok Hbody. split.
  - intros Hnet Htags Hname.
    unfold serve, Npm.fetch_npm_latest, try_except, mbind, M_bind, bind,
      client_get, raise_for_status, resp_json.
    rewrite Hnet; simpl; rewrite Hok; simpl; rewrite Hbody; simpl. by rewrite Htags, Hname.
  - intros Hnet Hinfo Hversion Hname.
    unfold serve, Pypi.fetch_latest_version, try_except, mbind, M_bind, bind,
      client_get, raise_for_status, resp_json.
    rewrite Hnet; simpl; rewrite Hok; simpl; rewrite Hbody; simpl. rewrite Hinfo. simpl. by rewrite Hversion, Hname.
Qed.

End MissingKeys.

Lemma reply_without_list_witness :
  serve (Hn.search_hacker_news (always (ok_response (JDict [("nbHits", JInt 0)]))) "rocq") =
    (Ok200 [], [Hn.search_request "rocq"]).
Proof.
  destruct (reply_without_list (always (ok_response (JDict [("nbHits", JInt 0)])))
              (ok_response (JDict [("nbHits", JInt 0)])) [("nbHits", JInt 0)]
              "rocq" "" "" eq_refl eq_refl) as (_ & H & _).
  by apply H.
Defined.

Lemma latest_version_defaults_witness :
  serve (Npm.fetch_npm_latest (always (ok_response (JDict [("_id", JStr "x")]))) "x") =
    (Ok200 {| Npm.package_name := "x"; Npm.l_latest_version := "0.0.0" |},
     [get "https://registry.npmjs.org/x"]).
Proof.
  destruct (latest_version_defaults (always (ok_response (JDict [("_id", JStr "x")]))) "x"
              (ok_response (JDict [("_id", JStr "x")])) [("_id", JStr "x")] []
              eq_refl eq_refl) as (H & _).
  by apply H.
Defined.

(** ** The three applications *)

(** X22.  In [aggregator/main.py], too, the sources [GET /features] enumerates
    are exactly the prefixes under which a router is included, and here
    every example endpoint that is advertised is a path the application
    serves. *)
Theorem main_features_match_routes :
  dom Main.features =
    list_to_set (map (fun '(router, prefix) => Aggregator.source_of prefix) Main.included) /\
  map_Forall (fun _ f => Aggregator.example_endpoint f ∈ Aggregator.app_routes Main.app)
    Main.features.
Proof.
  split.
  - vm_compute. reflexivity.
  - apply (bool_decide_unpack _). vm_compute. exact I.
Qed.

(** X23.  [aggregator_main.py] imports the routers of [endpoints/github_ep.py],
    [endpoints/hn.py] and [endpoints/so.py] but does not include them: under
    [/github], [/hackernews] and [/stackoverflow] it serves the routes of
    the [single_application] routers and no others, so the releases and the
    two searches, which [aggregator/ep.py] serves, are not reachable through
    it. *)
Theorem endpoints_routers_not_included :
  Forall (fun included : APIRouter * string =>
            Forall (fun path =>
                      included.2 +:+ path ∈ Aggregator.app_routes Ep.app /\
                      included.2 +:+ path ∉ Aggregator.app_routes Aggregator.app)
              (routes included.1))
    [ (Aggregator.new_github_router, "/github");
      (Aggregator.new_hn_router, "/hackernews");
      (Aggregator.new_stackoverflow_router, "/stackoverflow") ] /\
  List.filter (fun path => bool_decide (Aggregator.first_segment path ∈
                                          ["github"; "hackernews"; "stackoverflow"]))
    (Aggregator.app_routes Aggregator.app) =
    map (fun path => "/github" +:+ path) (routes Github.router) ++
    map (fun path => "/hackernews" +:+ path) (routes HackerNews.router) ++
    map (fun path => "/stackoverflow" +:+ path) (routes StackOverflow.router).
Proof.
  split.
  - apply (bool_decide_unpack _). vm_compute. exact I.
  - vm_compute. reflexivity.
Qed.

(** X24.  No application registers a path twice, and no route is hidden by an
    earlier one: every template, taken as a path, is served by itself.  In
    particular [/codeforces/userinfo/me], declared before
    [/codeforces/userinfo/{handle}], goes to the endpoint of the default
    user, and another handle, such as [tourist], to the second. *)
Theorem routes_distinct_and_reachable :
  Forall (fun app : Aggregator.FastAPI =>
            NoDup (Aggregator.app_routes app) /\
            Forall (fun template => Routing.dispatch app template = Some template)
              (Aggregator.app_routes app))
    [Aggregator.app; Main.app; Ep.app] /\
  Routing.dispatch Aggregator.app "/codeforces/userinfo/me" = Some "/codeforces/userinfo/me" /\
  Routing.dispatch Aggregator.app "/codeforces/userinfo/tourist"
    = Some "/codeforces/userinfo/{handle}".
Proof.
  split; [|split; reflexivity].
  apply (bool_decide_unpack _). vm_compute. exact I.
Qed.

(** X25.  Of the ten example endpoints that [GET /features] of
    [aggregator_main.py] advertises, the one for Reddit matches no route of
    the application; the ones for PyPI and npm are served by the package
    routes, with [latest] and [search] read as package names; the seven
    others are routes of their own. *)
Theorem example_endpoints_served :
  map_Forall (fun source f =>
                let path := Routing.path_of (Aggregator.example_endpoint f) in
                match Routing.dispatch Aggregator.app path with
                | Some template =>
                    source <> "reddit" /\
                    (template = path \/ source = "pypi" \/ source = "npm")
                | None => source = "reddit"
                end)
    Aggregator.features /\
  Routing.dispatch Aggregator.app "/pypi/latest" = Some "/pypi/{package_name}" /\
  Routing.dispatch Aggregator.app "/npm/search" = Some "/npm/{package_name}" /\
  Routing.dispatch Aggregator.app "/reddit/top/programming" = None.
Proof.
  split; [|repeat split; reflexivity].
  apply map_Forall_to_list.
  let l := eval vm_compute in (map_to_list Aggregator.features) in
  change (map_to_list Aggregator.features) with l.
  repeat (apply Forall_cons; split; [vm_compute; (split; [discriminate | auto]) || reflexivity|]).
  apply Forall_nil. exact I.
Qed.

(** ** Endpoints whose settings are in place *)

Lemma emits_extends {A} P n (m : M A) : emits P n m -> sends (fun _ => True) m.
Proof.
  intros H tr. destruct (H tr) as (added & Htr & _ & _).
  exists added. split; [exact Htr|]. by apply Forall_true.
Qed.

Lemma calls_client_get net req : calls (client_get net req).
Proof. intros tr. exists [req]. by rewrite issues_client_get. Qed.

Lemma calls_bind_l {A B} (m : M A) (k : A -> M B) :
  calls m -> (forall a, sends (fun _ => True) (k a)) -> calls (m ≫= k).
Proof.
  intros Hm Hk tr. unfold mbind, M_bind, bind.
  destruct (Hm tr) as (added1 & H1 & Hne).
  destruct (m tr) as [[a|e] tr1]; simpl in *; subst tr1; [|by exists added1].
  destruct (Hk a (tr ++ added1)) as (added2 & H2 & _).
  exists (added1 ++ added2). rewrite H2, app_assoc. split; [reflexivity|].
  destruct added1; [done | discriminate].
Qed.

Lemma calls_ret_bind {A B} (a : A) (k : A -> M B) : calls (k a) -> calls (ret a ≫= k).
Proof. intros H tr. exact (H tr). Qed.

Lemma calls_try_except {A} (body : M A) handler :
  calls body ->
  (forall e h, handler e = Some h -> silent h) ->
  calls (try_except body handler).
Proof.
  intros Hb Hh tr. unfold try_except.
  destruct (Hb tr) as (added & H1 & Hne).
  destruct (body tr) as [[a|e] tr1]; simpl in *; [by exists added|].
  destruct (handler e) as [h|] eqn:E; [|by exists added].
  rewrite (Hh e h E tr1). simpl. by exists added.
Qed.

Lemma calls_run {A} (m : M A) : calls m -> (m []).2 <> [].
Proof. intros H. by destruct (H []) as (added & -> & Hne). Qed.


Ltac calls_tac :=
  repeat first
    [ apply calls_try_except; [|solve [handlers_silent]]
    | apply calls_ret_bind
    | apply calls_bind_l;
        [ first [apply calls_client_get | idtac]
        | intros ?;
          first [eapply (emits_extends (fun _ => True) 1); solve [emits_tac] | idtac] ] ].

(** X26.  With its settings in place an endpoint that requires some does call its
    upstream: the check of the environment is all that stands before the
    first call. *)
Theorem configured_endpoint_calls (d : deployment) (e : endpoint) :
  required_settings e <> [] ->
  configured d e ->
  (handle d e).2 <> [].
Proof.
  intros Hsome Hconf. unfold configured in Hconf. unfold handle.
  destruct e; simpl in Hsome, Hconf; try congruence;
    repeat match goal with
           | H : Forall _ (_ :: _) |- _ =>
               apply Forall_cons in H as [(? & ? & ?%nonempty_true) H]
           end;
    rewrite trace_of_served; apply calls_run;
    unfold Github.fetch_repos, Github.fetch_issues, Github.fetch_my_pull_requests,
      Github.fetch_pull_requests, Github.get_headers, Github.TOKEN,
      Devto.fetch_articles, Devto.fetch_single_article, Devto.get_headers, Devto.API_KEY,
      Kaggle.fetch_datasets, Kaggle.fetch_competitions, Kaggle.get_kaggle_auth,
      Kaggle.KAGGLE_USERNAME, Kaggle.KAGGLE_KEY,
      Codeforces.get_default_user_info, Codeforces.DEFAULT_CODEFORCES_HANDLE,
      GitLab.fetch_projects, GitLab.fetch_issues, GitLab.fetch_pipelines,
      GitLab.get_gitlab_headers, GitLab.TOKEN,
      getenv, getenv_default;
    repeat match goal with
           | H : environ d !! _ = Some _ |- _ => rewrite H; clear H
           end;
    cbn [from_option id truthy_str];
    repeat match goal with
           | H : nonempty _ = true |- _ => rewrite H; clear H
           end;
    cbn [negb orb];
    calls_tac.
  apply sends_bind; [apply (emits_sends _ 0), emits_silent; silent_tac|]. intros [].
  apply sends_bind; [apply (emits_sends _ 0), emits_silent; silent_tac|]. intros projects.
  apply sends_bind; [apply (emits_sends _ 0), emits_silent; silent_tac|]. intros ps.
  apply sends_bind; [|intros results; apply (emits_sends _ 0), emits_silent; silent_tac].
  apply sends_gather, Forall_map, Forall_forall. intros p _.
  apply (emits_sends _ 1). unfold GitLab.get_pipelines_for_project. emits_tac.
Qed.

Lemma configured_endpoint_calls_witness :
  (handle (serving kaggle_environ (down "connection refused")) kaggle_competitions).2 <> [].
Proof.
  apply (configured_endpoint_calls (serving kaggle_environ (down "connection refused"))
           kaggle_competitions).
  - discriminate.
  - repeat constructor; eexists; (split; [reflexivity | discriminate]).
Defined.

(** ** GitLab: the calls of the pipelines fan-out *)

Section GitLabCalls.
Context (environ : gmap string string) (net : network).
Context (headers : list (string * string)).

Lemma project_pipelines_trace p pipelines tr tr' :
  GitLab.get_pipelines_for_project environ net p headers tr = (Return pipelines, tr') ->
  exists kw id,
    p = JDict kw /\ lookup_field "id" kw = Some id /\
    tr' = tr ++ [GitLab.pipelines_request environ id headers].
Proof.
  intros H. unfold GitLab.get_pipelines_for_project in H.
  apply bind_return_inv in H as (id & t1 & Hid & H).
  pose proof (silent_trace _ _ _ _ (silent_py_getitem _ _) Hid). subst t1.
  apply py_getitem_return in Hid as (kw & -> & Hid).
  apply bind_return_inv in H as (name & t2 & Hname & H).
  pose proof (silent_trace _ _ _ _ (silent_py_getitem _ _) Hname). subst t2.
  exists kw, id. split; [reflexivity|]. split; [exact Hid|].
  assert (issues (try_except
                    (resp ← client_get net (GitLab.pipelines_request environ id headers);
                     raise_for_status resp;;
                     pipelines ← resp_json resp;
                     pipelines ← py_iter pipelines;
                     for_each (GitLab.Pipeline_of name) pipelines)
                    (fun e => match e with
                              | HTTPStatusError _ | RequestError _ => Some (ret [])
                              | _ => None
                              end))
            [GitLab.pipelines_request environ id headers]) as Hissues.
  { apply issues_try_except; [|handlers_silent].
    apply issues_call_then; [apply issues_client_get|]. intros resp. silent_tac. }
  specialize (Hissues tr). rewrite H in Hissues. exact Hissues.
Qed.

Lemma gather_pipelines_trace projects results tr tr' :
  gather (map (fun p => GitLab.get_pipelines_for_project environ net p headers) projects) tr
    = (Return results, tr') ->
  exists ids,
    Forall2 (fun p id => exists kw, p = JDict kw /\ lookup_field "id" kw = Some id)
      projects ids /\
    tr' = tr ++ map (fun id => GitLab.pipelines_request environ id headers) ids.
Proof.
  revert tr results tr'. induction projects as [|p ps IH]; intros tr results tr' H.
  - injection H as _ <-. exists []. split; [constructor | simpl; by rewrite app_nil_r].
  - cbn [map] in H. apply gather_cons_return in H as (r & rs & t1 & Hp & Hps & _).
    apply project_pipelines_trace in Hp as (kw & id & -> & Hid & ->).
    apply IH in Hps as (ids & Hall & ->).
    exists (id :: ids). split; [constructor; eauto|].
    by rewrite <- app_assoc.
Qed.

End GitLabCalls.

(** X27.  Whenever [GET /pipelines] answers with a list, it has made the call for
    the projects and then exactly one pipelines call for each project of the
    reply, in the order of the reply, for the project's [id]. *)
Theorem pipelines_requests (environ : gmap string string) (net : network) (r : response)
    (projects : list json) (pipelines : list GitLab.Pipeline) (tr : trace) :
  let headers := [("PRIVATE-TOKEN", GitLab.TOKEN environ)] in
  let first := GitLab.recent_projects_request environ headers in
  net first = Reply r ->
  json_body r = Some (JList projects) ->
  GitLab.fetch_pipelines environ net [] = (Return pipelines, tr) ->
  exists ids,
    Forall2 (fun p id => exists kw, p = JDict kw /\ lookup_field "id" kw = Some id)
      projects ids /\
    tr = first :: map (fun id => GitLab.pipelines_request environ id headers) ids.
Proof.
  intros headers first Hnet Hbody H. unfold GitLab.fetch_pipelines in H.
  apply bind_return_inv in H as (headers' & t1 & Hheaders & H).
  unfold GitLab.get_gitlab_headers in Hheaders.
  destruct (negb (nonempty (GitLab.TOKEN environ))); [discriminate|].
  injection Hheaders as <- <-. fold headers in H.
  apply try_return_inv in H; [|intros [] h ? ? ? [= <-]; discriminate].
  fold first in H.
  erewrite run_bind in H by (by apply client_get_reply).
  apply bind_return_inv in H as ([] & t2 & Hstatus & H).
  pose proof (silent_trace _ _ _ _ (silent_raise_for_status _) Hstatus). subst t2.
  erewrite run_bind in H by (by apply resp_json_some).
  erewrite run_bind in H by reflexivity.
  apply bind_return_inv in H as (results & t3 & Hgather & H).
  injection H as _ <-.
  apply gather_pipelines_trace in Hgather as (ids & Hall & ->).
  by exists ids.
Qed.

Lemma pipelines_requests_witness :
  exists pipelines,
    GitLab.fetch_pipelines gitlab_environ gitlab_net [] =
      (Return pipelines,
       [GitLab.recent_projects_request gitlab_environ [("PRIVATE-TOKEN", "glpat-token")];
        GitLab.pipelines_request gitlab_environ (JInt 7) [("PRIVATE-TOKEN", "glpat-token")];
        GitLab.pipelines_request gitlab_environ (JInt 8) [("PRIVATE-TOKEN", "glpat-token")]]).
Proof.
  destruct (GitLab.fetch_pipelines gitlab_environ gitlab_net []) as [[pipelines|e] tr] eqn:E;
    [|vm_compute in E; discriminate].
  exists pipelines. f_equal.
  destruct (pipelines_requests gitlab_environ gitlab_net
              (ok_response (JList [alpha_project; beta_project]))
              [alpha_project; beta_project] pipelines tr eq_refl eq_refl E)
    as (ids & Hall & ->).
  inversion Hall as [|p1 id1 ps1 ids1 (kw1 & Hp1 & Hid1) Hall1]; subst.
  inversion Hall1 as [|p2 id2 ps2 ids2 (kw2 & Hp2 & Hid2) Hall2]; subst.
  inversion Hall2; subst.
  injection Hp1 as <-. injection Hp2 as <-. simpl in Hid1, Hid2.
  injection Hid1 as <-. injection Hid2 as <-. reflexivity.
Defined.

(** ** The Hacker News search *)

Lemma comprehension_filter_inv {A B} (cond : A -> M bool) (f : A -> M B) (p : A -> bool)
    xs tr ys tr' :
  (forall x t b t', cond x t = (Return b, t') -> b = p x) ->
  comprehension cond f xs tr = (Return ys, tr') ->
  Forall2 (fun x y => p x = true /\ exists t t', f x t = (Return y, t'))
    (List.filter p xs) ys.
Proof.
  intros Hcond. revert tr ys tr'. induction xs as [|x xs IH]; simpl; intros tr ys tr' H.
  - injection H as <- _. constructor.
  - apply bind_return_inv in H as (c & t1 & Hc & H).
    apply Hcond in Hc as ->. destruct (p x) eqn:Hp.
    + apply bind_return_inv in H as (y & t2 & Hy & H).
      apply bind_return_inv in H as (ys' & t3 & Hrest & H).
      injection H as <- _. constructor; eauto.
    + eauto.
Qed.

Lemma has_title_return hit t b t' :
  Hn.has_title hit t = (Return b, t') -> b = titled hit.
Proof.
  unfold Hn.has_title. destruct hit as [| | | | |kw]; try discriminate.
  by intros [= <- _].
Qed.

Lemma hn_Story_of_return hit s t t' :
  titled hit = true -> Hn.Story_of hit t = (Return s, t') -> story_of_hit hit s.
Proof.
  intros Htitled H. destruct hit as [| | | | |kw]; try discriminate.
  unfold Hn.Story_of in H.
  do 5 (erewrite run_bind in H by reflexivity).
  apply bind_return_inv in H as (objectID & t1 & HobjectID & H).
  apply bind_return_inv in H as (title & t2 & Htitle & H).
  apply bind_return_inv in H as (url & t3 & _ & H).
  apply bind_return_inv in H as (points & t4 & Hpoints & H).
  apply bind_return_inv in H as (author & t5 & Hauthor & H).
  injection H as <- _.
  apply as_str_return in HobjectID. apply as_str_return in Htitle.
  apply as_int_return in Hpoints. apply as_str_return in Hauthor.
  exists kw. simpl. split; [reflexivity|].
  unfold titled in Htitled.
  destruct (lookup_field "objectID" kw) as [o|]; simpl in HobjectID; [|discriminate].
  destruct (lookup_field "title" kw) as [t0|]; simpl in Htitle, Htitled; [|discriminate].
  subst. by repeat split.
Qed.

(** X28.  The Hacker News search returns exactly the hits that have a title, in
    upstream order: one story per titled hit, with the hit's [objectID] and
    [title], and its [points] and [author] or their defaults. *)
Theorem search_keeps_titled_hits (net : network) (query : string) (r : response)
    (kw : list (string * json)) (hits : list json) (stories : list Hn.Story) (tr : trace) :
  net (Hn.search_request query) = Reply r ->
  json_body r = Some (JDict kw) ->
  lookup_field "hits" kw = Some (JList hits) ->
  Hn.search_hacker_news net query [] = (Return stories, tr) ->
  Forall2 story_of_hit (List.filter titled hits) stories.
Proof.
  intros Hnet Hbody Hhits H. unfold Hn.search_hacker_news in H.
  apply bind_return_inv in H as (resp & t1 & Hresp & H).
  apply try_return_inv in Hresp;
    [|intros [] h ? ? ? Hh; repeat case_match; simplify_eq; discriminate].
  erewrite run_bind in Hresp by (by apply client_get_reply).
  apply bind_return_inv in Hresp as ([] & t2 & _ & Hresp). injection Hresp as <- _.
  unfold resp_json in H. rewrite Hbody in H.
  erewrite run_bind in H by reflexivity.
  erewrite run_bind in H by (unfold py_get; rewrite Hhits; reflexivity).
  erewrite run_bind in H by reflexivity.
  pose proof (comprehension_filter_inv _ _ titled _ _ _ _ has_title_return H) as Hall.
  eapply Forall2_impl; [exact Hall|].
  intros hit s (Htitled & t & t' & Hs). by eapply hn_Story_of_return.
Qed.

Lemma search_keeps_titled_hits_witness :
  exists stories tr,
    Hn.search_hacker_news (always (ok_response (JDict [("hits", JList two_hits)]))) "rocq" []
      = (Return stories, tr) /\
    map Hn.objectID stories = ["2"].
Proof.
  destruct (Hn.search_hacker_news (always (ok_response (JDict [("hits", JList two_hits)])))
              "rocq" []) as [[stories|e] tr] eqn:E; [|vm_compute in E; discriminate].
  exists stories, tr. split; [reflexivity|].
  pose proof (search_keeps_titled_hits
                (always (ok_response (JDict [("hits", JList two_hits)]))) "rocq"
                (ok_response (JDict [("hits", JList two_hits)]))
                [("hits", JList two_hits)] two_hits stories tr
                eq_refl eq_refl eq_refl E) as Hall.
  simpl in Hall.
  inversion Hall as [|hit s hits' ss (kw & Hhit & Hid & _) Hrest]; subst.
  inversion Hrest; subst. injection Hhit as <-. simpl in Hid. injection Hid as Hid.
  simpl. by rewrite <- Hid.
Defined.

(** ** GeeksForGeeks: the title of the problem of the day *)

(** X29.  Whenever [GET /potd] answers, the answer has a title and a link,
    neither is [null], and the title neither begins nor ends with a
    whitespace character. *)
Theorem potd_title_stripped (net : network)
    (BeautifulSoup : string -> option (list GFG.node))
    (potd : GFG.GFGPOTD) (tr : trace) :
  GFG.get_gfg_potd net BeautifulSoup [] = (Return potd, tr) ->
  exists title link,
    GFG.title potd = Some title /\ GFG.link potd = Some link /\
    no_outer_whitespace title.
Proof.
  intros H. apply potd_returns in H
    as [->|(r & soup & div & name & attrs & children & href & _ & _ & _ & _ & _ & ->)].
  - eexists _, _. split; [reflexivity|]. split; [reflexivity|].
    apply no_outer_whitespace_decide. vm_compute. reflexivity.
  - eexists _, _. split; [reflexivity|]. split; [reflexivity|].
    apply strip_no_outer_whitespace.
Qed.

(** On [padded_page] the title comes without the no-break spaces and the
    thin space around it. *)
Lemma potd_title_stripped_witness :
  serve (GFG.get_gfg_potd (page_net "<html>...</html>") (fun _ => Some padded_page)) =
    (Ok200 {| GFG.title := Some "Two Sum"; GFG.link := Some "/problems/two-sum/1" |},
     [GFG.potd_request]) /\
  no_outer_whitespace "Two Sum".
Proof.
  destruct (GFG.get_gfg_potd (page_net "<html>...</html>") (fun _ => Some padded_page) [])
    as [[potd|e] tr] eqn:E; [|vm_compute in E; discriminate].
  destruct (potd_title_stripped _ _ potd tr E) as (title & link & Htitle & Hlink & Hstrip).
  unfold serve. rewrite E. vm_compute in E. injection E as <- <-.
  simpl in Htitle. injection Htitle as <-. split; [reflexivity | exact Hstrip].
Defined.

(** ** GitLab: projects and issues *)

Lemma Project_of_return p project t t' :
  GitLab.Project_of p t = (Return project, t') ->
  gitlab_entry "name" p (GitLab.id project) (GitLab.name project) (GitLab.url project).
Proof.
  intros H. unfold GitLab.Project_of in H.
  apply bind_return_inv in H as (id & t1 & Hid & H).
  apply bind_return_inv in H as (name & t2 & Hname & H).
  apply bind_return_inv in H as (url & t3 & Hurl & H).
  apply bind_return_inv in H as (id' & t4 & Hid' & H).
  apply bind_return_inv in H as (name' & t5 & Hname' & H).
  apply bind_return_inv in H as (url' & t6 & Hurl' & H).
  injection H as <- _. simpl.
  apply as_int_return in Hid' as ->. apply as_str_return in Hname' as ->.
  apply as_str_return in Hurl' as ->.
  apply py_getitem_return in Hid as (kw & -> & Hid).
  apply py_getitem_return in Hname as (kw1 & [= <-] & Hname).
  apply py_getitem_return in Hurl as (kw2 & [= <-] & Hurl).
  by exists kw.
Qed.

Lemma gitlab_Issue_of_return i issue t t' :
  GitLab.Issue_of i t = (Return issue, t') ->
  gitlab_entry "title" i (GitLab.issue_id issue) (GitLab.title issue) (GitLab.issue_url issue).
Proof.
  intros H. unfold GitLab.Issue_of in H.
  apply bind_return_inv in H as (id & t1 & Hid & H).
  apply bind_return_inv in H as (title & t2 & Htitle & H).
  apply bind_return_inv in H as (url & t3 & Hurl & H).
  apply bind_return_inv in H as (id' & t4 & Hid' & H).
  apply bind_return_inv in H as (title' & t5 & Htitle' & H).
  apply bind_return_inv in H as (url' & t6 & Hurl' & H).
  injection H as <- _. simpl.
  apply as_int_return in Hid' as ->. apply as_str_return in Htitle' as ->.
  apply as_str_return in Hurl' as ->.
  apply py_getitem_return in Hid as (kw & -> & Hid).
  apply py_getitem_return in Htitle as (kw1 & [= <-] & Htitle).
  apply py_getitem_return in Hurl as (kw2 & [= <-] & Hurl).
  by exists kw.
Qed.

(** X30.  [GET /projects] and [GET /issues] return one record for every entry of
    the upstream list, in upstream order, none dropped and none added: the
    record of an entry carries its [id], its [name] or [title], and its
    [web_url].  An entry that lacks one of the three is not passed over; the
    request as a whole does not return. *)
Theorem gitlab_lists_entrywise (environ : gmap string string) (net : network)
    (r : response) (entries : list json) :
  let headers := [("PRIVATE-TOKEN", GitLab.TOKEN environ)] in
  json_body r = Some (JList entries) ->
  (net (GitLab.projects_request environ headers) = Reply r ->
   forall projects tr,
     GitLab.fetch_projects environ net [] = (Return projects, tr) ->
     Forall2 (fun entry project =>
                gitlab_entry "name" entry (GitLab.id project) (GitLab.name project)
                  (GitLab.url project))
       entries projects) /\
  (net (GitLab.issues_request environ headers) = Reply r ->
   forall issues tr,
     GitLab.fetch_issues environ net [] = (Return issues, tr) ->
     Forall2 (fun entry issue =>
                gitlab_entry "title" entry (GitLab.issue_id issue) (GitLab.title issue)
                  (GitLab.issue_url issue))
       entries issues).
Proof.
  intros headers Hbody. split; intros Hnet out tr H.
  - unfold GitLab.fetch_projects in H.
    apply bind_return_inv in H as (headers' & t1 & Hheaders & H).
    unfold GitLab.get_gitlab_headers in Hheaders.
    destruct (negb (nonempty (GitLab.TOKEN environ))); [discriminate|].
    injection Hheaders as <- <-. fold headers in H.
    apply try_return_inv in H; [|intros [] h ? ? ? [= <-]; discriminate].
    erewrite run_bind in H by (by apply client_get_reply).
    apply bind_return_inv in H as ([] & t2 & _ & H).
    unfold resp_json in H. rewrite Hbody in H.
    erewrite run_bind in H by reflexivity. erewrite run_bind in H by reflexivity.
    apply for_each_return_inv in H. eapply Forall2_impl; [exact H|].
    intros entry project (t & t' & Hp). by eapply Project_of_return.
  - unfold GitLab.fetch_issues in H.
    apply bind_return_inv in H as (headers' & t1 & Hheaders & H).
    unfold GitLab.get_gitlab_headers in Hheaders.
    destruct (negb (nonempty (GitLab.TOKEN environ))); [discriminate|].
    injection Hheaders as <- <-. fold headers in H.
    apply try_return_inv in H; [|intros [] h ? ? ? [= <-]; discriminate].
    erewrite run_bind in H by (by apply client_get_reply).
    apply bind_return_inv in H as ([] & t2 & _ & H).
    unfold resp_json in H. rewrite Hbody in H.
    erewrite run_bind in H by reflexivity. erewrite run_bind in H by reflexivity.
    apply for_each_return_inv in H. eapply Forall2_impl; [exact H|].
    intros entry issue (t & t' & Hi). by eapply gitlab_Issue_of_return.
Qed.

Lemma gitlab_lists_entrywise_witness :
  exists projects tr,
    GitLab.fetch_projects gitlab_environ
      (always (ok_response (JList [JDict [("id", JInt 7); ("name", JStr "alpha");
                                          ("web_url", JStr "https://gitlab.com/me/alpha")]])))
      [] = (Return projects, tr) /\
    map GitLab.url projects = ["https://gitlab.com/me/alpha"].
Proof.
  destruct (GitLab.fetch_projects gitlab_environ
              (always (ok_response
                         (JList [JDict [("id", JInt 7); ("name", JStr "alpha");
                                        ("web_url", JStr "https://gitlab.com/me/alpha")]])))
              []) as [[projects|e] tr] eqn:E; [|vm_compute in E; discriminate].
  exists projects, tr. split; [reflexivity|].
  destruct (gitlab_lists_entrywise gitlab_environ
              (always (ok_response
                         (JList [JDict [("id", JInt 7); ("name", JStr "alpha");
                                        ("web_url", JStr "https://gitlab.com/me/alpha")]])))
              (ok_response (JList [JDict [("id", JInt 7); ("name", JStr "alpha");
                                          ("web_url", JStr "https://gitlab.com/me/alpha")]]))
              [JDict [("id", JInt 7); ("name", JStr "alpha");
                      ("web_url", JStr "https://gitlab.com/me/alpha")]]
              eq_refl) as (Hprojects & _).
  specialize (Hprojects eq_refl projects tr E).
  inversion Hprojects as [|entry project es ps (kw & Hentry & _ & _ & Hurl) Hrest]; subst.
  inversion Hrest; subst. injection Hentry as <-. simpl in Hurl. injection Hurl as Hurl.
  simpl. by rewrite <- Hurl.
Defined.
